(** * Token dashboard (static/js/dashboard.js): a shallow embedding

    The dashboard is a browser script: a [TokenDashboard] object with two
    fields of state, a fetch / render cycle and an auto-refresh toggle.
    The embedding follows the script method by method.

    - JavaScript values are the values that [response.json()] can yield
      (plus [undefined] for an absent property).  Numbers are integers
      ([Z]): counts, epoch milliseconds and HTTP status codes; a
      conversion that yields NaN is [None].
    - Strings are [string]s read as UTF-8 bytes.
    - A method that can throw returns a [Completion]; a method that
      touches the page runs in the state-and-exception monad [M] over a
      [World] (the object's fields, the document, the timers, the network
      log, the console).  The conversion of an object to a string or a
      number can throw, and so can every step of the script that
      converts.
    - What the browser supplies and the script only calls (date parsing,
      locale formatting, string-to-number conversion, floating-point
      arithmetic, the wording of native errors) is an interface,
      [Browser].
    - The clock is read by [new Date()]; each reading is an argument of
      the method that takes it.
    - [bindEvents] and [handleRefreshClick] wire the two controls to
      [refreshTokens] and [toggleAutoRefresh]; the inline styles they and
      the row fade-in set, and the timeouts that reset them, are not part
      of the state. *)

From Stdlib Require Import ZArith List String Ascii Bool Lia DecimalString.
Import ListNotations.

#[local] Open Scope string_scope.
#[local] Open Scope Z_scope.

(** ** Strings *)

(** The double quote, written by its code. *)
Definition dquote : ascii := ascii_of_nat 34.

(** [q s] is [s] between double quotes, as in [class="loading"]. *)
Definition q (s : string) : string :=
  String dquote (s ++ String dquote EmptyString).

Definition newline : string := String (ascii_of_nat 10) EmptyString.

(** The lines of a template literal, joined by line feeds. *)
Fixpoint lines (l : list string) : string :=
  match l with
  | [] => EmptyString
  | [s] => s
  | s :: rest => s ++ newline ++ lines rest
  end.

(** [Array.prototype.join]. *)
Fixpoint join (sep : string) (l : list string) : string :=
  match l with
  | [] => EmptyString
  | [s] => s
  | s :: rest => s ++ sep ++ join sep rest
  end.

Definition is_empty (s : string) : bool :=
  match s with EmptyString => true | _ => false end.

(** [starts_with p s]: [s] begins with [p]. *)
Fixpoint starts_with (p s : string) : bool :=
  match p with
  | EmptyString => true
  | String a p' =>
      match s with
      | EmptyString => false
      | String b s' => Ascii.eqb a b && starts_with p' s'
      end
  end.

(** [contains needle hay]: [needle] occurs in [hay]. *)
Fixpoint contains (needle hay : string) : bool :=
  starts_with needle hay ||
  match hay with
  | EmptyString => false
  | String _ hay' => contains needle hay'
  end.



(** The bytes of U+00A0 in UTF-8. *)
Definition byte_C2 : ascii := ascii_of_nat 194.
Definition byte_A0 : ascii := ascii_of_nat 160.

(** Bytes that the serialization of a text node leaves as they are. *)
Definition plain_byte (c : ascii) : bool :=
  negb (Ascii.eqb c "&" || Ascii.eqb c "<" || Ascii.eqb c ">"
        || Ascii.eqb c byte_C2).

Fixpoint plain (s : string) : bool :=
  match s with
  | EmptyString => true
  | String c rest => plain_byte c && plain rest
  end.

(** The decimal digits of an integer, with a sign. *)
Definition decimal (n : Z) : string :=
  NilZero.string_of_int (Z.to_int n).

(** ** JavaScript values *)

#[local] Set Warnings "-register-all".

Inductive JsValue : Type :=
| JUndefined
| JNull
| JBool (b : bool)
| JNum (n : Z)
| JStr (s : string)
| JArr (items : list JsValue)
| JObj (fields : list (string * JsValue)).

(** An [Error] object; the script reads only its [message]. *)
Record Error : Type := mkError { message : string }.

Inductive Completion (A : Type) : Type :=
| Normal (a : A)
| Throw (e : Error).
Arguments Normal {A} a.
Arguments Throw {A} e.

Definition cbind {A B} (c : Completion A) (k : A -> Completion B)
  : Completion B :=
  match c with
  | Normal a => k a
  | Throw e => Throw e
  end.

Declare Scope completion_scope.
Delimit Scope completion_scope with completion.
Notation "'let?' x ':=' c 'in' k" := (cbind c (fun x => k))
  (at level 10, x name, c at level 100, k at level 200)
  : completion_scope.
#[local] Open Scope completion_scope.

(** Sequential [map] over a list with the element's index, stopping at
    the first throw: [Array.prototype.map] with a callback that can
    throw. *)
Fixpoint mapi_from {A B} (f : A -> nat -> Completion B) (i : nat)
  (l : list A) : Completion (list B) :=
  match l with
  | [] => Normal []
  | a :: rest =>
      let? b := f a i in
      let? bs := mapi_from f (S i) rest in
      Normal (b :: bs)
  end.

(** ToBoolean. *)
Definition truthy (v : JsValue) : bool :=
  match v with
  | JUndefined | JNull => false
  | JBool b => b
  | JNum n => negb (n =? 0)
  | JStr s => negb (is_empty s)
  | JArr _ | JObj _ => true
  end.

(** [a || b]. *)
Definition js_or (a b : JsValue) : JsValue :=
  if truthy a then a else b.

(** [a ?? b]. *)
Definition js_nullish (a b : JsValue) : JsValue :=
  match a with
  | JUndefined | JNull => b
  | _ => a
  end.

(** [a === b] where [b] is a number literal. *)
Definition strict_eq_num (a : JsValue) (n : Z) : bool :=
  match a with
  | JNum m => m =? n
  | _ => false
  end.

Fixpoint lookup {V : Type} (k : string) (fields : list (string * V))
  : option V :=
  match fields with
  | [] => None
  | (k', v) :: rest => if String.eqb k k' then Some v else lookup k rest
  end.

(** ** The page

    The state the script reads and writes: its own two fields, the
    elements of the document it looks up, the timers it has set, the
    requests it has sent and the console. *)

(** The fields of the [TokenDashboard] object.  [autoRefreshInterval] is
    [null] or a handle returned by [setInterval], a positive integer. *)
Record Dashboard : Type := mkDashboard {
  autoRefreshInterval : option positive;
  isAutoRefreshEnabled : bool;
  apiBaseUrl : string;
  refreshIntervalMs : Z
}.

(** What a repeating timer runs: [() => this.refreshTokens()], or the
    step of a counter animation, a closure over the element, the value
    the counter started from, the increment, the target and the count of
    the steps made.  The increment, [(targetValue - currentValue) /
    steps], is kept as the number of [targetValue] that it was computed
    from ([None]: NaN). *)
Inductive Callback : Type :=
| RefreshTokensCb
| AnimateNumberCb (elementId : string) (currentValue : Z)
    (targetNumber : option Z) (targetValue : JsValue) (step : nat).

Record Timer : Type := mkTimer {
  handle : positive;
  delay : Z;
  callback : Callback
}.

(** The element matching [.switch]. *)
Record SwitchEl : Type := mkSwitch {
  classList : list string;
  aria_checked : option string
}.

(** The document: the content ([innerHTML] or [textContent]) of each
    element that has an id, and the switch if there is one. *)
Record Document : Type := mkDocument {
  elements : list (string * string);
  switch : option SwitchEl
}.

Record World : Type := mkWorld {
  dashboard : Dashboard;
  document : Document;
  next_handle : positive;
  intervals : list Timer;
  requests : list string;
  console : list (string * Error)
}.

(** The constructor's assignments. *)
Definition constructor_fields : Dashboard :=
  mkDashboard None false "/api" 30000.

Definition M (A : Type) : Type := World -> Completion A * World.

Definition ret {A} (a : A) : M A := fun w => (Normal a, w).

Definition throw {A} (e : Error) : M A := fun w => (Throw e, w).

Definition bind {A B} (m : M A) (k : A -> M B) : M B :=
  fun w =>
    match m w with
    | (Normal a, w') => k a w'
    | (Throw e, w') => (Throw e, w')
    end.

(** [try { body } catch (error) { handler }]. *)
Definition try_catch {A} (body : M A) (handler : Error -> M A) : M A :=
  fun w =>
    match body w with
    | (Normal a, w') => (Normal a, w')
    | (Throw e, w') => handler e w'
    end.

Definition lift {A} (c : Completion A) : M A := fun w => (c, w).

Definition gets {A} (f : World -> A) : M A := fun w => (Normal (f w), w).

Definition modify (f : World -> World) : M unit :=
  fun w => (Normal tt, f w).

Declare Scope m_scope.
Delimit Scope m_scope with m.
Notation "x <- c ;; k" := (bind c (fun x => k))
  (at level 61, c at next level, right associativity) : m_scope.
Notation "c ;; k" := (bind c (fun _ => k))
  (at level 61, right associativity) : m_scope.
#[local] Open Scope m_scope.

(** The final state and the completion of a run. *)
Definition exec {A} (m : M A) (w : World) : World := snd (m w).
Definition completion {A} (m : M A) (w : World) : Completion A := fst (m w).

(** *** State updates *)

Definition set_dashboard (d : Dashboard) (w : World) : World :=
  mkWorld d (document w) (next_handle w) (intervals w) (requests w)
    (console w).

Definition set_document (d : Document) (w : World) : World :=
  mkWorld (dashboard w) d (next_handle w) (intervals w) (requests w)
    (console w).

Definition set_intervals (l : list Timer) (w : World) : World :=
  mkWorld (dashboard w) (document w) (next_handle w) l (requests w)
    (console w).

Definition set_autoRefreshInterval (h : option positive) (w : World)
  : World :=
  let d := dashboard w in
  set_dashboard
    (mkDashboard h (isAutoRefreshEnabled d) (apiBaseUrl d)
       (refreshIntervalMs d)) w.

Definition set_isAutoRefreshEnabled (b : bool) (w : World) : World :=
  let d := dashboard w in
  set_dashboard
    (mkDashboard (autoRefreshInterval d) b (apiBaseUrl d)
       (refreshIntervalMs d)) w.

Fixpoint update (k v : string) (l : list (string * string))
  : list (string * string) :=
  match l with
  | [] => []
  | (k', v') :: rest =>
      if String.eqb k k' then (k', v) :: rest
      else (k', v') :: update k v rest
  end.

(** ** The browser interface

    What the script calls and the browser implements.  A time value is
    the number of milliseconds since the epoch; [None] is NaN (an
    invalid date). *)
Class Browser : Type := {
  (** the time value of [new Date(s)] for a string [s] *)
  Date_parse : string -> option Z;
  (** StringToNumber, on the strings whose value is an integer *)
  StringToNumber : string -> option Z;
  (** [parseInt(s)] *)
  parseInt : string -> option Z;
  (** Number::toString of an integer of 22 digits or more: the exponent
      form, as in [1e+21] *)
  Number_exponent_form : Z -> string;
  (** the exponent form is made of digits, a point, [e] and signs *)
  Number_exponent_form_plain :
    forall n, plain (Number_exponent_form n) = true;
  (** [Math.round(currentValue + increment * step)] with [increment] the
      quotient [(target - currentValue) / 15], in the floating-point
      arithmetic of the engine; [target] and the result are numbers,
      [None] NaN *)
  Math_round_step : Z -> option Z -> nat -> option Z;
  (** [date.toLocaleString('en-US', {year: 'numeric', month: '2-digit',
      day: '2-digit', hour: '2-digit', minute: '2-digit',
      hour12: false})] *)
  toLocaleString : Z -> Completion string;
  (** [date.toLocaleTimeString('en-US', {hour12: false,
      hour: '2-digit', minute: '2-digit', second: '2-digit'})] *)
  toLocaleTimeString : Z -> string;
  (** the message of the TypeError for reading property [k] of [null]
      or [undefined] *)
  cannot_read_message : JsValue -> string -> string;
  (** the message of the TypeError for setting property [k] of [null] *)
  cannot_set_message : string -> string;
  (** the message of the TypeError for calling [v.k] when it is not a
      function *)
  not_a_function_message : JsValue -> string -> string;
  (** the message of the TypeError for an object that has no primitive
      value *)
  cannot_convert_message : string
}.

Section Methods.

Context {browser : Browser}.

(** Number::toString, on the integers: the decimal digits, with a sign,
    below 1e21 in magnitude, the exponent form from there on. *)
Definition Number_toString (n : Z) : string :=
  if Z.abs n <? 1000000000000000000000 then decimal n
  else Number_exponent_form n.

(** ToString.  An array is the join of its elements, [null] and
    [undefined] elements giving the empty string.  An object of
    [response.json()] is converted by [Object.prototype.toString], which
    gives ["[object Object]"], unless it has a property [toString] of
    its own: no value of JSON can be called, [Object.prototype.valueOf]
    returns the object, and the conversion throws a TypeError. *)
Fixpoint ToString (v : JsValue) : Completion string :=
  match v with
  | JUndefined => Normal "undefined"
  | JNull => Normal "null"
  | JBool true => Normal "true"
  | JBool false => Normal "false"
  | JNum n => Normal (Number_toString n)
  | JStr s => Normal s
  | JArr items =>
      let? parts :=
        (fix each (l : list JsValue) : Completion (list string) :=
           match l with
           | [] => Normal []
           | x :: rest =>
               let? s := match x with
                         | JUndefined | JNull => Normal EmptyString
                         | _ => ToString x
                         end in
               let? ss := each rest in
               Normal (s :: ss)
           end) items in
      Normal (join "," parts)
  | JObj fields =>
      match lookup "toString" fields with
      | Some _ => Throw (mkError cannot_convert_message)
      | None => Normal "[object Object]"
      end
  end.

(** [v.k], for the property names the script reads: the fields of a
    record, [tokens], the counters and [length].  The length of a
    string is counted in bytes; the script only asks whether it is 0. *)
Definition get (v : JsValue) (k : string) : Completion JsValue :=
  match v with
  | JUndefined | JNull => Throw (mkError (cannot_read_message v k))
  | JObj fields =>
      match lookup k fields with
      | Some x => Normal x
      | None => Normal JUndefined
      end
  | JArr items =>
      if String.eqb k "length" then Normal (JNum (Z.of_nat (List.length items)))
      else Normal JUndefined
  | JStr s =>
      if String.eqb k "length" then Normal (JNum (Z.of_nat (String.length s)))
      else Normal JUndefined
  | JBool _ | JNum _ => Normal JUndefined
  end.

(** ToNumber.  An array or an object is first converted to a primitive
    value, which is its string or a TypeError as in [ToString]. *)
Definition ToNumber (v : JsValue) : Completion (option Z) :=
  match v with
  | JUndefined => Normal None
  | JNull => Normal (Some 0)
  | JBool true => Normal (Some 1)
  | JBool false => Normal (Some 0)
  | JNum n => Normal (Some n)
  | JStr s => Normal (StringToNumber s)
  | JArr _ | JObj _ => let? s := ToString v in Normal (StringToNumber s)
  end.

(** [a <= n] where [n] is a number literal. *)
Definition js_le_num (a : JsValue) (n : Z) : Completion bool :=
  let? number := ToNumber a in
  Normal match number with
         | Some m => m <=? n
         | None => false
         end.

(** TimeClip: a time value beyond 8.64e15 ms is NaN. *)
Definition TimeClip (t : Z) : option Z :=
  if Z.abs t <=? 8640000000000000 then Some t else None.

(** The time value of [new Date(v)]. *)
Definition Date_new (v : JsValue) : Completion (option Z) :=
  match v with
  | JStr s => Normal (Date_parse s)
  | JArr _ | JObj _ => let? s := ToString v in Normal (Date_parse s)
  | _ =>
      let? number := ToNumber v in
      Normal match number with
             | Some t => TimeClip t
             | None => None
             end
  end.

(** [a < b] on two dates: false when either time value is NaN. *)
Definition date_lt (a b : option Z) : bool :=
  match a, b with
  | Some x, Some y => x <? y
  | _, _ => false
  end.

(** *** escapeHtml

    [div.textContent = text; return div.innerHTML]: the text becomes the
    one text node of a fresh [div], whose serialization replaces [&] by
    [&amp;], U+00A0 (the bytes C2 A0) by [&nbsp;], [<] by [&lt;] and [>]
    by [&gt;]. *)
Fixpoint escape_text (s : string) : string :=
  match s with
  | EmptyString => EmptyString
  | String c rest =>
      if Ascii.eqb c "&" then "&amp;" ++ escape_text rest
      else if Ascii.eqb c "<" then "&lt;" ++ escape_text rest
      else if Ascii.eqb c ">" then "&gt;" ++ escape_text rest
      else if Ascii.eqb c byte_C2 then
        match rest with
        | String d rest' =>
            if Ascii.eqb d byte_A0 then "&nbsp;" ++ escape_text rest'
            else String c (escape_text rest)
        | EmptyString => String c EmptyString
        end
      else String c (escape_text rest)
  end.

(** Setting [textContent]: [null] and [undefined] give no text, any
    other value its string. *)
Definition textContent_of (text : JsValue) : Completion string :=
  match text with
  | JUndefined | JNull => Normal EmptyString
  | _ => ToString text
  end.

Definition escapeHtml (text : JsValue) : Completion string :=
  let? content := textContent_of text in
  Normal (escape_text content).

(** *** Status *)

(** [isExpired(token)]; [now] is the time value of its [new Date()]. *)
Definition isExpired (now : Z) (token : JsValue) : Completion bool :=
  let? expires_at := get token "expires_at" in
  if negb (truthy expires_at) then Normal false
  else
    let? date := Date_new expires_at in
    Normal (date_lt date (Some now)).

Definition getStatusClass (now : Z) (token : JsValue) : Completion string :=
  let? expired := isExpired now token in
  if expired then Normal "status-expired"
  else
    let? usage := get token "remaining_usage" in
    let remaining := js_nullish usage (JNum 0) in
    if strict_eq_num remaining 0 then Normal "status-exhausted"
    else
      let? low := js_le_num remaining 5 in
      if low then Normal "status-low"
      else Normal "status-active".

Definition getStatusText (now : Z) (token : JsValue) : Completion string :=
  let? expired := isExpired now token in
  if expired then Normal "Expired"
  else
    let? usage := get token "remaining_usage" in
    let remaining := js_nullish usage (JNum 0) in
    if strict_eq_num remaining 0 then Normal "Exhausted"
    else
      let? low := js_le_num remaining 5 in
      if low then Normal "Low"
      else Normal "Active".

(** *** formatDateTime

    The [try] block holds [new Date(dateStr)] and the formatting; what
    either throws is caught and gives the dash. *)
Definition formatDateTime (dateStr : JsValue) : string :=
  if negb (truthy dateStr) then "-"
  else
    match Date_new dateStr with
    | Normal None => "-"
    | Normal (Some t) =>
        match toLocaleString t with
        | Normal s => s
        | Throw _ => "-"
        end
    | Throw _ => "-"
    end.

(** *** createTokenRow *)

(** The template literal of [createTokenRow], with its nine
    interpolations. *)
Definition row_markup
  (index email preview auth usage expires last cls txt : string) : string :=
  lines
    [ EmptyString;
      "            <tr data-index=" ++ q index ++ ">";
      "                <td>" ++ email ++ "</td>";
      "                <td><span class=" ++ q "token-preview" ++ ">"
        ++ preview ++ "</span></td>";
      "                <td>" ++ auth ++ "</td>";
      "                <td>" ++ usage ++ "</td>";
      "                <td>" ++ expires ++ "</td>";
      "                <td>" ++ last ++ "</td>";
      "                <td><span class=" ++ q ("status-badge " ++ cls) ++ ">"
        ++ txt ++ "</span></td>";
      "            </tr>";
      "        " ].

(** [createTokenRow(token, index)].  [getStatusClass] and [getStatusText]
    each read the clock on their own: [now_class] and [now_text] are the
    two readings.  The interpolations are evaluated and converted to
    strings from left to right. *)
Definition createTokenRow (now_class now_text : Z) (token : JsValue)
  (index : nat) : Completion string :=
  let? statusClass := getStatusClass now_class token in
  let? statusText := getStatusText now_text token in
  let? user_email := get token "user_email" in
  let? email := escapeHtml (js_or user_email (JStr "unknown")) in
  let? token_preview := get token "token_preview" in
  let? preview := escapeHtml (js_or token_preview (JStr "N/A")) in
  let? auth_type := get token "auth_type" in
  let? auth := escapeHtml (js_or auth_type (JStr "social")) in
  let? remaining_usage := get token "remaining_usage" in
  let? usage := ToString (js_nullish remaining_usage (JNum 0)) in
  let? expires_at := get token "expires_at" in
  let? last_used := get token "last_used" in
  Normal
    (row_markup
       (Number_toString (Z.of_nat index))
       email preview auth usage
       (formatDateTime expires_at)
       (formatDateTime last_used)
       statusClass statusText).

(** *** DOM and timers *)

(** [document.getElementById(id)]: the element, named by its id, or
    [null]. *)
Definition getElementById (id : string) : M (option string) :=
  gets (fun w =>
          match lookup id (elements (document w)) with
          | Some _ => Some id
          | None => None
          end).

Definition content_of (id : string) (w : World) : option string :=
  lookup id (elements (document w)).

(** [element.innerHTML = html] and [element.textContent = text]; on
    [null] a TypeError. *)
Definition set_content (prop : string) (element : option string)
  (content : string) : M unit :=
  match element with
  | None => throw (mkError (cannot_set_message prop))
  | Some id =>
      modify (fun w =>
                set_document
                  (mkDocument (update id content (elements (document w)))
                     (switch (document w))) w)
  end.

Definition set_innerHTML := set_content "innerHTML".
Definition set_textContent := set_content "textContent".

(** [setInterval(callback, ms)]: a fresh handle. *)
Definition setInterval (cb : Callback) (ms : Z) : M positive :=
  fun w =>
    let h := next_handle w in
    (Normal h,
     mkWorld (dashboard w) (document w) (Pos.succ h)
       (intervals w ++ [mkTimer h ms cb]) (requests w) (console w)).

(** [clearInterval(h)]. *)
Definition clearInterval (h : positive) : M unit :=
  modify (fun w =>
            mkWorld (dashboard w) (document w) (next_handle w)
              (filter (fun t => negb (Pos.eqb (handle t) h)) (intervals w))
              (requests w) (console w)).

(** [console.error(label, error)]. *)
Definition console_error (label : string) (e : Error) : M unit :=
  modify (fun w =>
            mkWorld (dashboard w) (document w) (next_handle w) (intervals w)
              (requests w) (console w ++ [(label, e)])).

(** *** The network *)

(** A [Response]: its status line and what [response.json()] settles
    to. *)
Record Response : Type := mkResponse {
  status : Z;
  statusText : string;
  json : Completion JsValue
}.

(** [response.ok]: the status is in the range 200 to 299. *)
Definition ok (r : Response) : bool :=
  (200 <=? status r) && (status r <=? 299).

(** What [fetch] settles to: a rejection (a network error) or a
    response. *)
Inductive FetchOutcome : Type :=
| Rejected (e : Error)
| Resolved (r : Response).

(** [await fetch(url)], the network answering [outcome]. *)
Definition fetch (url : string) (outcome : FetchOutcome) : M Response :=
  fun w =>
    (match outcome with
     | Rejected e => Throw e
     | Resolved r => Normal r
     end,
     mkWorld (dashboard w) (document w) (next_handle w) (intervals w)
       (requests w ++ [url]) (console w)).

(** *** Placeholders *)

Definition loading_markup : string :=
  lines
    [ EmptyString;
      "            <tr>";
      "                <td colspan=" ++ q "7" ++ " class=" ++ q "loading"
        ++ ">";
      "                    <div class=" ++ q "spinner" ++ "></div>";
      "                    Loading token data...";
      "                </td>";
      "            </tr>";
      "        " ].

Definition error_markup (escaped : string) : string :=
  lines
    [ EmptyString;
      "            <tr>";
      "                <td colspan=" ++ q "7" ++ ">";
      "                    <div class=" ++ q "error" ++ ">" ++ escaped
        ++ "</div>";
      "                </td>";
      "            </tr>";
      "        " ].

Definition empty_markup : string :=
  lines
    [ EmptyString;
      "            <tr>";
      "                <td colspan=" ++ q "7" ++ ">";
      "                    <div class=" ++ q "empty-state" ++ ">";
      "                        <div class=" ++ q "empty-state-icon"
        ++ ">~</div>";
      "                        <p>No token data available</p>";
      "                    </div>";
      "                </td>";
      "            </tr>";
      "        " ].

Definition showLoading (container : option string) : M unit :=
  set_innerHTML container loading_markup.

Definition showError (container : option string) (message : string)
  : M unit :=
  escaped <- lift (escapeHtml (JStr message)) ;;
  set_innerHTML container (error_markup escaped).

Definition showEmpty (container : option string) : M unit :=
  set_innerHTML container empty_markup.

(** *** Rendering a response *)

(** [updateTokenTable(data)].  [clock i] is the pair of clock readings
    of row [i].  The fade-in of the rows that ends the method sets inline
    styles only and is left out. *)
Definition updateTokenTable (clock : nat -> Z * Z) (data : JsValue)
  : M unit :=
  tbody <- getElementById "tokenTableBody" ;;
  tokens <- lift (get data "tokens") ;;
  no_tokens <-
    (if negb (truthy tokens) then ret true
     else
       len <- lift (get tokens "length") ;;
       ret (strict_eq_num len 0)) ;;
  if no_tokens : bool then showEmpty tbody
  else
    rows <-
      lift
        (match tokens with
         | JArr items =>
             mapi_from
               (fun token index =>
                  createTokenRow (fst (clock index)) (snd (clock index))
                    token index)
               0%nat items
         | _ => Throw (mkError (not_a_function_message tokens "map"))
         end) ;;
    set_innerHTML tbody (join EmptyString rows).

(** [animateNumber(elementId, targetValue)]: fifteen steps, 20 ms
    apart.  The subtraction that gives the increment converts
    [targetValue] to a number. *)
Definition animateNumber (elementId : string) (targetValue : JsValue)
  : M unit :=
  element <- getElementById elementId ;;
  match element with
  | None => ret tt
  | Some id =>
      text <- gets (content_of id) ;;
      let currentValue :=
        match text with
        | Some t => match parseInt t with Some n => n | None => 0 end
        | None => 0
        end in
      if strict_eq_num targetValue currentValue then ret tt
      else
        targetNumber <- lift (ToNumber targetValue) ;;
        _ <- setInterval
               (AnimateNumberCb id currentValue targetNumber targetValue
                  0%nat)
               (300 / 15) ;;
        ret tt
  end.

Definition updateStatusBar (data : JsValue) : M unit :=
  total_tokens <- lift (get data "total_tokens") ;;
  animateNumber "totalTokens" (js_or total_tokens (JNum 0)) ;;
  active_tokens <- lift (get data "active_tokens") ;;
  animateNumber "activeTokens" (js_or active_tokens (JNum 0)).

Definition updateElement (id content : string) : M unit :=
  element <- getElementById id ;;
  match element with
  | Some _ => set_textContent element content
  | None => ret tt
  end.

Definition updateLastUpdateTime (now : Z) : M unit :=
  updateElement "lastUpdate" (toLocaleTimeString now).

(** *** refreshTokens
    [outcome] is what the network answers, [clock] the clock readings
    of the rows, [now] the reading of [updateLastUpdateTime]. *)
Definition refreshTokens (outcome : FetchOutcome) (clock : nat -> Z * Z)
  (now : Z) : M unit :=
  tbody <- getElementById "tokenTableBody" ;;
  showLoading tbody ;;
  try_catch
    (base <- gets (fun w => apiBaseUrl (dashboard w)) ;;
     response <- fetch (base ++ "/tokens") outcome ;;
     (if negb (ok response) then
        throw
          (mkError
             ("HTTP " ++ Number_toString (status response) ++ ": "
                ++ statusText response))
      else ret tt) ;;
     data <- lift (json response) ;;
     updateTokenTable clock data ;;
     updateStatusBar data ;;
     updateLastUpdateTime now)
    (fun error =>
       console_error "Failed to refresh token data:" error ;;
       showError tbody ("Failed to load: " ++ message error)).

(** *** Auto-refresh *)

Definition startAutoRefresh : M unit :=
  ms <- gets (fun w => refreshIntervalMs (dashboard w)) ;;
  h <- setInterval RefreshTokensCb ms ;;
  modify (set_autoRefreshInterval (Some h)) ;;
  modify (set_isAutoRefreshEnabled true).

Definition stopAutoRefresh : M unit :=
  interval <- gets (fun w => autoRefreshInterval (dashboard w)) ;;
  match interval with
  | Some h =>
      clearInterval h ;;
      modify (set_autoRefreshInterval None)
  | None => ret tt
  end ;;
  modify (set_isAutoRefreshEnabled false).

(** [document.querySelector('.switch')]. *)
Definition querySelector_switch : M (option SwitchEl) :=
  gets (fun w => switch (document w)).

Definition set_switch (sw : SwitchEl) : M unit :=
  modify (fun w =>
            set_document (mkDocument (elements (document w)) (Some sw)) w).

(** [switchEl.classList.add(c)] and [remove(c)]; on [null] a
    TypeError. *)
Definition classList_add (c : string) : M unit :=
  switchEl <- querySelector_switch ;;
  match switchEl with
  | None => throw (mkError (cannot_read_message JNull "classList"))
  | Some sw =>
      set_switch
        (mkSwitch
           (if existsb (String.eqb c) (classList sw) then classList sw
            else classList sw ++ [c])
           (aria_checked sw))
  end.

Definition classList_remove (c : string) : M unit :=
  switchEl <- querySelector_switch ;;
  match switchEl with
  | None => throw (mkError (cannot_read_message JNull "classList"))
  | Some sw =>
      set_switch
        (mkSwitch
           (filter (fun c' => negb (String.eqb c c')) (classList sw))
           (aria_checked sw))
  end.

(** [switchEl.setAttribute('aria-checked', v)]. *)
Definition set_aria_checked (v : string) : M unit :=
  switchEl <- querySelector_switch ;;
  match switchEl with
  | None => throw (mkError (cannot_read_message JNull "setAttribute"))
  | Some sw => set_switch (mkSwitch (classList sw) (Some v))
  end.

Definition toggleAutoRefresh : M unit :=
  enabled <- gets (fun w => isAutoRefreshEnabled (dashboard w)) ;;
  if enabled : bool then
    stopAutoRefresh ;;
    classList_remove "active" ;;
    set_aria_checked "false"
  else
    startAutoRefresh ;;
    classList_add "active" ;;
    set_aria_checked "true".

(** *** Timers firing *)

(** Whether the timer [h] is set and runs [refreshTokens]. *)
Definition is_refresh_timer (h : positive) (t : Timer) : bool :=
  Pos.eqb (handle t) h &&
  match callback t with
  | RefreshTokensCb => true
  | AnimateNumberCb _ _ _ _ _ => false
  end.

(** [step++] in the closure of the animation timer [h]. *)
Definition count_step (h : positive) (t : Timer) : Timer :=
  match callback t with
  | AnimateNumberCb id currentValue targetNumber targetValue step =>
      if Pos.eqb (handle t) h then
        mkTimer (handle t) (delay t)
          (AnimateNumberCb id currentValue targetNumber targetValue (S step))
      else t
  | RefreshTokensCb => t
  end.

(** The text of a number that may be NaN. *)
Definition number_text (number : option Z) : string :=
  match number with
  | Some n => Number_toString n
  | None => "NaN"
  end.

(** The callback that [animateNumber] hands to [setInterval], run by
    the timer [h] for the time after [step]: on the fifteenth step it
    writes the target and clears its timer, before that the rounded
    value on the way. *)
Definition animateNumber_step (h : positive) (elementId : string)
  (currentValue : Z) (targetNumber : option Z) (targetValue : JsValue)
  (step : nat) : M unit :=
  modify (fun w => set_intervals (map (count_step h) (intervals w)) w) ;;
  if (15 <=? S step)%nat then
    text <- lift (textContent_of targetValue) ;;
    set_textContent (Some elementId) text ;;
    clearInterval h
  else
    set_textContent (Some elementId)
      (number_text (Math_round_step currentValue targetNumber (S step))).

(** The timer [h] fires, if it is still set: the auto-refresh timer runs
    [refreshTokens], a timer of the counter animation its step.  A
    handle names one timer; in a state in which two timers share a
    handle the refresh timer is the one that runs. *)
Definition tick (h : positive) (outcome : FetchOutcome)
  (clock : nat -> Z * Z) (now : Z) : M unit :=
  timers <- gets intervals ;;
  if existsb (is_refresh_timer h) timers
  then refreshTokens outcome clock now
  else
    match find (fun t => Pos.eqb (handle t) h) timers with
    | Some t =>
        match callback t with
        | AnimateNumberCb id currentValue targetNumber targetValue step =>
            animateNumber_step h id currentValue targetNumber targetValue
              step
        | RefreshTokensCb => ret tt
        end
    | None => ret tt
    end.

End Methods.

(** ** A browser to run examples in

    Dates are written as their epoch milliseconds in decimal digits;
    the locale formats print the time value. *)
Definition decimal_value (s : string) : option Z :=
  match s with
  | EmptyString => None
  | _ => option_map Z.of_int (NilEmpty.int_of_string s)
  end.

(** A string of digits without the zeros that end it. *)
Fixpoint strip_zeros (s : string) : string :=
  match s with
  | EmptyString => EmptyString
  | String c rest =>
      match strip_zeros rest with
      | EmptyString =>
          if Ascii.eqb c "0" then EmptyString else String c EmptyString
      | kept => String c kept
      end
  end.

(** The exponent form of an integer whose decimal digits are its
    shortest ones: [1e+21], [-1.5e+22]. *)
Definition exponent_form (n : Z) : string :=
  match decimal (Z.abs n) with
  | EmptyString => "0"
  | String d rest =>
      (if n <? 0 then "-" else EmptyString)
      ++ String d
           (match strip_zeros rest with
            | EmptyString => EmptyString
            | kept => "." ++ kept
            end)
      ++ "e+" ++ decimal (Z.of_nat (String.length rest))
  end.

Definition keep_plain (s : string) : string :=
  if plain s then s else "NaN".

Definition keep_plain_is_plain (s : string)
  : plain (keep_plain s) = true :=
  (if plain s as b return (plain s = b -> plain (if b then s else "NaN") = true)
   then fun H => H
   else fun _ => eq_refl) eq_refl.

(** [Math.round(currentValue + (target - currentValue) * step / 15)] in
    exact arithmetic: the floor of the value plus a half. *)
Definition exact_round_step (currentValue : Z) (target : option Z)
  (step : nat) : option Z :=
  match target with
  | Some t =>
      Some ((2 * (15 * currentValue + (t - currentValue) * Z.of_nat step)
             + 15) / 30)
  | None => None
  end.

Definition example_browser : Browser :=
  {| Date_parse := decimal_value;
     StringToNumber := decimal_value;
     parseInt := decimal_value;
     Number_exponent_form := fun n => keep_plain (exponent_form n);
     Number_exponent_form_plain := fun n => keep_plain_is_plain (exponent_form n);
     Math_round_step := exact_round_step;
     toLocaleString := fun t => Normal (decimal t);
     toLocaleTimeString := decimal;
     cannot_read_message := fun _ k => "Cannot read properties: " ++ k;
     cannot_set_message := fun k => "Cannot set properties: " ++ k;
     not_a_function_message := fun _ k => k ++ " is not a function";
     cannot_convert_message := "Cannot convert object to primitive value" |}.

(** A page with the elements the script looks up, as the constructor
    leaves it. *)
Definition example_page : World :=
  mkWorld constructor_fields
    (mkDocument
       [ ("tokenTableBody", EmptyString); ("totalTokens", "0");
         ("activeTokens", "0"); ("lastUpdate", "-") ]
       (Some (mkSwitch ["switch"] (Some "false"))))
    1%positive [] [] [].

Definition example_clock : nat -> Z * Z := fun _ => (2000, 2000).

(** A page that has neither the table body nor the switch. *)
Definition bare_page : World :=
  mkWorld constructor_fields (mkDocument [] None) 1%positive [] [] [].

(** An object that has no primitive value: [{"toString": 0}]. *)
Definition no_primitive : JsValue := JObj [("toString", JNum 0)].

(** ** What the theorems speak of

    The status precedence and the failure kinds in the words of the
    specification, and the properties of strings and states that the
    theorems state. *)

(** Whether a record's [expires_at] is present and strictly in the past
    at [now]. *)
Definition present_and_past {browser : Browser} (now : Z)
  (expires_at : option JsValue) : bool :=
  match expires_at with
  | Some (JStr s) =>
      match Date_parse s with
      | Some t => t <? now
      | None => false
      end
  | _ => false
  end.

(** The status label by the precedence of the specification: expired
    first, then a remaining usage of 0, then of 1 to 5, then the
    rest. *)
Definition status_label (expired : bool) (remaining : Z) : string :=
  if expired then "Expired"
  else if remaining =? 0 then "Exhausted"
  else if (1 <=? remaining) && (remaining <=? 5) then "Low"
  else "Active".

(** The visual class of each label. *)
Definition status_classes : list (string * string) :=
  [ ("Expired", "status-expired");
    ("Exhausted", "status-exhausted");
    ("Low", "status-low");
    ("Active", "status-active") ].

(** [expires_at] as the data model has it: a timestamp (a string),
    [null] or absent. *)
Definition timestamp_or_null (v : option JsValue) : Prop :=
  v = None \/ v = Some JNull \/ exists s, v = Some (JStr s).

(** The value of a record's field: [undefined] when absent. *)
Definition field (fields : list (string * JsValue)) (k : string)
  : JsValue :=
  match lookup k fields with
  | Some v => v
  | None => JUndefined
  end.

(** A value that has a string: its conversion does not throw. *)
Definition converts {browser : Browser} (v : JsValue) : bool :=
  match ToString v with
  | Normal _ => true
  | Throw _ => false
  end.

(** [v] has the properties [keys], each with a value that has a
    string. *)
Definition all_convert {browser : Browser} (v : JsValue)
  (keys : list string) : bool :=
  forallb
    (fun k => match get v k with
              | Normal x => converts x
              | Throw _ => false
              end)
    keys.

(** The fields of a token that [createTokenRow] converts outside a
    [try] block. *)
Definition renders {browser : Browser} (token : JsValue) : bool :=
  all_convert token
    ["expires_at"; "remaining_usage"; "user_email"; "token_preview";
     "auth_type"].

(** The counters of a response have numbers. *)
Definition counters_convert {browser : Browser} (data : JsValue) : bool :=
  all_convert data ["total_tokens"; "active_tokens"].


(** What an HTML parser reads back from escaped text: the four
    character references decoded, [skip] bytes of a reference still to
    pass over. *)
Fixpoint unescape_from (skip : nat) (s : string) : string :=
  match s with
  | EmptyString => EmptyString
  | String c rest =>
      match skip with
      | S k => unescape_from k rest
      | O =>
          if Ascii.eqb c "&" then
            if starts_with "amp;" rest then
              String "&" (unescape_from 4 rest)
            else if starts_with "lt;" rest then
              String "<" (unescape_from 3 rest)
            else if starts_with "gt;" rest then
              String ">" (unescape_from 3 rest)
            else if starts_with "nbsp;" rest then
              String byte_C2 (String byte_A0 (unescape_from 5 rest))
            else String c (unescape_from 0 rest)
          else String c (unescape_from 0 rest)
      end
  end.

Definition unescape_text : string -> string := unescape_from 0.

(** The cell of a row that holds [content]. *)
Definition cell (content : string) : string :=
  "                <td>" ++ content ++ "</td>".



(** The flag is true exactly when a timer handle is held. *)
Definition flag_matches_timer (w : World) : Prop :=
  isAutoRefreshEnabled (dashboard w) = true <->
  autoRefreshInterval (dashboard w) <> None.

(** No timer that is set runs [refreshTokens]. *)
Definition no_refresh_timer (w : World) : Prop :=
  forall t, In t (intervals w) -> callback t <> RefreshTokensCb.

(** The switch shows the state [b]: the class [active] and the
    attribute [aria-checked]. *)
Definition switch_shows (w : World) (b : bool) : Prop :=
  exists sw,
    switch (document w) = Some sw /\
    existsb (String.eqb "active") (classList sw) = b /\
    aria_checked sw = Some (if b then "true" else "false").

(** Time passing: timers tick one after the other, each with the answer
    of the network and the clock readings of its run. *)
Definition run_ticks {browser : Browser}
  (ticks : list (positive * FetchOutcome * (nat -> Z * Z) * Z))
  (w : World) : World :=
  fold_left
    (fun w '(h, outcome, clock, now) => exec (tick h outcome clock now) w)
    ticks w.

(** *** Calls, one after the other

    What runs on the page once the constructor has returned: a call of
    [toggleAutoRefresh] (a click or a key on the switch), a call of
    [refreshTokens] (from [init] or from the refresh control) and the
    tick of a timer. *)
Inductive Event : Type :=
| ToggleEv
| RefreshEv (outcome : FetchOutcome) (clock : nat -> Z * Z) (now : Z)
| TickEv (h : positive) (outcome : FetchOutcome) (clock : nat -> Z * Z)
    (now : Z).

Definition handle_event {browser : Browser} (ev : Event) : M unit :=
  match ev with
  | ToggleEv => toggleAutoRefresh
  | RefreshEv outcome clock now => refreshTokens outcome clock now
  | TickEv h outcome clock now => tick h outcome clock now
  end.

Definition run_events {browser : Browser} (evs : list Event) (w : World)
  : World :=
  fold_left (fun w ev => exec (handle_event ev) w) evs w.

(** How many of the events are toggles. *)
Fixpoint toggles (evs : list Event) : nat :=
  match evs with
  | [] => 0%nat
  | ToggleEv :: rest => S (toggles rest)
  | _ :: rest => toggles rest
  end.

(** Three toggles with a failed refresh among them. *)
Definition example_events : list Event :=
  [ToggleEv; RefreshEv (Rejected (mkError "offline")) example_clock 2000;
   ToggleEv; ToggleEv].

(** A response with no tokens and counters of 3 and 2. *)
Definition example_counts : FetchOutcome :=
  Resolved
    (mkResponse 200 "OK"
       (Normal
          (JObj [ ("tokens", JArr []); ("total_tokens", JNum 3);
                  ("active_tokens", JNum 2) ]))).

(** A refresh that starts the two counter animations, then a toggle. *)
Definition example_animated : list Event :=
  [RefreshEv example_counts example_clock 2000; ToggleEv].

(** The same timer fires [n] times in a row. *)
Fixpoint ticks_of (h : positive) (n : nat) : list Event :=
  match n with
  | O => []
  | S k => TickEv h (Rejected (mkError "offline")) example_clock 0
           :: ticks_of h k
  end.

(** [null] or [undefined]. *)
Definition nullish (v : JsValue) : bool :=
  match v with
  | JUndefined | JNull => true
  | _ => false
  end.

(** The timers that are set and run [refreshTokens]. *)
Definition is_refresh (t : Timer) : bool :=
  match callback t with
  | RefreshTokensCb => true
  | AnimateNumberCb _ _ _ _ _ => false
  end.

Definition refresh_timers (w : World) : list Timer :=
  filter is_refresh (intervals w).

(** A timer of the counter animation, 20 ms apart. *)
Definition animation_timer (t : Timer) : Prop :=
  delay t = 20 /\ is_refresh t = false.

(** What a call leaves alone: the fields of the object, the switch, the
    set of elements and the refresh timers. *)
Definition frame (w w' : World) : Prop :=
  dashboard w' = dashboard w /\
  switch (document w') = switch (document w) /\
  map fst (elements (document w')) = map fst (elements (document w)) /\
  refresh_timers w' = refresh_timers w.

(** A call that sends nothing and logs nothing. *)
Definition silent (w w' : World) : Prop :=
  requests w' = requests w /\ console w' = console w.

(** A call that writes no element. *)
Definition same_document (w w' : World) : Prop :=
  document w' = document w.

(** The page once the loading placeholder is written and the request is
    sent. *)
Definition loading_page (w : World) : World :=
  mkWorld (dashboard w)
    (mkDocument
       (update "tokenTableBody" loading_markup (elements (document w)))
       (switch (document w)))
    (next_handle w) (intervals w)
    (requests w ++ [apiBaseUrl (dashboard w) ++ "/tokens"])
    (console w).

(** The page once the [catch] block has run on the error [e], after
    [showLoading] and the request. *)
Definition failed_page (w : World) (e : Error) : World :=
  mkWorld (dashboard w)
    (mkDocument
       (update "tokenTableBody"
          (error_markup (escape_text ("Failed to load: " ++ message e)))
          (update "tokenTableBody" loading_markup (elements (document w))))
       (switch (document w)))
    (next_handle w) (intervals w)
    (requests w ++ [apiBaseUrl (dashboard w) ++ "/tokens"])
    (console w ++ [("Failed to refresh token data:", e)]).

(** What the [try] block of [refreshTokens] has in hand once the
    response is decoded: the data, or the error of the rejection, of a
    status that is not ok, or of [response.json()]. *)
Definition fetched {browser : Browser} (outcome : FetchOutcome)
  : Completion JsValue :=
  match outcome with
  | Rejected e => Throw e
  | Resolved r =>
      if negb (ok r) then
        Throw (mkError
                 ("HTTP " ++ Number_toString (status r) ++ ": "
                    ++ statusText r))
      else json r
  end.

(** The three rendering calls that end the [try] block. *)
Definition render {browser : Browser} (clock : nat -> Z * Z)
  (data : JsValue) (now : Z) : M unit :=
  updateTokenTable clock data ;;
  updateStatusBar data ;;
  updateLastUpdateTime now.

(** The [catch] block, on a page that has the table body. *)
Definition report {browser : Browser} (error : Error) : M unit :=
  console_error "Failed to refresh token data:" error ;;
  showError (Some "tokenTableBody") ("Failed to load: " ++ message error).

(** While auto-refresh is on, one refresh timer is set, the one whose
    handle the object holds; while it is off, none. *)
Definition one_timer_when_on (w : World) : Prop :=
  if isAutoRefreshEnabled (dashboard w) then
    exists h,
      autoRefreshInterval (dashboard w) = Some h /\
      refresh_timers w
      = [mkTimer h (refreshIntervalMs (dashboard w)) RefreshTokensCb]
  else
    autoRefreshInterval (dashboard w) = None /\ refresh_timers w = [].

(** The handles of the timers that are set differ from one another and
    lie below the next one to be given out. *)
Definition handles_fresh (w : World) : Prop :=
  NoDup (map handle (intervals w)) /\
  Forall (fun t => (handle t < next_handle w)%positive) (intervals w).

(** The timers of the counter animation. *)
Definition animation_timers (w : World) : list Timer :=
  filter (fun t => negb (is_refresh t)) (intervals w).

(** The timer that [animateNumber] sets for the number [target], after
    [step] steps. *)
Definition counting (h : positive) (id : string) (current target : Z)
  (step : nat) : Timer :=
  mkTimer h 20 (AnimateNumberCb id current (Some target) (JNum target) step).

(** A call that keeps the handles fresh. *)
Definition keeps_fresh (w w' : World) : Prop :=
  handles_fresh w -> handles_fresh w'.

(** [keeps P m]: every run of [m] takes a page to one that [P] relates
    to it. *)
Definition keeps {A} (P : World -> World -> Prop) (m : M A) : Prop :=
  forall w, P w (snd (m w)).

(** ** Strings: lemmas *)


Lemma append_assoc (a b c : string) : (a ++ b) ++ c = a ++ (b ++ c).
Proof.
  induction a as [|x a IH]; simpl; [reflexivity | now rewrite IH].
Qed.

Lemma starts_with_append (a b : string) : starts_with a (a ++ b) = true.
Proof.
  induction a as [|x a IH]; simpl.
  - reflexivity.
  - rewrite Ascii.eqb_refl. exact IH.
Qed.

Lemma contains_append (pre needle post : string) :
  contains needle (pre ++ needle ++ post) = true.
Proof.
  induction pre as [|x pre IH].
  - change (EmptyString ++ needle ++ post) with (needle ++ post).
    pose proof (starts_with_append needle post) as H.
    destruct (needle ++ post); cbn [contains]; rewrite H; reflexivity.
  - change (String x pre ++ needle ++ post)
      with (String x (pre ++ needle ++ post)).
    cbn [contains]. rewrite IH. apply orb_true_r.
Qed.



(** Induction on a string that also reaches the tail of the tail. *)
Lemma string_ind2 (P : string -> Prop) :
  P EmptyString ->
  (forall c, P (String c EmptyString)) ->
  (forall c d s, P s -> P (String d s) -> P (String c (String d s))) ->
  forall s, P s.
Proof.
  intros H0 H1 H2 s.
  assert (H : P s /\ forall c, P (String c s)).
  { induction s as [|d s [IHa IHb]].
    - split; [exact H0 | exact H1].
    - split; [apply IHb | intros c; apply H2; [exact IHa | apply IHb]]. }
  exact (proj1 H).
Qed.

Section Escaping.

Context {browser : Browser}.

Lemma escape_text_cons (c : ascii) (rest : string) :
  plain_byte c = true ->
  escape_text (String c rest) = String c (escape_text rest).
Proof.
  unfold plain_byte. intros H.
  apply negb_true_iff in H.
  apply orb_false_iff in H as [H H4].
  apply orb_false_iff in H as [H H3].
  apply orb_false_iff in H as [H1 H2].
  simpl. rewrite H1, H2, H3.
  change (ascii_of_nat 194) with byte_C2. rewrite H4. reflexivity.
Qed.

Lemma escape_text_plain_app (a b : string) :
  plain a = true -> escape_text (a ++ b) = a ++ escape_text b.
Proof.
  induction a as [|c a IH]; intros H.
  - reflexivity.
  - simpl in H. apply andb_true_iff in H as [Hc Ha].
    change (String c a ++ b) with (String c (a ++ b)).
    rewrite escape_text_cons by exact Hc.
    rewrite IH by exact Ha. reflexivity.
Qed.



Lemma escape_text_unfold2 (c d : ascii) (s : string) :
  escape_text (String c (String d s)) =
  if Ascii.eqb c "&" then "&amp;" ++ escape_text (String d s)
  else if Ascii.eqb c "<" then "&lt;" ++ escape_text (String d s)
  else if Ascii.eqb c ">" then "&gt;" ++ escape_text (String d s)
  else if Ascii.eqb c byte_C2 then
    if Ascii.eqb d byte_A0 then "&nbsp;" ++ escape_text s
    else String c (escape_text (String d s))
  else String c (escape_text (String d s)).
Proof. reflexivity. Qed.

(** Reading escaped text back gives the text. *)
Lemma unescape_escape_text (s : string) :
  unescape_text (escape_text s) = s.
Proof.
  unfold unescape_text.
  induction s as [|c|c d s IHs IHd] using string_ind2.
  - reflexivity.
  - simpl.
    destruct (Ascii.eqb c "&") eqn:E1;
      [apply Ascii.eqb_eq in E1; subst c; reflexivity|].
    destruct (Ascii.eqb c "<") eqn:E2;
      [apply Ascii.eqb_eq in E2; subst c; reflexivity|].
    destruct (Ascii.eqb c ">") eqn:E3;
      [apply Ascii.eqb_eq in E3; subst c; reflexivity|].
    destruct (Ascii.eqb c byte_C2) eqn:E4;
      cbn [unescape_from]; rewrite E1; reflexivity.
  - rewrite escape_text_unfold2.
    destruct (Ascii.eqb c "&") eqn:E1.
    { apply Ascii.eqb_eq in E1; subst c.
      change (String "&" (unescape_from 0 (escape_text (String d s)))
              = String "&" (String d s)).
      now rewrite IHd. }
    destruct (Ascii.eqb c "<") eqn:E2.
    { apply Ascii.eqb_eq in E2; subst c.
      change (String "<" (unescape_from 0 (escape_text (String d s)))
              = String "<" (String d s)).
      now rewrite IHd. }
    destruct (Ascii.eqb c ">") eqn:E3.
    { apply Ascii.eqb_eq in E3; subst c.
      change (String ">" (unescape_from 0 (escape_text (String d s)))
              = String ">" (String d s)).
      now rewrite IHd. }
    destruct (Ascii.eqb c byte_C2) eqn:E4.
    + destruct (Ascii.eqb d byte_A0) eqn:E5.
      { apply Ascii.eqb_eq in E4; subst c.
        apply Ascii.eqb_eq in E5; subst d.
        change (String byte_C2
                  (String byte_A0 (unescape_from 0 (escape_text s)))
                = String byte_C2 (String byte_A0 s)).
        now rewrite IHs. }
      cbn [unescape_from]. rewrite E1. now rewrite IHd.
    + cbn [unescape_from]. rewrite E1. now rewrite IHd.
Qed.


Lemma plain_append (a b : string) :
  plain (a ++ b) = plain a && plain b.
Proof.
  induction a as [|c a IH]; simpl; [reflexivity|].
  rewrite IH. apply andb_assoc.
Qed.

Lemma plain_decimal (d : Decimal.uint) :
  plain (NilEmpty.string_of_uint d) = true.
Proof.
  induction d; simpl; auto.
Qed.

Lemma plain_decimal_zero (d : Decimal.uint) :
  plain (NilZero.string_of_uint d) = true.
Proof.
  destruct d; [reflexivity | exact (plain_decimal _) ..].
Qed.

Lemma plain_decimal_digits (n : Z) : plain (decimal n) = true.
Proof.
  unfold decimal, NilZero.string_of_int.
  destruct (Z.to_int n) as [d|d].
  - apply plain_decimal_zero.
  - cbn [plain]. rewrite plain_decimal_zero. reflexivity.
Qed.

Lemma plain_Number_toString (n : Z) : plain (Number_toString n) = true.
Proof.
  unfold Number_toString.
  destruct (Z.abs n <? 1000000000000000000000).
  - apply plain_decimal_digits.
  - apply Number_exponent_form_plain.
Qed.


End Escaping.

(** ** Conversions *)

Section Conversions.

Context {browser : Browser}.

(** Induction on a value that reaches the elements of an array. *)
Lemma JsValue_array_ind (P : JsValue -> Prop) :
  P JUndefined -> P JNull -> (forall b, P (JBool b)) ->
  (forall n, P (JNum n)) -> (forall s, P (JStr s)) ->
  (forall items, Forall P items -> P (JArr items)) ->
  (forall fields, P (JObj fields)) ->
  forall v, P v.
Proof.
  intros Hu Hn Hb Hz Hs Ha Ho.
  exact (fix IH (v : JsValue) : P v :=
           match v with
           | JUndefined => Hu
           | JNull => Hn
           | JBool b => Hb b
           | JNum n => Hz n
           | JStr s => Hs s
           | JArr items =>
               Ha items
                 ((fix all (l : list JsValue) : Forall P l :=
                     match l with
                     | [] => Forall_nil P
                     | x :: rest => Forall_cons x (IH x) (all rest)
                     end) items)
           | JObj fields => Ho fields
           end).
Qed.

(** Whatever [ToString] throws is the TypeError of an object without a
    primitive value. *)
Lemma ToString_throws (v : JsValue) (e : Error) :
  ToString v = Throw e -> e = mkError cannot_convert_message.
Proof.
  revert e. induction v as [| |b|n|s|items IH|fields] using JsValue_array_ind;
    intros e; cbn [ToString]; try discriminate.
  - destruct b; discriminate.
  - match goal with
    | |- cbind (?each items) _ = _ -> _ =>
        assert (H : forall e', each items = Throw e' ->
                               e' = mkError cannot_convert_message)
    end.
    { induction IH as [|x rest Hx _ IHrest]; intros e'; [discriminate|].
      assert (Hc : forall e0,
                match x with
                | JUndefined | JNull => Normal EmptyString
                | _ => ToString x
                end = Throw e0 -> e0 = mkError cannot_convert_message)
        by (destruct x; try discriminate; exact Hx).
      cbn -[ToString].
      destruct (match x with
                | JUndefined | JNull => Normal EmptyString
                | _ => ToString x
                end) as [s0|e0]; cbn [cbind].
      - destruct (_ rest) as [ss|e1]; cbn [cbind];
          [discriminate | intros [= <-]; apply IHrest; reflexivity].
      - intros [= <-]. apply Hc. reflexivity. }
    destruct (_ items) as [parts|e0]; cbn [cbind]; [discriminate|].
    intros [= <-]. apply H. reflexivity.
  - destruct (lookup "toString" fields); [|discriminate].
    intros [= <-]. reflexivity.
Qed.

Lemma converts_true (v : JsValue) :
  converts v = true -> exists s, ToString v = Normal s.
Proof.
  unfold converts. destruct (ToString v) as [s|e]; [|discriminate].
  intros _. exists s. reflexivity.
Qed.

Lemma converts_false (v : JsValue) :
  converts v = false -> ToString v = Throw (mkError cannot_convert_message).
Proof.
  unfold converts. destruct (ToString v) as [s|e] eqn:E; [discriminate|].
  intros _. now rewrite (ToString_throws v e E).
Qed.

Lemma falsy_converts (v : JsValue) : truthy v = false -> converts v = true.
Proof.
  destruct v as [| |[|]| | | |]; try discriminate; reflexivity.
Qed.

Lemma nullish_converts (v : JsValue) : nullish v = true -> converts v = true.
Proof. destruct v; try discriminate; reflexivity. Qed.

Lemma js_or_converts (v d : JsValue) :
  converts d = true ->
  converts (js_or v d) = converts v.
Proof.
  intros Hd. unfold js_or. destruct (truthy v) eqn:E; [reflexivity|].
  now rewrite (falsy_converts v E).
Qed.

Lemma js_nullish_converts (v d : JsValue) :
  converts d = true ->
  converts (js_nullish v d) = converts v.
Proof. intros Hd. destruct v; try reflexivity; exact Hd. Qed.

Lemma js_or_truthy (v d : JsValue) :
  truthy d = true -> truthy (js_or v d) = true.
Proof.
  intros Hd. unfold js_or. destruct (truthy v) eqn:E; [exact E | exact Hd].
Qed.

Lemma textContent_of_truthy (v : JsValue) :
  truthy v = true -> textContent_of v = ToString v.
Proof. destruct v; try discriminate; reflexivity. Qed.

(** [ToNumber] returns on a value that has a string and throws the
    error of [ToString] on the others. *)
Lemma ToNumber_outcome (v : JsValue) :
  if converts v then exists number, ToNumber v = Normal number
  else ToNumber v = Throw (mkError cannot_convert_message).
Proof.
  destruct (converts v) eqn:E.
  - destruct (converts_true v E) as [s Hs].
    destruct v as [| |[|]| | | |]; cbn [ToNumber];
      try (eexists; reflexivity); rewrite Hs; eexists; reflexivity.
  - pose proof (converts_false v E) as Hs.
    destruct v as [| |[|]| | | |]; try discriminate;
      cbn [ToNumber]; rewrite Hs; reflexivity.
Qed.

Lemma js_le_num_outcome (v : JsValue) (n : Z) :
  if converts v then exists b, js_le_num v n = Normal b
  else js_le_num v n = Throw (mkError cannot_convert_message).
Proof.
  unfold js_le_num. pose proof (ToNumber_outcome v) as H.
  destruct (converts v).
  - destruct H as [number ->]. eexists; reflexivity.
  - rewrite H. reflexivity.
Qed.

Lemma Date_new_outcome (v : JsValue) :
  if converts v then exists date, Date_new v = Normal date
  else Date_new v = Throw (mkError cannot_convert_message).
Proof.
  destruct (converts v) eqn:E.
  - destruct (converts_true v E) as [s Hs].
    destruct v as [| |[|]| | | |]; cbn [Date_new ToNumber cbind];
      try (eexists; reflexivity); rewrite Hs; eexists; reflexivity.
  - pose proof (converts_false v E) as Hs.
    destruct v as [| |[|]| | | |]; try discriminate;
      cbn [Date_new]; rewrite Hs; reflexivity.
Qed.

Lemma textContent_of_outcome (v : JsValue) :
  if converts v then exists s, textContent_of v = Normal s
  else textContent_of v = Throw (mkError cannot_convert_message).
Proof.
  destruct (converts v) eqn:E.
  - destruct (converts_true v E) as [s Hs].
    destruct v; cbn [textContent_of]; try (eexists; reflexivity);
      rewrite Hs; eexists; reflexivity.
  - pose proof (converts_false v E) as Hs.
    destruct v; try discriminate; exact Hs.
Qed.

(** [escapeHtml] of a field or its default. *)
Lemma escapeHtml_or (v : JsValue) (d : string) :
  is_empty d = false ->
  escapeHtml (js_or v (JStr d)) =
  let? s := ToString (js_or v (JStr d)) in Normal (escape_text s).
Proof.
  intros Hd. unfold escapeHtml. rewrite textContent_of_truthy; [reflexivity|].
  apply js_or_truthy. cbn [truthy]. now rewrite Hd.
Qed.

End Conversions.

(** ** Status *)

Section Status.

Context {browser : Browser}.

Lemma get_record (fields : list (string * JsValue)) (k : string) :
  get (JObj fields) k = Normal (field fields k).
Proof.
  unfold get, field. destruct (lookup k fields); reflexivity.
Qed.

Lemma isExpired_record (now : Z) (fields : list (string * JsValue)) :
  isExpired now (JObj fields) =
  if negb (truthy (field fields "expires_at")) then Normal false
  else
    let? date := Date_new (field fields "expires_at") in
    Normal (date_lt date (Some now)).
Proof. unfold isExpired. rewrite get_record. reflexivity. Qed.

(** On a well-typed record the code's expiry test is the
    specification's. *)
Lemma isExpired_present_and_past (now : Z)
  (fields : list (string * JsValue)) :
  Date_parse EmptyString = None ->
  timestamp_or_null (lookup "expires_at" fields) ->
  isExpired now (JObj fields) =
  Normal (present_and_past now (lookup "expires_at" fields)).
Proof.
  intros Hempty Hty. rewrite isExpired_record. unfold field.
  destruct Hty as [-> | [-> | [s ->]]]; try reflexivity.
  destruct s as [|c s'].
  - cbn. rewrite Hempty. reflexivity.
  - cbn. destruct (Date_parse (String c s')); reflexivity.
Qed.

Lemma status_text_of_remaining (now : Z)
  (fields : list (string * JsValue)) (r : Z) :
  lookup "remaining_usage" fields = Some (JNum r) ->
  0 <= r ->
  forall expired,
    isExpired now (JObj fields) = Normal expired ->
    getStatusText now (JObj fields) = Normal (status_label expired r).
Proof.
  intros Hr Hpos expired Hexp.
  unfold getStatusText. rewrite Hexp. cbn [cbind].
  destruct expired; [reflexivity|].
  rewrite get_record. unfold field. rewrite Hr. cbn [cbind js_nullish].
  unfold status_label, js_le_num, strict_eq_num, ToNumber. cbn [cbind].
  destruct (r =? 0) eqn:E0; [reflexivity|].
  apply Z.eqb_neq in E0.
  replace (1 <=? r) with true by (symmetry; apply Z.leb_le; lia).
  simpl. destruct (r <=? 5); reflexivity.
Qed.

Lemma status_class_of_text (now : Z) (token : JsValue) (label : string) :
  getStatusText now token = Normal label ->
  exists cls,
    getStatusClass now token = Normal cls /\ In (label, cls) status_classes.
Proof.
  unfold getStatusText, getStatusClass, status_classes.
  destruct (isExpired now token) as [[|]|e]; simpl; try discriminate.
  - intros [= <-]. eexists; split; [reflexivity|]. simpl; auto.
  - destruct (get token "remaining_usage") as [u|e]; simpl; try discriminate.
    destruct (strict_eq_num (js_nullish u (JNum 0)) 0).
    + intros [= <-]. eexists; split; [reflexivity|]. simpl; auto.
    + destruct (js_le_num (js_nullish u (JNum 0)) 5) as [[|]|e];
        simpl; try discriminate;
        intros [= <-]; eexists; (split; [reflexivity|]); simpl; auto.
Qed.

(** The two methods run the same tests: at one clock reading they throw
    the same error or neither throws. *)
Lemma status_class_throws (now : Z) (token : JsValue) (e : Error) :
  getStatusText now token = Throw e -> getStatusClass now token = Throw e.
Proof.
  unfold getStatusText, getStatusClass.
  destruct (isExpired now token) as [[|]|e0]; simpl; try discriminate;
    [|intros H; exact H].
  destruct (get token "remaining_usage") as [u|e0]; simpl;
    [|intros H; exact H].
  destruct (strict_eq_num (js_nullish u (JNum 0)) 0); [discriminate|].
  destruct (js_le_num (js_nullish u (JNum 0)) 5) as [[|]|e0];
    simpl; try discriminate. intros H; exact H.
Qed.

(** C1: the status label of a token record follows the precedence
    "Expired" (its [expires_at] is present and strictly in the past,
    whatever the remaining usage), then "Exhausted" (remaining usage 0),
    then "Low" (1 to 5), then "Active" (more than 5); the label is one
    of these four, and the record's visual class is the label's own. *)
Theorem status_precedence (now : Z) (fields : list (string * JsValue))
  (r : Z) :
  Date_parse EmptyString = None ->
  timestamp_or_null (lookup "expires_at" fields) ->
  lookup "remaining_usage" fields = Some (JNum r) ->
  0 <= r ->
  let expired := present_and_past now (lookup "expires_at" fields) in
  let label := status_label expired r in
  getStatusText now (JObj fields) = Normal label /\
  (expired = true -> label = "Expired") /\
  (expired = false -> r = 0 -> label = "Exhausted") /\
  (expired = false -> 1 <= r <= 5 -> label = "Low") /\
  (expired = false -> 5 < r -> label = "Active") /\
  (exists cls,
     getStatusClass now (JObj fields) = Normal cls /\
     In (label, cls) status_classes) /\
  NoDup (map fst status_classes) /\ NoDup (map snd status_classes).
Proof.
  intros Hempty Hty Hr Hpos expired label.
  assert (Htext : getStatusText now (JObj fields) = Normal label).
  { apply status_text_of_remaining; auto.
    apply isExpired_present_and_past; auto. }
  split; [exact Htext|].
  subst label. unfold status_label.
  repeat split.
  - intros ->. reflexivity.
  - intros -> ->. reflexivity.
  - intros -> [H1 H5].
    replace (r =? 0) with false by (symmetry; apply Z.eqb_neq; lia).
    replace (1 <=? r) with true by (symmetry; apply Z.leb_le; lia).
    replace (r <=? 5) with true by (symmetry; apply Z.leb_le; lia).
    reflexivity.
  - intros -> H5.
    replace (r =? 0) with false by (symmetry; apply Z.eqb_neq; lia).
    replace (r <=? 5) with false by (symmetry; apply Z.leb_gt; lia).
    rewrite andb_false_r. reflexivity.
  - apply status_class_of_text. exact Htext.
  - repeat constructor; simpl; intuition discriminate.
  - repeat constructor; simpl; intuition discriminate.
Qed.

(** [isExpired] on a record: it returns when [expires_at] has a string
    and throws the TypeError of the conversion when it has none. *)
Lemma isExpired_outcome (now : Z) (fields : list (string * JsValue)) :
  if converts (field fields "expires_at")
  then exists b, isExpired now (JObj fields) = Normal b
  else isExpired now (JObj fields) = Throw (mkError cannot_convert_message).
Proof.
  rewrite isExpired_record.
  pose proof (Date_new_outcome (field fields "expires_at")) as H.
  destruct (truthy (field fields "expires_at")) eqn:Ht; cbn [negb].
  - destruct (converts (field fields "expires_at")).
    + destruct H as [date ->]. eexists; reflexivity.
    + rewrite H. reflexivity.
  - rewrite (falsy_converts _ Ht). eexists; reflexivity.
Qed.

(** [getStatusText] on a record whose [expires_at] has a string: it
    returns when [remaining_usage] has one too or is not looked at, and
    throws the TypeError of the conversion otherwise. *)
Lemma getStatusText_outcome (now : Z) (fields : list (string * JsValue)) :
  converts (field fields "expires_at") = true ->
  if converts (field fields "remaining_usage")
  then exists txt, getStatusText now (JObj fields) = Normal txt
  else getStatusText now (JObj fields) = Normal "Expired" \/
       getStatusText now (JObj fields)
       = Throw (mkError cannot_convert_message).
Proof.
  intros Hx. unfold getStatusText.
  pose proof (isExpired_outcome now fields) as H. rewrite Hx in H.
  destruct H as [b ->]. cbn [cbind]. rewrite get_record. cbn [cbind].
  pose proof (js_le_num_outcome
                (js_nullish (field fields "remaining_usage") (JNum 0)) 5)
    as Hle.
  rewrite js_nullish_converts in Hle by reflexivity.
  destruct (converts (field fields "remaining_usage")) eqn:Hu.
  - destruct b; [eexists; reflexivity|].
    destruct (strict_eq_num _ 0); [eexists; reflexivity|].
    destruct Hle as [[|] ->]; eexists; reflexivity.
  - destruct b; [left; reflexivity|]. right.
    destruct (strict_eq_num _ 0) eqn:E0.
    + exfalso. destruct (field fields "remaining_usage"); discriminate.
    + rewrite Hle. reflexivity.
Qed.

End Status.

(** ** Rows *)

Section Rows.

Context {browser : Browser}.

(** A step that returns on the values that have a string and throws the
    TypeError of the conversion on the others. *)
Lemma outcome_throws {A} (b : bool) (c : Completion A) (e : Error) :
  (if b then exists a, c = Normal a
   else c = Throw (mkError cannot_convert_message)) ->
  c = Throw e -> e = mkError cannot_convert_message.
Proof.
  destruct b.
  - intros [a ->]. discriminate.
  - intros ->. intros [= <-]. reflexivity.
Qed.

Lemma outcome_normal {A} (b : bool) (c : Completion A) (a : A) :
  (if b then exists a, c = Normal a
   else c = Throw (mkError cannot_convert_message)) ->
  c = Normal a -> b = true.
Proof. destruct b; [reflexivity|]. intros ->. discriminate. Qed.

Lemma getStatusText_throws (now : Z) (fields : list (string * JsValue))
  (e : Error) :
  getStatusText now (JObj fields) = Throw e ->
  e = mkError cannot_convert_message.
Proof.
  unfold getStatusText.
  destruct (isExpired now (JObj fields)) as [b|e0] eqn:Hx; cbn [cbind].
  - destruct b; [discriminate|]. rewrite get_record. cbn [cbind].
    destruct (strict_eq_num _ 0); [discriminate|].
    destruct (js_le_num _ 5) as [[|]|e1] eqn:Hle; cbn [cbind];
      try discriminate.
    intros [= <-]. exact (outcome_throws _ _ _ (js_le_num_outcome _ 5) Hle).
  - intros [= <-].
    exact (outcome_throws _ _ _ (isExpired_outcome now fields) Hx).
Qed.

Lemma getStatusClass_throws (now : Z) (fields : list (string * JsValue))
  (e : Error) :
  getStatusClass now (JObj fields) = Throw e ->
  e = mkError cannot_convert_message.
Proof.
  unfold getStatusClass.
  destruct (isExpired now (JObj fields)) as [b|e0] eqn:Hx; cbn [cbind].
  - destruct b; [discriminate|]. rewrite get_record. cbn [cbind].
    destruct (strict_eq_num _ 0); [discriminate|].
    destruct (js_le_num _ 5) as [[|]|e1] eqn:Hle; cbn [cbind];
      try discriminate.
    intros [= <-]. exact (outcome_throws _ _ _ (js_le_num_outcome _ 5) Hle).
  - intros [= <-].
    exact (outcome_throws _ _ _ (isExpired_outcome now fields) Hx).
Qed.

Lemma getStatusClass_expiry (now : Z) (fields : list (string * JsValue))
  (cls : string) :
  getStatusClass now (JObj fields) = Normal cls ->
  converts (field fields "expires_at") = true.
Proof.
  unfold getStatusClass.
  destruct (isExpired now (JObj fields)) as [b|e0] eqn:Hx; cbn [cbind];
    [|discriminate].
  intros _. exact (outcome_normal _ _ _ (isExpired_outcome now fields) Hx).
Qed.

Lemma renders_record (fields : list (string * JsValue)) :
  renders (JObj fields) =
  converts (field fields "expires_at")
  && (converts (field fields "remaining_usage")
      && (converts (field fields "user_email")
          && (converts (field fields "token_preview")
              && (converts (field fields "auth_type") && true)))).
Proof.
  unfold renders, all_convert. cbn [forallb]. rewrite !get_record.
  reflexivity.
Qed.

(** The row of a record whose fields have strings: which value fills
    which cell. *)
Lemma createTokenRow_record (now_class now_text : Z)
  (fields : list (string * JsValue)) (index : nat) :
  renders (JObj fields) = true ->
  exists email preview auth usage cls txt,
    ToString (js_or (field fields "user_email") (JStr "unknown"))
    = Normal email /\
    ToString (js_or (field fields "token_preview") (JStr "N/A"))
    = Normal preview /\
    ToString (js_or (field fields "auth_type") (JStr "social"))
    = Normal auth /\
    ToString (js_nullish (field fields "remaining_usage") (JNum 0))
    = Normal usage /\
    getStatusClass now_class (JObj fields) = Normal cls /\
    getStatusText now_text (JObj fields) = Normal txt /\
    createTokenRow now_class now_text (JObj fields) index =
    Normal
      (row_markup
         (Number_toString (Z.of_nat index))
         (escape_text email) (escape_text preview) (escape_text auth)
         usage
         (formatDateTime (field fields "expires_at"))
         (formatDateTime (field fields "last_used"))
         cls txt).
Proof.
  rewrite renders_record. intros H.
  apply andb_true_iff in H as [Hx H].
  apply andb_true_iff in H as [Hu H].
  apply andb_true_iff in H as [He H].
  apply andb_true_iff in H as [Hp H].
  apply andb_true_iff in H as [Ha _].
  pose proof (getStatusText_outcome now_class fields Hx) as H0.
  rewrite Hu in H0. destruct H0 as [txt0 Htxt0].
  destruct (status_class_of_text _ _ _ Htxt0) as [cls [Hcls _]].
  pose proof (getStatusText_outcome now_text fields Hx) as H1.
  rewrite Hu in H1. destruct H1 as [txt Htxt].
  destruct (converts_true (js_or (field fields "user_email") (JStr "unknown")))
    as [email Hemail]; [now rewrite js_or_converts|].
  destruct (converts_true (js_or (field fields "token_preview") (JStr "N/A")))
    as [preview Hpreview]; [now rewrite js_or_converts|].
  destruct (converts_true (js_or (field fields "auth_type") (JStr "social")))
    as [auth Hauth]; [now rewrite js_or_converts|].
  destruct (converts_true
              (js_nullish (field fields "remaining_usage") (JNum 0)))
    as [usage Husage]; [now rewrite js_nullish_converts|].
  exists email, preview, auth, usage, cls, txt.
  repeat (split; [assumption|]).
  unfold createTokenRow. rewrite Hcls, Htxt. cbn [cbind].
  rewrite !get_record. cbn [cbind].
  rewrite !escapeHtml_or by reflexivity.
  rewrite Hemail. cbn [cbind]. rewrite Hpreview. cbn [cbind].
  rewrite Hauth. cbn [cbind]. rewrite Husage. reflexivity.
Qed.

(** When [createTokenRow] returns on a record, the fields have strings;
    what it throws is the TypeError of the conversion. *)
Lemma createTokenRow_outcome (now_class now_text : Z)
  (fields : list (string * JsValue)) (index : nat) :
  match createTokenRow now_class now_text (JObj fields) index with
  | Normal _ => renders (JObj fields) = true
  | Throw e => e = mkError cannot_convert_message
  end.
Proof.
  unfold createTokenRow.
  destruct (getStatusClass now_class (JObj fields)) as [cls|e] eqn:Hcls;
    cbn [cbind]; [|exact (getStatusClass_throws _ _ _ Hcls)].
  destruct (getStatusText now_text (JObj fields)) as [txt|e] eqn:Htxt;
    cbn [cbind]; [|exact (getStatusText_throws _ _ _ Htxt)].
  rewrite !get_record. cbn [cbind]. rewrite !escapeHtml_or by reflexivity.
  destruct (ToString (js_or (field fields "user_email") (JStr "unknown")))
    as [email|e] eqn:Hemail; cbn [cbind];
    [|exact (ToString_throws _ _ Hemail)].
  destruct (ToString (js_or (field fields "token_preview") (JStr "N/A")))
    as [preview|e] eqn:Hpreview; cbn [cbind];
    [|exact (ToString_throws _ _ Hpreview)].
  destruct (ToString (js_or (field fields "auth_type") (JStr "social")))
    as [auth|e] eqn:Hauth; cbn [cbind];
    [|exact (ToString_throws _ _ Hauth)].
  destruct (ToString (js_nullish (field fields "remaining_usage") (JNum 0)))
    as [usage|e] eqn:Husage; cbn [cbind];
    [|exact (ToString_throws _ _ Husage)].
  rewrite renders_record, (getStatusClass_expiry _ _ _ Hcls).
  rewrite <- (js_nullish_converts (field fields "remaining_usage") (JNum 0))
    by reflexivity.
  rewrite <- (js_or_converts (field fields "user_email") (JStr "unknown"))
    by reflexivity.
  rewrite <- (js_or_converts (field fields "token_preview") (JStr "N/A"))
    by reflexivity.
  rewrite <- (js_or_converts (field fields "auth_type") (JStr "social"))
    by reflexivity.
  unfold converts. rewrite Hemail, Hpreview, Hauth, Husage. reflexivity.
Qed.

(** A record with a field that has no string has no row. *)
Lemma createTokenRow_unconvertible (now_class now_text : Z)
  (fields : list (string * JsValue)) (index : nat) :
  renders (JObj fields) = false ->
  createTokenRow now_class now_text (JObj fields) index
  = Throw (mkError cannot_convert_message).
Proof.
  intros Hr.
  pose proof (createTokenRow_outcome now_class now_text fields index) as H.
  destruct (createTokenRow now_class now_text (JObj fields) index) as [row|e].
  - rewrite Hr in H. discriminate.
  - now rewrite H.
Qed.




(** The usage cell stands between the cell of [auth_type] and the cell
    of [expires_at]. *)
Lemma row_markup_usage (index email preview auth usage expires last cls txt
  : string) :
  exists pre post,
    row_markup index email preview auth usage expires last cls txt =
    pre ++ cell auth ++ newline ++ cell usage ++ newline ++ cell expires
    ++ post.
Proof.
  unfold row_markup, lines, cell.
  eexists (EmptyString ++ newline
           ++ ("            <tr data-index=" ++ q index ++ ">") ++ newline
           ++ ("                <td>" ++ email ++ "</td>") ++ newline
           ++ ("                <td><span class=" ++ q "token-preview" ++ ">"
               ++ preview ++ "</span></td>") ++ newline), _.
  rewrite !append_assoc. reflexivity.
Qed.

(** The status badge of the row. *)
Lemma row_markup_badge (index email preview auth usage expires last cls txt
  : string) :
  exists pre post,
    row_markup index email preview auth usage expires last cls txt =
    pre ++ q ("status-badge " ++ cls) ++ ">" ++ txt ++ "</span>" ++ post.
Proof.
  unfold row_markup, lines.
  eexists (EmptyString ++ newline
     ++ ("            <tr data-index=" ++ q index ++ ">") ++ newline
     ++ ("                <td>" ++ email ++ "</td>") ++ newline
     ++ ("                <td><span class=" ++ q "token-preview" ++ ">"
         ++ preview ++ "</span></td>") ++ newline
     ++ ("                <td>" ++ auth ++ "</td>") ++ newline
     ++ ("                <td>" ++ usage ++ "</td>") ++ newline
     ++ ("                <td>" ++ expires ++ "</td>") ++ newline
     ++ ("                <td>" ++ last ++ "</td>") ++ newline
     ++ "                <td><span class="), _.
  rewrite !append_assoc. reflexivity.
Qed.






(** C9: a record whose [remaining_usage] is absent or [null], and that
    is not expired, shows 0 in the usage cell, the cell between those of
    [auth_type] and [expires_at], and has the status "Exhausted" (class
    and label). *)
Theorem missing_usage_is_zero (now_class now_text : Z)
  (fields : list (string * JsValue)) (index : nat) :
  lookup "remaining_usage" fields = None \/
  lookup "remaining_usage" fields = Some JNull \/
  lookup "remaining_usage" fields = Some JUndefined ->
  isExpired now_class (JObj fields) = Normal false ->
  isExpired now_text (JObj fields) = Normal false ->
  renders (JObj fields) = true ->
  let expires := formatDateTime (field fields "expires_at") in
  let last := formatDateTime (field fields "last_used") in
  getStatusText now_text (JObj fields) = Normal "Exhausted" /\
  getStatusClass now_class (JObj fields) = Normal "status-exhausted" /\
  exists row email preview auth pre post,
    createTokenRow now_class now_text (JObj fields) index = Normal row /\
    row = row_markup (Number_toString (Z.of_nat index))
            (escape_text email) (escape_text preview) (escape_text auth)
            "0" expires last "status-exhausted" "Exhausted" /\
    row = pre ++ cell (escape_text auth) ++ newline ++ cell "0" ++ newline
          ++ cell expires ++ post /\
    contains (cell "0") row = true.
Proof.
  intros Husage Hc Ht Hr expires last.
  assert (Hzero : js_nullish (field fields "remaining_usage") (JNum 0)
                  = JNum 0).
  { unfold field. destruct Husage as [-> | [-> | ->]]; reflexivity. }
  assert (Htxt : getStatusText now_text (JObj fields) = Normal "Exhausted").
  { unfold getStatusText. rewrite Ht. cbn [cbind].
    rewrite get_record. cbn [cbind]. rewrite Hzero. reflexivity. }
  assert (Hcls : getStatusClass now_class (JObj fields)
                 = Normal "status-exhausted").
  { unfold getStatusClass. rewrite Hc. cbn [cbind].
    rewrite get_record. cbn [cbind]. rewrite Hzero. reflexivity. }
  split; [exact Htxt|]. split; [exact Hcls|].
  destruct (createTokenRow_record now_class now_text fields index Hr)
    as [email [preview [auth [usage [cls [txt
         [_ [_ [_ [Hu [Hcls' [Htxt' Hrow]]]]]]]]]]]].
  rewrite Hcls in Hcls'. injection Hcls' as <-.
  rewrite Htxt in Htxt'. injection Htxt' as <-.
  rewrite Hzero in Hu. injection Hu as <-.
  destruct (row_markup_usage (Number_toString (Z.of_nat index))
              (escape_text email) (escape_text preview) (escape_text auth)
              (Number_toString 0) expires last
              "status-exhausted" "Exhausted") as [pre [post Hsplit]].
  eexists _, email, preview, auth, pre, post.
  split; [exact Hrow|]. split; [reflexivity|].
  split; [exact Hsplit|].
  change (Number_toString 0) with "0" in Hsplit.
  change (Number_toString 0) with "0". fold expires last.
  rewrite Hsplit.
  rewrite <- (append_assoc pre (cell (escape_text auth))).
  rewrite <- (append_assoc (pre ++ cell (escape_text auth)) newline).
  apply contains_append.
Qed.


End Rows.


(** ** Elements of the document *)

Section Elements.

Context {browser : Browser}.

Lemma lookup_update (k k' v : string) (l : list (string * string)) :
  lookup k (update k' v l) =
  if String.eqb k k' then
    match lookup k l with Some _ => Some v | None => None end
  else lookup k l.
Proof.
  induction l as [|[k0 v0] l IH]; simpl.
  - destruct (String.eqb k k'); reflexivity.
  - destruct (String.eqb k' k0) eqn:E0; simpl.
    + apply String.eqb_eq in E0; subst k0.
      destruct (String.eqb k k'); reflexivity.
    + destruct (String.eqb k k0) eqn:E1.
      * destruct (String.eqb k k') eqn:E2; [|reflexivity].
        apply String.eqb_eq in E1, E2; subst.
        rewrite String.eqb_refl in E0. discriminate.
      * exact IH.
Qed.

Lemma lookup_update_same (k v c : string) (l : list (string * string)) :
  lookup k l = Some c -> lookup k (update k v l) = Some v.
Proof.
  intros H. rewrite lookup_update, String.eqb_refl, H. reflexivity.
Qed.

Lemma getElementById_present (id content : string) (w : World) :
  content_of id w = Some content ->
  getElementById id w = (Normal (Some id), w).
Proof.
  unfold getElementById, gets, content_of. intros ->. reflexivity.
Qed.

Lemma bind_gets {A B} (f : World -> A) (k : A -> M B) (w : World) :
  bind (gets f) k w = k (f w) w.
Proof. reflexivity. Qed.

Lemma bind_normal {A B} (m : M A) (k : A -> M B) (w w' : World) (a : A) :
  m w = (Normal a, w') -> bind m k w = k a w'.
Proof. unfold bind. intros ->. reflexivity. Qed.

Lemma bind_throw {A B} (m : M A) (k : A -> M B) (w w' : World) (e : Error) :
  m w = (Throw e, w') -> bind m k w = (Throw e, w').
Proof. unfold bind. intros ->. reflexivity. Qed.

End Elements.

(** The start of [refreshTokens] on a page that has the table body:
    the loading placeholder is written and the [try] block is entered. *)
Ltac enter_refresh H :=
  unfold refreshTokens;
  unfold bind at 1; rewrite (getElementById_present _ _ _ H);
  unfold bind at 1;
  unfold showLoading, set_innerHTML, set_content, modify, try_catch.

(** One step of a run, the markup and the rendering left folded. *)
Ltac run :=
  cbn -[updateTokenTable updateStatusBar updateLastUpdateTime
        error_markup loading_markup empty_markup escape_text escapeHtml
        append Number_toString update lookup].

(** ** Footprints

    What the calls leave alone, read off method by method. *)

Section Keeps.

Variable P : World -> World -> Prop.
Hypothesis P_refl : forall w, P w w.
Hypothesis P_trans : forall a b c, P a b -> P b c -> P a c.

Lemma keeps_ret {A} (a : A) : keeps P (ret a).
Proof. intros w. apply P_refl. Qed.

Lemma keeps_throw {A} (e : Error) : keeps P (@throw A e).
Proof. intros w. apply P_refl. Qed.

Lemma keeps_lift {A} (c : Completion A) : keeps P (lift c).
Proof. intros w. apply P_refl. Qed.

Lemma keeps_gets {A} (f : World -> A) : keeps P (gets f).
Proof. intros w. apply P_refl. Qed.

Lemma keeps_bind {A B} (m : M A) (k : A -> M B) :
  keeps P m -> (forall a, keeps P (k a)) -> keeps P (bind m k).
Proof.
  intros Hm Hk w. unfold bind. specialize (Hm w).
  destruct (m w) as [[a|e] w1]; cbn [snd] in *.
  - eapply P_trans; [exact Hm | apply Hk].
  - exact Hm.
Qed.

Lemma keeps_try_catch {A} (body : M A) (handler : Error -> M A) :
  keeps P body -> (forall e, keeps P (handler e)) ->
  keeps P (try_catch body handler).
Proof.
  intros Hb Hh w. unfold try_catch. specialize (Hb w).
  destruct (body w) as [[a|e] w1]; cbn [snd] in *.
  - exact Hb.
  - eapply P_trans; [exact Hb | apply Hh].
Qed.

End Keeps.

Lemma frame_refl (w : World) : frame w w.
Proof. repeat split. Qed.

Lemma frame_trans (a b c : World) : frame a b -> frame b c -> frame a c.
Proof.
  unfold frame. intros [H1 [H2 [H3 H4]]] [K1 [K2 [K3 K4]]].
  repeat split; congruence.
Qed.

Lemma silent_refl (w : World) : silent w w.
Proof. split; reflexivity. Qed.

Lemma silent_trans (a b c : World) :
  silent a b -> silent b c -> silent a c.
Proof. unfold silent. intros [H1 H2] [K1 K2]. split; congruence. Qed.

Lemma same_document_refl (w : World) : same_document w w.
Proof. reflexivity. Qed.

Lemma same_document_trans (a b c : World) :
  same_document a b -> same_document b c -> same_document a c.
Proof. unfold same_document. congruence. Qed.

Lemma update_keys (k v : string) (l : list (string * string)) :
  map fst (update k v l) = map fst l.
Proof.
  induction l as [|[k0 v0] l IH]; [reflexivity|].
  cbn [update]. destruct (String.eqb k k0); cbn [map fst]; congruence.
Qed.

Lemma lookup_keys {V} (k : string) (l l' : list (string * V)) :
  map fst l' = map fst l ->
  lookup k l = None -> lookup k l' = None.
Proof.
  revert l'. induction l as [|[k0 v0] l IH]; intros [|[k1 v1] l'] H;
    try discriminate; [reflexivity|].
  cbn in H. injection H as -> H. cbn [lookup].
  destruct (String.eqb k k0); [discriminate | apply IH, H].
Qed.

Section Footprints.

Context {browser : Browser}.

Lemma frame_set_content (prop : string) (element : option string)
  (content : string) :
  keeps frame (set_content prop element content).
Proof.
  intros w. destruct element as [id|]; [|apply frame_refl].
  unfold frame. cbn. rewrite update_keys. repeat split.
Qed.

Lemma silent_set_content (prop : string) (element : option string)
  (content : string) :
  keeps silent (set_content prop element content).
Proof.
  intros w. destruct element as [id|]; split; reflexivity.
Qed.

Lemma frame_animation_timer (id : string) (current : Z)
  (number : option Z) (target : JsValue) (step : nat) (ms : Z) :
  keeps frame (setInterval (AnimateNumberCb id current number target step) ms).
Proof.
  intros w. unfold frame, refresh_timers. cbn.
  rewrite filter_app. cbn. rewrite app_nil_r. repeat split.
Qed.

Lemma silent_setInterval (cb : Callback) (ms : Z) :
  keeps silent (setInterval cb ms).
Proof. intros w. split; reflexivity. Qed.

Lemma same_document_setInterval (cb : Callback) (ms : Z) :
  keeps same_document (setInterval cb ms).
Proof. intros w. reflexivity. Qed.

Lemma frame_fetch (url : string) (outcome : FetchOutcome) :
  keeps frame (fetch url outcome).
Proof. intros w. repeat split. Qed.

Lemma frame_console_error (label : string) (e : Error) :
  keeps frame (console_error label e).
Proof. intros w. repeat split. Qed.

End Footprints.

(** A footprint goal, method by method. *)
Ltac footprint refl trans :=
  repeat first
    [ apply (keeps_bind _ trans); [|intros ?]
    | apply (keeps_try_catch _ trans); [|intros ?]
    | apply (keeps_ret _ refl)
    | apply (keeps_throw _ refl)
    | apply (keeps_lift _ refl)
    | apply (keeps_gets _ refl)
    | apply frame_set_content
    | apply silent_set_content
    | apply frame_animation_timer
    | apply silent_setInterval
    | apply same_document_setInterval
    | apply frame_fetch
    | apply frame_console_error
    | progress cbv zeta
    | match goal with
      | |- keeps _ (if ?b then _ else _) => destruct b
      | |- keeps _ (match ?x with _ => _ end) => destruct x
      end ].

Section Footprints2.

Context {browser : Browser}.

Lemma frame_updateTokenTable (clock : nat -> Z * Z) (data : JsValue) :
  keeps frame (updateTokenTable clock data).
Proof.
  unfold updateTokenTable, showEmpty, set_innerHTML, getElementById.
  footprint frame_refl frame_trans.
Qed.

Lemma silent_updateTokenTable (clock : nat -> Z * Z) (data : JsValue) :
  keeps silent (updateTokenTable clock data).
Proof.
  unfold updateTokenTable, showEmpty, set_innerHTML, getElementById.
  footprint silent_refl silent_trans.
Qed.

Lemma frame_updateStatusBar (data : JsValue) :
  keeps frame (updateStatusBar data).
Proof.
  unfold updateStatusBar, animateNumber, getElementById.
  footprint frame_refl frame_trans.
Qed.

Lemma silent_updateStatusBar (data : JsValue) :
  keeps silent (updateStatusBar data).
Proof.
  unfold updateStatusBar, animateNumber, getElementById.
  footprint silent_refl silent_trans.
Qed.

Lemma same_document_animateNumber (elementId : string)
  (target : JsValue) :
  keeps same_document (animateNumber elementId target).
Proof.
  unfold animateNumber, getElementById.
  footprint same_document_refl same_document_trans.
Qed.

Lemma same_document_updateStatusBar (data : JsValue) :
  keeps same_document (updateStatusBar data).
Proof.
  unfold updateStatusBar, animateNumber, getElementById.
  footprint same_document_refl same_document_trans.
Qed.

Lemma frame_updateLastUpdateTime (now : Z) :
  keeps frame (updateLastUpdateTime now).
Proof.
  unfold updateLastUpdateTime, updateElement, set_textContent,
    getElementById.
  footprint frame_refl frame_trans.
Qed.

Lemma silent_updateLastUpdateTime (now : Z) :
  keeps silent (updateLastUpdateTime now).
Proof.
  unfold updateLastUpdateTime, updateElement, set_textContent,
    getElementById.
  footprint silent_refl silent_trans.
Qed.

Lemma silent_render (clock : nat -> Z * Z) (data : JsValue) (now : Z) :
  keeps silent (render clock data now).
Proof.
  unfold render.
  footprint silent_refl silent_trans;
    try apply silent_updateTokenTable;
    try apply silent_updateStatusBar;
    try apply silent_updateLastUpdateTime.
Qed.

Lemma frame_refreshTokens (outcome : FetchOutcome) (clock : nat -> Z * Z)
  (now : Z) :
  keeps frame (refreshTokens outcome clock now).
Proof.
  unfold refreshTokens, showLoading, showError, set_innerHTML,
    getElementById.
  footprint frame_refl frame_trans;
    try apply frame_updateTokenTable;
    try apply frame_updateStatusBar;
    try apply frame_updateLastUpdateTime.
Qed.

Lemma get_total (v : JsValue) (k : string) :
  nullish v = false -> exists x, get v k = Normal x.
Proof.
  destruct v; try discriminate; intros _; cbn [get].
  - eexists; reflexivity.
  - eexists; reflexivity.
  - destruct (String.eqb k "length"); eexists; reflexivity.
  - destruct (String.eqb k "length"); eexists; reflexivity.
  - destruct (lookup k fields); eexists; reflexivity.
Qed.

Lemma get_nullish (v : JsValue) (k : string) :
  nullish v = true -> get v k = Throw (mkError (cannot_read_message v k)).
Proof. destruct v; try discriminate; reflexivity. Qed.

(** A token that is not a record has no field: its row is the row of
    the empty record. *)
Lemma createTokenRow_as_record (token : JsValue) :
  nullish token = false ->
  exists fields,
    renders token = renders (JObj fields) /\
    forall now_class now_text index,
      createTokenRow now_class now_text token index
      = createTokenRow now_class now_text (JObj fields) index.
Proof.
  destruct token; try discriminate; intros _;
    try (exists []; split; [reflexivity | intros; reflexivity]).
  exists fields. split; reflexivity.
Qed.

Lemma createTokenRow_total (now_class now_text : Z) (token : JsValue)
  (index : nat) :
  renders token = true ->
  exists row, createTokenRow now_class now_text token index = Normal row.
Proof.
  intros Hr.
  assert (Hn : nullish token = false)
    by (destruct token; try reflexivity; discriminate).
  destruct (createTokenRow_as_record token Hn) as [fields [Hf Hrow]].
  rewrite Hf in Hr. rewrite Hrow.
  destruct (createTokenRow_record now_class now_text fields index Hr)
    as [email [preview [auth [usage [cls [txt [_ [_ [_ [_ [_ [_ H]]]]]]]]]]]].
  eexists. exact H.
Qed.

Lemma createTokenRow_nullish (now_class now_text : Z) (token : JsValue)
  (index : nat) :
  nullish token = true ->
  createTokenRow now_class now_text token index
  = Throw (mkError (cannot_read_message token "expires_at")).
Proof.
  intros H. unfold createTokenRow, getStatusClass, isExpired.
  rewrite (get_nullish _ _ H). reflexivity.
Qed.

Lemma createTokenRow_no_string (now_class now_text : Z) (token : JsValue)
  (index : nat) :
  nullish token = false ->
  renders token = false ->
  createTokenRow now_class now_text token index
  = Throw (mkError cannot_convert_message).
Proof.
  intros Hn Hr.
  destruct (createTokenRow_as_record token Hn) as [fields [Hf Hrow]].
  rewrite Hf in Hr. rewrite Hrow.
  exact (createTokenRow_unconvertible _ _ _ _ Hr).
Qed.

(** When [updateTokenTable] throws it has written nothing; when it
    returns, [data] was not [null] and the table body alone is
    written. *)
Lemma updateTokenTable_outcome (clock : nat -> Z * Z) (data : JsValue)
  (w : World) :
  match updateTokenTable clock data w with
  | (Throw _, w') => w' = w
  | (Normal _, w') =>
      nullish data = false /\
      exists markup,
        w' = set_document
               (mkDocument
                  (update "tokenTableBody" markup (elements (document w)))
                  (switch (document w))) w
  end.
Proof.
  unfold updateTokenTable, bind, getElementById, gets, lift, ret.
  destruct (nullish data) eqn:Hn.
  - rewrite (get_nullish _ _ Hn). reflexivity.
  - destruct (get_total data "tokens" Hn) as [tokens ->].
    destruct (negb (truthy tokens)) eqn:Ht.
    + unfold showEmpty, set_innerHTML, set_content.
      destruct (lookup "tokenTableBody" (elements (document w)));
        [split; [reflexivity | eexists; reflexivity] | reflexivity].
    + apply negb_false_iff in Ht.
      assert (Hnt : nullish tokens = false)
        by (destruct tokens; try discriminate; reflexivity).
      destruct (get_total tokens "length" Hnt) as [len ->].
      destruct (strict_eq_num len 0).
      * unfold showEmpty, set_innerHTML, set_content.
        destruct (lookup "tokenTableBody" (elements (document w)));
          [split; [reflexivity | eexists; reflexivity] | reflexivity].
      * match goal with
        | |- context [match ?c with Normal _ => _ | Throw _ => _ end] =>
            destruct c as [rows|e]
        end; [|reflexivity].
        unfold set_innerHTML, set_content.
        destruct (lookup "tokenTableBody" (elements (document w)));
          [split; [reflexivity | eexists; reflexivity] | reflexivity].
Qed.

(** [animateNumber] returns on a target that has a number; when it
    throws, it throws the TypeError of the conversion and has set no
    timer. *)
Lemma animateNumber_returns (elementId : string) (target : JsValue)
  (w : World) :
  converts target = true ->
  completion (animateNumber elementId target) w = Normal tt.
Proof.
  intros Hc. unfold completion, animateNumber, bind, getElementById, gets.
  cbn. destruct (lookup elementId (elements (document w))) as [t|]; cbn;
    [|reflexivity].
  destruct (strict_eq_num target _); cbn; [reflexivity|].
  pose proof (ToNumber_outcome target) as H. rewrite Hc in H.
  destruct H as [number ->]. reflexivity.
Qed.

Lemma animateNumber_throws (elementId : string) (target : JsValue)
  (w w' : World) (e : Error) :
  animateNumber elementId target w = (Throw e, w') ->
  w' = w /\ e = mkError cannot_convert_message.
Proof.
  unfold animateNumber, bind, getElementById, gets.
  cbn. destruct (lookup elementId (elements (document w))) as [t|]; cbn;
    [|discriminate].
  destruct (strict_eq_num target _); cbn; [discriminate|].
  unfold lift. destruct (ToNumber target) as [number|e0] eqn:E; cbn;
    [discriminate|].
  intros [= <- <-]. split; [reflexivity|].
  exact (outcome_throws _ _ _ (ToNumber_outcome target) E).
Qed.

(** What [animateNumber] does to the timers: nothing, or one timer of
    the counter animation, 20 ms apart. *)
Lemma animateNumber_timers (elementId : string) (target : JsValue)
  (w : World) :
  exists extra,
    intervals (exec (animateNumber elementId target) w)
    = (intervals w ++ extra)%list /\
    (List.length extra <= 1)%nat /\
    Forall animation_timer extra.
Proof.
  unfold exec, animateNumber, bind, getElementById, gets.
  cbn. destruct (lookup elementId (elements (document w))) as [t|]; cbn.
  - destruct (strict_eq_num target _); cbn.
    + exists []. rewrite app_nil_r.
      split; [reflexivity|]. split; [cbn; lia | constructor].
    + unfold lift. destruct (ToNumber target) as [number|e]; cbn.
      * eexists [_]. split; [reflexivity|]. split; [cbn; lia|].
        constructor; [split; reflexivity | constructor].
      * exists []. rewrite app_nil_r.
        split; [reflexivity|]. split; [cbn; lia | constructor].
  - exists []. rewrite app_nil_r.
    split; [reflexivity|]. split; [cbn; lia | constructor].
Qed.

Lemma counters_convert_total (data : JsValue) :
  counters_convert data = true ->
  exists total active,
    get data "total_tokens" = Normal total /\
    get data "active_tokens" = Normal active /\
    converts (js_or total (JNum 0)) = true /\
    converts (js_or active (JNum 0)) = true.
Proof.
  unfold counters_convert, all_convert. cbn [forallb].
  destruct (get data "total_tokens") as [total|e]; [|discriminate].
  destruct (get data "active_tokens") as [active|e];
    [|rewrite andb_false_r; discriminate].
  intros H. apply andb_true_iff in H as [Ht H].
  apply andb_true_iff in H as [Ha _].
  exists total, active. rewrite !js_or_converts by reflexivity. auto.
Qed.

Lemma updateStatusBar_returns (data : JsValue) (w : World) :
  counters_convert data = true ->
  completion (updateStatusBar data) w = Normal tt.
Proof.
  intros Hc.
  destruct (counters_convert_total data Hc)
    as [total [active [Ht [Ha [Hct Hca]]]]].
  unfold updateStatusBar, completion, bind, lift. rewrite Ht, Ha.
  pose proof (animateNumber_returns "totalTokens" (js_or total (JNum 0)) w
                Hct) as H1.
  unfold completion in H1.
  destruct (animateNumber "totalTokens" _ w) as [c1 w1].
  cbn [fst] in H1. subst c1.
  exact (animateNumber_returns _ _ _ Hca).
Qed.

(** When [updateStatusBar] throws, it throws the TypeError of the
    conversion or the one for reading a counter of [null], and it has
    set one timer of the counter animation at most. *)
Lemma updateStatusBar_throws (data : JsValue) (w w' : World) (e : Error) :
  updateStatusBar data w = (Throw e, w') ->
  (nullish data = true \/ e = mkError cannot_convert_message) /\
  exists extra,
    intervals w' = (intervals w ++ extra)%list /\
    (List.length extra <= 1)%nat /\
    Forall animation_timer extra.
Proof.
  unfold updateStatusBar, bind, lift.
  destruct (nullish data) eqn:Hn.
  - rewrite (get_nullish _ _ Hn). intros [= <- <-].
    split; [left; reflexivity|]. exists []. rewrite app_nil_r.
    split; [reflexivity|]. split; [cbn; lia | constructor].
  - destruct (get_total data "total_tokens" Hn) as [total ->].
    destruct (get_total data "active_tokens" Hn) as [active ->].
    pose proof (animateNumber_timers "totalTokens" (js_or total (JNum 0)) w)
      as Ht.
    unfold exec in Ht.
    destruct (animateNumber "totalTokens" (js_or total (JNum 0)) w)
      as [[[]|e1] w1] eqn:E1; cbn [snd] in Ht.
    + destruct (animateNumber "activeTokens" (js_or active (JNum 0)) w1)
        as [[[]|e2] w2] eqn:E2; [discriminate|].
      intros [= <- <-].
      destruct (animateNumber_throws _ _ _ _ _ E2) as [-> ->].
      split; [right; reflexivity | exact Ht].
    + intros [= <- <-].
      destruct (animateNumber_throws _ _ _ _ _ E1) as [-> ->].
      split; [right; reflexivity|]. exists []. rewrite app_nil_r.
      split; [reflexivity|]. split; [cbn; lia | constructor].
Qed.

Lemma updateLastUpdateTime_returns (now : Z) (w : World) :
  completion (updateLastUpdateTime now) w = Normal tt.
Proof.
  unfold updateLastUpdateTime, updateElement, completion, bind,
    getElementById, gets, set_textContent, set_content, modify.
  cbn. destruct (lookup "lastUpdate" (elements (document w)));
    reflexivity.
Qed.

Lemma updateLastUpdateTime_other (now : Z) (id : string) (w : World) :
  id <> "lastUpdate" ->
  content_of id (exec (updateLastUpdateTime now) w) = content_of id w.
Proof.
  intros Hne.
  unfold updateLastUpdateTime, updateElement, exec, bind,
    getElementById, gets, set_textContent, set_content, modify, content_of.
  cbn.
  destruct (lookup "lastUpdate" (elements (document w))); cbn;
    [|reflexivity].
  rewrite lookup_update.
  apply String.eqb_neq in Hne. rewrite Hne. reflexivity.
Qed.

Lemma updateLastUpdateTime_sets (now : Z) (w : World) :
  content_of "lastUpdate" w <> None ->
  content_of "lastUpdate" (exec (updateLastUpdateTime now) w)
  = Some (toLocaleTimeString now).
Proof.
  unfold updateLastUpdateTime, updateElement, exec, bind, getElementById,
    gets, set_textContent, set_content, modify, content_of.
  intros H. cbn.
  destruct (lookup "lastUpdate" (elements (document w))) eqn:E;
    [|contradiction].
  cbn. now rewrite lookup_update, String.eqb_refl, E.
Qed.

(** The table body once the rendering steps after [updateTokenTable]
    have run. *)
Lemma table_body_after_render (data : JsValue) (now : Z) (w : World) :
  content_of "tokenTableBody"
    (exec (updateLastUpdateTime now) (exec (updateStatusBar data) w))
  = content_of "tokenTableBody" w.
Proof.
  rewrite updateLastUpdateTime_other by discriminate.
  pose proof (same_document_updateStatusBar data w) as H.
  unfold same_document in H. unfold content_of, exec. now rewrite H.
Qed.

(** *** The run of [refreshTokens] *)

(** On a page that has the table body, [refreshTokens] writes the
    loading placeholder, sends the request, and then reports the error
    of the fetch or renders the data, reporting what the rendering
    throws. *)
Lemma refreshTokens_run (w : World) (outcome : FetchOutcome)
  (clock : nat -> Z * Z) (now : Z) (c : string) :
  content_of "tokenTableBody" w = Some c ->
  refreshTokens outcome clock now w =
  match fetched outcome with
  | Throw e => report e (loading_page w)
  | Normal data => try_catch (render clock data now) report (loading_page w)
  end.
Proof.
  intros H. enter_refresh H. unfold fetched.
  destruct outcome as [e|r]; [reflexivity|].
  run. destruct (ok r); run; [|reflexivity].
  destruct (json r) as [data|e]; reflexivity.
Qed.

Lemma report_run (w : World) (e : Error) :
  report e (loading_page w) = (Normal tt, failed_page w e).
Proof. reflexivity. Qed.

Lemma report_returns (e : Error) (w : World) :
  completion (report e) w = Normal tt.
Proof. reflexivity. Qed.

(** What the [catch] block does to the page it finds: one entry on the
    console, the error in the table body. *)
Lemma report_state (e : Error) (w : World) :
  exec (report e) w =
  mkWorld (dashboard w)
    (mkDocument
       (update "tokenTableBody"
          (error_markup (escape_text ("Failed to load: " ++ message e)))
          (elements (document w)))
       (switch (document w)))
    (next_handle w) (intervals w) (requests w)
    (console w ++ [("Failed to refresh token data:", e)]).
Proof. reflexivity. Qed.

Lemma loading_page_has_body (w : World) (c : string) :
  content_of "tokenTableBody" w = Some c ->
  content_of "tokenTableBody" (loading_page w) = Some loading_markup.
Proof. intros H. apply (lookup_update_same _ _ c), H. Qed.

Lemma failed_page_body (w : World) (e : Error) (c : string) :
  content_of "tokenTableBody" w = Some c ->
  content_of "tokenTableBody" (failed_page w e)
  = Some (error_markup (escape_text ("Failed to load: " ++ message e))).
Proof.
  unfold content_of. intros H. cbn [failed_page document elements].
  rewrite !lookup_update, String.eqb_refl, H. reflexivity.
Qed.

Lemma failed_page_others (w : World) (e : Error) (id : string) :
  id <> "tokenTableBody" ->
  content_of id (failed_page w e) = content_of id w.
Proof.
  intros Hne. unfold content_of, failed_page. cbn [document elements].
  apply String.eqb_neq in Hne. now rewrite !lookup_update, Hne.
Qed.

(** A run whose fetch fails. *)
Lemma refreshTokens_fetch_fails (w : World) (outcome : FetchOutcome)
  (clock : nat -> Z * Z) (now : Z) (c : string) (e : Error) :
  content_of "tokenTableBody" w = Some c ->
  fetched outcome = Throw e ->
  refreshTokens outcome clock now w = (Normal tt, failed_page w e).
Proof.
  intros H Hf. rewrite (refreshTokens_run w outcome clock now c H), Hf.
  reflexivity.
Qed.

(** A run in which [updateTokenTable] throws [e]. *)
Lemma refreshTokens_table_throws (w : World) (r : Response)
  (data : JsValue) (clock : nat -> Z * Z) (now : Z) (c : string)
  (e : Error) :
  content_of "tokenTableBody" w = Some c ->
  ok r = true ->
  json r = Normal data ->
  completion (updateTokenTable clock data) (loading_page w) = Throw e ->
  refreshTokens (Resolved r) clock now w = (Normal tt, failed_page w e).
Proof.
  intros H Hok Hjson Hthrow.
  rewrite (refreshTokens_run w _ clock now c H).
  unfold fetched. rewrite Hok, Hjson. cbn [negb].
  unfold try_catch, render. unfold completion in Hthrow.
  pose proof (updateTokenTable_outcome clock data (loading_page w)) as Hout.
  unfold bind at 1.
  destruct (updateTokenTable clock data (loading_page w)) as [[[]|e1] w2];
    cbn [fst] in Hthrow; [discriminate|].
  injection Hthrow as ->. subst w2. reflexivity.
Qed.

(** A run in which the rendering returns. *)
Lemma refreshTokens_renders (w : World) (r : Response)
  (data : JsValue) (clock : nat -> Z * Z) (now : Z) (c : string)
  (w2 : World) :
  content_of "tokenTableBody" w = Some c ->
  ok r = true ->
  json r = Normal data ->
  updateTokenTable clock data (loading_page w) = (Normal tt, w2) ->
  counters_convert data = true ->
  refreshTokens (Resolved r) clock now w
  = (Normal tt,
     exec (updateLastUpdateTime now) (exec (updateStatusBar data) w2)).
Proof.
  intros H Hok Hjson Hrun Hc.
  rewrite (refreshTokens_run w _ clock now c H).
  unfold fetched. rewrite Hok, Hjson. cbn [negb].
  unfold try_catch, render. unfold bind at 1. rewrite Hrun.
  unfold bind at 1. unfold exec.
  pose proof (updateStatusBar_returns data w2 Hc) as Hbar.
  unfold completion in Hbar.
  destruct (updateStatusBar data w2) as [c3 w3].
  cbn [fst snd] in *. subst c3.
  pose proof (updateLastUpdateTime_returns now w3) as Hlast.
  unfold completion in Hlast.
  destruct (updateLastUpdateTime now w3) as [c4 w4].
  cbn [fst snd] in *. subst c4. reflexivity.
Qed.

(** [refreshTokens] returns on every page that has the table body. *)
Lemma refreshTokens_returns (w : World) (outcome : FetchOutcome)
  (clock : nat -> Z * Z) (now : Z) (c : string) :
  content_of "tokenTableBody" w = Some c ->
  completion (refreshTokens outcome clock now) w = Normal tt.
Proof.
  intros H. unfold completion.
  rewrite (refreshTokens_run w outcome clock now c H).
  destruct (fetched outcome) as [data|e]; [|reflexivity].
  unfold try_catch.
  destruct (render clock data now (loading_page w)) as [[[]|e] w2];
    reflexivity.
Qed.

End Footprints2.

(** ** The fetch / render cycle *)

Section Refresh.

Context {browser : Browser}.





(** The table body is part of the contract: without it the first
    statement of [refreshTokens], outside the [try], throws. *)
Remark refreshTokens_without_table_body (w : World)
  (outcome : FetchOutcome) (clock : nat -> Z * Z) (now : Z) :
  content_of "tokenTableBody" w = None ->
  completion (refreshTokens outcome clock now) w
  = Throw (mkError (cannot_set_message "innerHTML")).
Proof.
  unfold completion, refreshTokens, bind, getElementById, gets, content_of.
  intros ->. reflexivity.
Qed.

(** C4: after a response whose status is not in 200..299 the table body
    holds the error message, in which the status code stands in decimal
    digits, followed by the reason phrase. *)
Theorem non_2xx_shows_status (w : World) (r : Response)
  (clock : nat -> Z * Z) (now : Z) :
  content_of "tokenTableBody" w <> None ->
  status r < 200 \/ 299 < status r ->
  content_of "tokenTableBody"
    (exec (refreshTokens (Resolved r) clock now) w)
  = Some
      (error_markup
         ("Failed to load: HTTP " ++ Number_toString (status r) ++ ": "
            ++ escape_text (statusText r))) /\
  exists pre post,
    content_of "tokenTableBody"
      (exec (refreshTokens (Resolved r) clock now) w)
    = Some (pre ++ Number_toString (status r) ++ post).
Proof.
  intros Hbody Hstatus.
  destruct (content_of "tokenTableBody" w) as [c|] eqn:H; [|contradiction].
  clear Hbody.
  assert (Hok : ok r = false).
  { unfold ok. apply andb_false_iff.
    destruct Hstatus; [left; apply Z.leb_gt | right; apply Z.leb_gt]; lia. }
  assert (Hmsg :
    escape_text
      ("Failed to load: " ++
       "HTTP " ++ Number_toString (status r) ++ ": " ++ statusText r)
    = "Failed to load: HTTP " ++ Number_toString (status r) ++ ": "
        ++ escape_text (statusText r)).
  { change ("Failed to load: " ++
            "HTTP " ++ Number_toString (status r) ++ ": " ++ statusText r)
      with ("Failed to load: HTTP " ++
            Number_toString (status r) ++ ": " ++ statusText r).
    rewrite escape_text_plain_app by reflexivity.
    rewrite escape_text_plain_app by apply plain_Number_toString.
    rewrite escape_text_plain_app by reflexivity.
    reflexivity. }
  assert (Hcontent :
    content_of "tokenTableBody"
      (exec (refreshTokens (Resolved r) clock now) w)
    = Some
        (error_markup
           ("Failed to load: HTTP " ++ Number_toString (status r) ++ ": "
              ++ escape_text (statusText r)))).
  { unfold exec.
    rewrite (refreshTokens_fetch_fails w (Resolved r) clock now c
               (mkError ("HTTP " ++ Number_toString (status r) ++ ": "
                           ++ statusText r)) H)
      by (unfold fetched; now rewrite Hok).
    cbn [snd]. rewrite (failed_page_body w _ c H). cbn [message].
    now rewrite Hmsg. }
  split; [exact Hcontent|].
  rewrite Hcontent. unfold error_markup, lines.
  eexists (EmptyString ++ newline ++ "            <tr>" ++ newline
           ++ ("                <td colspan=" ++ q "7" ++ ">") ++ newline
           ++ "                    <div class=" ++ q "error" ++ ">"
           ++ "Failed to load: HTTP "), _.
  rewrite !append_assoc. reflexivity.
Qed.

(** [updateTokenTable] on a [tokens] that is falsy or has a length of
    0. *)
Lemma updateTokenTable_no_tokens (clock : nat -> Z * Z)
  (data tokens : JsValue) (w : World) (c : string) :
  content_of "tokenTableBody" w = Some c ->
  get data "tokens" = Normal tokens ->
  truthy tokens = false \/ get tokens "length" = Normal (JNum 0) ->
  updateTokenTable clock data w =
  (Normal tt,
   set_document
     (mkDocument
        (update "tokenTableBody" empty_markup (elements (document w)))
        (switch (document w))) w).
Proof.
  intros H Htokens Hno. unfold updateTokenTable.
  unfold bind at 1. rewrite (getElementById_present _ _ _ H).
  unfold bind at 1. unfold lift at 1. rewrite Htokens.
  unfold bind at 1.
  destruct (truthy tokens) eqn:Ht; cbn [negb]; [|reflexivity].
  destruct Hno as [Hno | Hno]; [discriminate|].
  unfold bind at 1. unfold lift at 1. rewrite Hno. reflexivity.
Qed.

(** A run that finds no tokens and counters that have numbers. *)
Lemma refreshTokens_no_tokens (w : World) (r : Response)
  (data tokens : JsValue) (clock : nat -> Z * Z) (now : Z) (c : string) :
  content_of "tokenTableBody" w = Some c ->
  ok r = true ->
  json r = Normal data ->
  get data "tokens" = Normal tokens ->
  truthy tokens = false \/ get tokens "length" = Normal (JNum 0) ->
  counters_convert data = true ->
  let w' := exec (refreshTokens (Resolved r) clock now) w in
  content_of "tokenTableBody" w' = Some empty_markup /\
  console w' = console w.
Proof.
  intros H Hok Hjson Htokens Hno Hc w'.
  pose proof (updateTokenTable_no_tokens clock data tokens (loading_page w)
                _ (loading_page_has_body w c H) Htokens Hno) as Htable.
  pose proof (refreshTokens_renders w r data clock now c _
                H Hok Hjson Htable Hc) as Hrun.
  assert (Hw : w' = exec (updateLastUpdateTime now)
                      (exec (updateStatusBar data)
                         (set_document
                            (mkDocument
                               (update "tokenTableBody" empty_markup
                                  (elements (document (loading_page w))))
                               (switch (document (loading_page w))))
                            (loading_page w))))
    by (subst w'; unfold exec at 1; now rewrite Hrun).
  rewrite Hw. split.
  - rewrite table_body_after_render.
    apply (lookup_update_same _ _ loading_markup).
    exact (loading_page_has_body w c H).
  - unfold exec.
    rewrite (proj2 (silent_updateLastUpdateTime now _)).
    rewrite (proj2 (silent_updateStatusBar data _)).
    reflexivity.
Qed.

(** C5: after a successful response whose token list is empty or
    absent [updateTokenTable] sets the table body to the empty-state
    placeholder, which says that no token data is available and has no
    token row; with counters that have numbers, as the data model types
    them, the placeholder is what the table body holds when
    [refreshTokens] returns, and nothing is logged. *)
Theorem empty_list_shows_placeholder (w : World) (r : Response)
  (fields : list (string * JsValue)) (clock : nat -> Z * Z) (now : Z) :
  content_of "tokenTableBody" w <> None ->
  ok r = true ->
  json r = Normal (JObj fields) ->
  lookup "tokens" fields = None \/
  lookup "tokens" fields = Some JNull \/
  lookup "tokens" fields = Some (JArr []) ->
  let w' := exec (refreshTokens (Resolved r) clock now) w in
  completion (refreshTokens (Resolved r) clock now) w = Normal tt /\
  content_of "tokenTableBody"
    (exec (updateTokenTable clock (JObj fields)) (loading_page w))
  = Some empty_markup /\
  (counters_convert (JObj fields) = true ->
   content_of "tokenTableBody" w' = Some empty_markup /\
   console w' = console w) /\
  contains "<p>No token data available</p>" empty_markup = true /\
  contains "<tr data-index" empty_markup = false.
Proof.
  intros Hbody Hok Hjson Htokens w'.
  destruct (content_of "tokenTableBody" w) as [c|] eqn:H; [|contradiction].
  clear Hbody.
  assert (Hno : truthy (field fields "tokens") = false \/
                get (field fields "tokens") "length" = Normal (JNum 0)).
  { unfold field. destruct Htokens as [-> | [-> | ->]];
      [left | left | right]; reflexivity. }
  split; [exact (refreshTokens_returns w _ clock now c H)|].
  split.
  { unfold exec.
    rewrite (updateTokenTable_no_tokens clock (JObj fields) _
               (loading_page w) _ (loading_page_has_body w c H)
               (get_record fields "tokens") Hno).
    apply (lookup_update_same _ _ loading_markup).
    exact (loading_page_has_body w c H). }
  split.
  { intros Hc.
    exact (refreshTokens_no_tokens w r (JObj fields) _ clock now c
             H Hok Hjson (get_record fields "tokens") Hno Hc). }
  split; reflexivity.
Qed.



(** *** Runs of the cycle *)

Lemma mapi_from_length {A B} (f : A -> nat -> Completion B) (i : nat)
  (l : list A) (rows : list B) :
  mapi_from f i l = Normal rows -> List.length rows = List.length l.
Proof.
  revert i rows. induction l as [|a l IH]; intros i rows H.
  - injection H as <-. reflexivity.
  - cbn [mapi_from] in H. destruct (f a i) as [b|e]; [|discriminate].
    cbn [cbind] in H.
    destruct (mapi_from f (S i) l) as [bs|e] eqn:E; [|discriminate].
    injection H as <-. cbn [List.length]. f_equal. exact (IH _ _ E).
Qed.

Lemma mapi_from_nth {A B} (f : A -> nat -> Completion B) (i : nat)
  (l : list A) (rows : list B) (n : nat) (a : A) :
  mapi_from f i l = Normal rows ->
  nth_error l n = Some a ->
  exists b, nth_error rows n = Some b /\ f a (i + n)%nat = Normal b.
Proof.
  revert i rows n. induction l as [|x l IH]; intros i rows n H Hn.
  - destruct n; discriminate.
  - cbn [mapi_from] in H. destruct (f x i) as [b|e] eqn:Ef; [|discriminate].
    cbn [cbind] in H.
    destruct (mapi_from f (S i) l) as [bs|e] eqn:E; [|discriminate].
    injection H as <-. destruct n as [|n].
    + injection Hn as <-. exists b. rewrite Nat.add_0_r. split; auto.
    + cbn [nth_error] in Hn |- *.
      destruct (IH _ _ _ E Hn) as [b' [H1 H2]].
      exists b'. split; [exact H1|].
      rewrite <- H2. f_equal. lia.
Qed.

Lemma mapi_from_total {A B} (f : A -> nat -> Completion B) (i : nat)
  (l : list A) :
  (forall a n, In a l -> exists b, f a n = Normal b) ->
  exists rows, mapi_from f i l = Normal rows.
Proof.
  revert i. induction l as [|a l IH]; intros i H.
  - eexists; reflexivity.
  - cbn [mapi_from]. destruct (H a i (or_introl eq_refl)) as [b ->].
    destruct (IH (S i) (fun a' n Hin => H a' n (or_intror Hin)))
      as [bs ->].
    eexists; reflexivity.
Qed.

Lemma mapi_from_throws {A B} (f : A -> nat -> Completion B) (i : nat)
  (good rest : list A) (bad : A) (e : Error) :
  (forall a n, In a good -> exists b, f a n = Normal b) ->
  f bad (i + List.length good)%nat = Throw e ->
  mapi_from f i (good ++ bad :: rest) = Throw e.
Proof.
  revert i. induction good as [|a good IH]; intros i Hgood Hbad.
  - cbn in Hbad |- *. rewrite Nat.add_0_r in Hbad. rewrite Hbad.
    reflexivity.
  - cbn [app mapi_from]. destruct (Hgood a i (or_introl eq_refl)) as [b ->].
    cbn [cbind]. rewrite IH; [reflexivity | |].
    + intros a' n Hin. apply Hgood. right. exact Hin.
    + rewrite <- Hbad. f_equal. cbn [List.length]. lia.
Qed.

(** [updateTokenTable] on a list that is not empty. *)
Lemma updateTokenTable_list (clock : nat -> Z * Z) (data : JsValue)
  (items : list JsValue) (w : World) (c : string) :
  content_of "tokenTableBody" w = Some c ->
  get data "tokens" = Normal (JArr items) ->
  items <> [] ->
  updateTokenTable clock data w =
  match
    mapi_from
      (fun token index =>
         createTokenRow (fst (clock index)) (snd (clock index)) token index)
      0%nat items
  with
  | Normal rows =>
      (Normal tt,
       set_document
         (mkDocument
            (update "tokenTableBody" (join EmptyString rows)
               (elements (document w)))
            (switch (document w))) w)
  | Throw e => (Throw e, w)
  end.
Proof.
  intros H Htokens Hne. unfold updateTokenTable.
  unfold bind at 1. rewrite (getElementById_present _ _ _ H).
  unfold bind at 1. unfold lift at 1. rewrite Htokens.
  unfold bind at 1. cbn [truthy negb].
  unfold bind at 1. unfold lift at 1.
  change (get (JArr items) "length")
    with (Normal (A := JsValue) (JNum (Z.of_nat (List.length items)))).
  unfold bind at 1. unfold ret at 1.
  replace (strict_eq_num (JNum (Z.of_nat (List.length items))) 0)
    with false
    by (destruct items; [contradiction|];
        cbn [List.length strict_eq_num]; symmetry; apply Z.eqb_neq; lia).
  unfold bind, lift.
  destruct (mapi_from _ 0%nat items); reflexivity.
Qed.

(** [updateTokenTable] on a [tokens] that is truthy, is not an array
    and has no length of 0. *)
Lemma updateTokenTable_not_array (clock : nat -> Z * Z)
  (data tokens : JsValue) (w : World) :
  get data "tokens" = Normal tokens ->
  truthy tokens = true ->
  (forall items, tokens <> JArr items) ->
  get tokens "length" <> Normal (JNum 0) ->
  updateTokenTable clock data w
  = (Throw (mkError (not_a_function_message tokens "map")), w).
Proof.
  intros Htokens Htruthy Hnot Hlen. unfold updateTokenTable.
  unfold bind at 1. unfold getElementById at 1, gets at 1.
  unfold bind at 1. unfold lift at 1. rewrite Htokens.
  unfold bind at 1. rewrite Htruthy. cbn [negb].
  assert (Hnn : nullish tokens = false)
    by (destruct tokens; try discriminate; reflexivity).
  destruct (get_total tokens "length" Hnn) as [len Hget].
  unfold bind at 1. unfold lift at 1. rewrite Hget.
  unfold bind at 1. unfold ret at 1.
  assert (Hz : strict_eq_num len 0 = false).
  { destruct len; try reflexivity. cbn [strict_eq_num].
    apply Z.eqb_neq. intros ->. apply Hlen. exact Hget. }
  rewrite Hz. unfold bind, lift.
  destruct tokens; try reflexivity. exfalso. exact (Hnot _ eq_refl).
Qed.

(** A run in which [updateTokenTable] throws: the error is logged and
    shown. *)
Lemma table_failure_shown (w : World) (r : Response) (data : JsValue)
  (clock : nat -> Z * Z) (now : Z) (c : string) (reason : string) :
  content_of "tokenTableBody" w = Some c ->
  ok r = true ->
  json r = Normal data ->
  completion (updateTokenTable clock data) (loading_page w)
  = Throw (mkError reason) ->
  let w' := exec (refreshTokens (Resolved r) clock now) w in
  content_of "tokenTableBody" w'
  = Some (error_markup (escape_text ("Failed to load: " ++ reason))) /\
  console w'
  = (console w ++ [("Failed to refresh token data:", mkError reason)])%list.
Proof.
  intros H Hok Hjson Hthrow w'. subst w'. unfold exec.
  rewrite (refreshTokens_table_throws w r data clock now c _
             H Hok Hjson Hthrow).
  cbn [snd]. split; [exact (failed_page_body w _ c H) | reflexivity].
Qed.

Lemma frame_render (clock : nat -> Z * Z) (data : JsValue) (now : Z) :
  keeps frame (render clock data now).
Proof.
  unfold render.
  footprint frame_refl frame_trans;
    try apply frame_updateTokenTable;
    try apply frame_updateStatusBar;
    try apply frame_updateLastUpdateTime.
Qed.

(** Where the rendering can throw, and what it has done by then: the
    table body may be written, one timer of the counter animation may
    be set, and nothing else has changed. *)
Lemma render_throws (clock : nat -> Z * Z) (data : JsValue) (now : Z)
  (w w' : World) (e : Error) :
  render clock data now w = (Throw e, w') ->
  (forall id, id <> "tokenTableBody" -> content_of id w' = content_of id w) /\
  exists extra,
    intervals w' = (intervals w ++ extra)%list /\
    (List.length extra <= 1)%nat /\
    Forall animation_timer extra.
Proof.
  unfold render. unfold bind at 1.
  pose proof (updateTokenTable_outcome clock data w) as Hout.
  destruct (updateTokenTable clock data w) as [[[]|e1] w1].
  - destruct Hout as [_ [markup ->]].
    unfold bind at 1.
    match goal with
    | |- context [updateStatusBar data ?W] =>
        pose proof (same_document_updateStatusBar data W) as Hdoc;
        pose proof (updateStatusBar_throws data W) as Hbar;
        destruct (updateStatusBar data W) as [[[]|e2] w2]
    end.
    + pose proof (updateLastUpdateTime_returns now w2) as Hlast.
      unfold completion in Hlast.
      destruct (updateLastUpdateTime now w2) as [c3 w3].
      cbn [fst] in Hlast. subst c3. discriminate.
    + intros [= <- <-]. unfold same_document in Hdoc. cbn [snd] in Hdoc.
      split.
      * intros id Hne. unfold content_of. rewrite Hdoc.
        cbn [document set_document elements]. rewrite lookup_update.
        apply String.eqb_neq in Hne. now rewrite Hne.
      * exact (proj2 (Hbar _ _ eq_refl)).
  - intros [= <- <-]. subst w1. split; [reflexivity|].
    exists []. rewrite app_nil_r.
    split; [reflexivity|]. split; [cbn; lia | constructor].
Qed.

(** X8: a call of [refreshTokens] sends exactly one request, to
    [apiBaseUrl + '/tokens'], whatever the network answers and whatever
    the answer holds; on a page without the table body it sends none. *)
Theorem refresh_sends_one_request (w : World) (outcome : FetchOutcome)
  (clock : nat -> Z * Z) (now : Z) :
  requests (exec (refreshTokens outcome clock now) w) =
  match content_of "tokenTableBody" w with
  | Some _ =>
      (requests w ++ [(apiBaseUrl (dashboard w) ++ "/tokens")%string])%list
  | None => requests w
  end.
Proof.
  destruct (content_of "tokenTableBody" w) as [c|] eqn:H.
  - unfold exec. rewrite (refreshTokens_run w outcome clock now c H).
    destruct (fetched outcome) as [data|e]; [|reflexivity].
    unfold try_catch.
    pose proof (silent_render clock data now (loading_page w)) as [Hs _].
    destruct (render clock data now (loading_page w)) as [[[]|e] w2];
      cbn [snd] in Hs |- *.
    + exact Hs.
    + fold (exec (report e) w2). rewrite report_state. exact Hs.
  - unfold exec, refreshTokens, bind, getElementById, gets.
    unfold content_of in H. rewrite H. reflexivity.
Qed.


(** What a run of [refreshTokens] logs, and what it has changed when
    it logs. *)
Lemma refreshTokens_logs (w : World) (outcome : FetchOutcome)
  (clock : nat -> Z * Z) (now : Z) :
  content_of "tokenTableBody" w <> None ->
  let w' := exec (refreshTokens outcome clock now) w in
  console w' = console w \/
  exists e,
    console w' = (console w ++ [("Failed to refresh token data:", e)])%list /\
    content_of "tokenTableBody" w'
    = Some (error_markup (escape_text ("Failed to load: " ++ message e))) /\
    (forall id, id <> "tokenTableBody" -> content_of id w' = content_of id w) /\
    exists extra,
      intervals w' = (intervals w ++ extra)%list /\
      (List.length extra <= 1)%nat /\
      Forall animation_timer extra.
Proof.
  intros Hbody w'.
  destruct (content_of "tokenTableBody" w) as [c|] eqn:H; [|contradiction].
  clear Hbody. subst w'. unfold exec.
  rewrite (refreshTokens_run w outcome clock now c H).
  destruct (fetched outcome) as [data|e].
  - unfold try_catch.
    pose proof (silent_render clock data now (loading_page w)) as [_ Hs].
    pose proof (frame_render clock data now (loading_page w))
      as [_ [_ [Hkeys _]]].
    pose proof (render_throws clock data now (loading_page w)) as Hthrow.
    destruct (render clock data now (loading_page w)) as [[[]|e] w2];
      cbn [snd] in Hs, Hkeys |- *.
    + left. exact Hs.
    + right. exists e. destruct (Hthrow _ _ eq_refl) as [Hids Htimers].
      fold (exec (report e) w2). rewrite report_state.
      cbn [console intervals]. rewrite Hs.
      split; [reflexivity|]. split; [|split; [|exact Htimers]].
      * unfold content_of. cbn [document elements].
        rewrite lookup_update, String.eqb_refl.
        destruct (lookup "tokenTableBody" (elements (document w2))) eqn:E;
          [reflexivity|].
        exfalso.
        pose proof (lookup_keys "tokenTableBody" _ _ (eq_sym Hkeys) E) as Hn.
        pose proof (loading_page_has_body w c H) as Hl.
        unfold content_of in Hl. rewrite Hl in Hn. discriminate.
      * intros id Hne. unfold content_of. cbn [document elements].
        rewrite lookup_update.
        pose proof Hne as Hne'. apply String.eqb_neq in Hne'. rewrite Hne'.
        fold (content_of id w2). rewrite (Hids id Hne).
        unfold content_of. cbn [loading_page document elements].
        now rewrite lookup_update, Hne'.
  - right. exists e. rewrite report_run. cbn [snd].
    split; [reflexivity|]. split; [exact (failed_page_body w e c H)|].
    split; [intros id Hne; exact (failed_page_others w e id Hne)|].
    exists []. rewrite app_nil_r.
    split; [reflexivity|]. split; [cbn; lia | constructor].
Qed.


(** X11: after a successful response whose [tokens] is a list, not
    empty, of tokens whose fields have strings, and whose counters have
    numbers, the table body is the rows of the tokens, one per token and
    in the order of the response, row [i] being [createTokenRow] of
    token [i] with index [i]; nothing is logged, and the last-update
    element holds the time of the run. *)
Theorem rows_follow_the_response (w : World) (r : Response)
  (data : JsValue) (items : list JsValue) (clock : nat -> Z * Z)
  (now : Z) :
  content_of "tokenTableBody" w <> None ->
  ok r = true ->
  json r = Normal data ->
  get data "tokens" = Normal (JArr items) ->
  items <> [] ->
  Forall (fun token => renders token = true) items ->
  counters_convert data = true ->
  let w' := exec (refreshTokens (Resolved r) clock now) w in
  exists rows,
    content_of "tokenTableBody" w' = Some (join EmptyString rows) /\
    List.length rows = List.length items /\
    (forall i token,
       nth_error items i = Some token ->
       exists row,
         nth_error rows i = Some row /\
         createTokenRow (fst (clock i)) (snd (clock i)) token i
         = Normal row) /\
    console w' = console w /\
    (content_of "lastUpdate" w <> None ->
     content_of "lastUpdate" w' = Some (toLocaleTimeString now)).
Proof.
  intros Hbody Hok Hjson Htokens Hne Hall Hc w'.
  destruct (content_of "tokenTableBody" w) as [c|] eqn:H; [|contradiction].
  clear Hbody.
  destruct (mapi_from_total
              (fun token index =>
                 createTokenRow (fst (clock index)) (snd (clock index))
                   token index) 0%nat items) as [rows Hrows].
  { intros token n Hin. apply createTokenRow_total.
    rewrite Forall_forall in Hall. exact (Hall token Hin). }
  pose proof (updateTokenTable_list clock data items (loading_page w) _
                (loading_page_has_body w c H) Htokens Hne) as Htable.
  rewrite Hrows in Htable.
  pose proof (refreshTokens_renders w r data clock now c _
                H Hok Hjson Htable Hc) as Hrun.
  assert (Hw : w' = exec (updateLastUpdateTime now)
                      (exec (updateStatusBar data)
                         (set_document
                            (mkDocument
                               (update "tokenTableBody" (join EmptyString rows)
                                  (elements (document (loading_page w))))
                               (switch (document (loading_page w))))
                            (loading_page w))))
    by (subst w'; unfold exec at 1; now rewrite Hrun).
  exists rows. split; [|split; [|split; [|split]]].
  - rewrite Hw, table_body_after_render.
    apply (lookup_update_same _ _ loading_markup).
    exact (loading_page_has_body w c H).
  - exact (mapi_from_length _ _ _ _ Hrows).
  - intros i token Hi.
    exact (mapi_from_nth _ 0%nat _ _ _ _ Hrows Hi).
  - rewrite Hw. unfold exec.
    rewrite (proj2 (silent_updateLastUpdateTime now _)).
    rewrite (proj2 (silent_updateStatusBar data _)).
    reflexivity.
  - intros Hlast. rewrite Hw.
    apply updateLastUpdateTime_sets.
    pose proof (same_document_updateStatusBar data) as Hdoc.
    unfold keeps, same_document in Hdoc.
    unfold content_of, exec. rewrite Hdoc.
    cbn [document set_document elements loading_page].
    rewrite !lookup_update. exact Hlast.
Qed.

(** X12: one [null] among the tokens fails the whole table: the rows of
    the tokens before it are dropped and the table body holds the
    message of the TypeError for reading [expires_at] of [null]. *)
Theorem null_record_fails_table (w : World) (r : Response)
  (data : JsValue) (good rest : list JsValue) (bad : JsValue)
  (clock : nat -> Z * Z) (now : Z) :
  content_of "tokenTableBody" w <> None ->
  ok r = true ->
  json r = Normal data ->
  get data "tokens" = Normal (JArr (good ++ bad :: rest)) ->
  Forall (fun token => renders token = true) good ->
  nullish bad = true ->
  let w' := exec (refreshTokens (Resolved r) clock now) w in
  let reason := cannot_read_message bad "expires_at" in
  content_of "tokenTableBody" w'
  = Some (error_markup (escape_text ("Failed to load: " ++ reason))) /\
  console w'
  = (console w ++ [("Failed to refresh token data:", mkError reason)])%list.
Proof.
  intros Hbody Hok Hjson Htokens Hgood Hbad w' reason.
  destruct (content_of "tokenTableBody" w) as [c|] eqn:H; [|contradiction].
  clear Hbody.
  apply (table_failure_shown w r data clock now c reason H Hok Hjson).
  unfold completion.
  rewrite (updateTokenTable_list clock data _ (loading_page w) _
             (loading_page_has_body w c H) Htokens)
    by (destruct good; discriminate).
  rewrite (mapi_from_throws _ 0%nat good rest bad (mkError reason));
    [reflexivity | |].
  - intros token n Hin. apply createTokenRow_total.
    rewrite Forall_forall in Hgood. exact (Hgood token Hin).
  - apply createTokenRow_nullish, Hbad.
Qed.

(** X13: a [tokens] that is truthy, is not an array and has no length
    of 0 (a number, a string, [true], an object) fails the table: the
    table body holds the message of the TypeError for calling
    [tokens.map]. *)
Theorem non_array_tokens_fail (w : World) (r : Response)
  (data tokens : JsValue) (clock : nat -> Z * Z) (now : Z) :
  content_of "tokenTableBody" w <> None ->
  ok r = true ->
  json r = Normal data ->
  get data "tokens" = Normal tokens ->
  truthy tokens = true ->
  (forall items, tokens <> JArr items) ->
  get tokens "length" <> Normal (JNum 0) ->
  let w' := exec (refreshTokens (Resolved r) clock now) w in
  let reason := not_a_function_message tokens "map" in
  content_of "tokenTableBody" w'
  = Some (error_markup (escape_text ("Failed to load: " ++ reason))) /\
  console w'
  = (console w ++ [("Failed to refresh token data:", mkError reason)])%list.
Proof.
  intros Hbody Hok Hjson Htokens Htruthy Hnot Hlen w' reason.
  destruct (content_of "tokenTableBody" w) as [c|] eqn:H; [|contradiction].
  clear Hbody.
  apply (table_failure_shown w r data clock now c reason H Hok Hjson).
  unfold completion.
  now rewrite (updateTokenTable_not_array clock data tokens
                 (loading_page w) Htokens Htruthy Hnot Hlen).
Qed.

(** X14: a successful response whose body is the JSON value [null]
    fails the table: the table body holds the message of the TypeError
    for reading [tokens] of [null]. *)
Theorem null_body_fails (w : World) (r : Response) (data : JsValue)
  (clock : nat -> Z * Z) (now : Z) :
  content_of "tokenTableBody" w <> None ->
  ok r = true ->
  json r = Normal data ->
  nullish data = true ->
  let w' := exec (refreshTokens (Resolved r) clock now) w in
  let reason := cannot_read_message data "tokens" in
  content_of "tokenTableBody" w'
  = Some (error_markup (escape_text ("Failed to load: " ++ reason))) /\
  console w'
  = (console w ++ [("Failed to refresh token data:", mkError reason)])%list.
Proof.
  intros Hbody Hok Hjson Hnull w' reason.
  destruct (content_of "tokenTableBody" w) as [c|] eqn:H; [|contradiction].
  clear Hbody.
  apply (table_failure_shown w r data clock now c reason H Hok Hjson).
  unfold completion, updateTokenTable, bind, getElementById, gets, lift.
  rewrite (get_nullish _ _ Hnull). reflexivity.
Qed.

(** X15: the empty-state placeholder, which says that no token data is
    available, is shown for every [tokens] that is falsy (absent,
    [null], 0, [false], the empty string) or whose [length] is 0 (the
    empty array, an object with a [length] of 0), when the counters have
    numbers; nothing is logged. *)
Theorem falsy_tokens_show_placeholder (w : World) (r : Response)
  (data tokens : JsValue) (clock : nat -> Z * Z) (now : Z) :
  content_of "tokenTableBody" w <> None ->
  ok r = true ->
  json r = Normal data ->
  get data "tokens" = Normal tokens ->
  truthy tokens = false \/ get tokens "length" = Normal (JNum 0) ->
  counters_convert data = true ->
  let w' := exec (refreshTokens (Resolved r) clock now) w in
  content_of "tokenTableBody" w' = Some empty_markup /\
  contains "<p>No token data available</p>" empty_markup = true /\
  console w' = console w.
Proof.
  intros Hbody Hok Hjson Htokens Hno Hc w'.
  destruct (content_of "tokenTableBody" w) as [c|] eqn:H; [|contradiction].
  clear Hbody.
  destruct (refreshTokens_no_tokens w r data tokens clock now c
              H Hok Hjson Htokens Hno Hc) as [H1 H2].
  split; [exact H1|]. split; [reflexivity | exact H2].
Qed.

(** X24: one token with a field that has no string, an object with a
    property [toString] of its own, fails the whole table: the rows of
    the tokens before it are dropped, and the table body holds the
    message of the TypeError of the conversion. *)
Theorem unconvertible_field_fails_table (w : World) (r : Response)
  (data : JsValue) (good rest : list JsValue) (bad : JsValue)
  (clock : nat -> Z * Z) (now : Z) :
  content_of "tokenTableBody" w <> None ->
  ok r = true ->
  json r = Normal data ->
  get data "tokens" = Normal (JArr (good ++ bad :: rest)) ->
  Forall (fun token => renders token = true) good ->
  nullish bad = false ->
  renders bad = false ->
  let w' := exec (refreshTokens (Resolved r) clock now) w in
  let reason := cannot_convert_message in
  content_of "tokenTableBody" w'
  = Some (error_markup (escape_text ("Failed to load: " ++ reason))) /\
  console w'
  = (console w ++ [("Failed to refresh token data:", mkError reason)])%list /\
  intervals w' = intervals w.
Proof.
  intros Hbody Hok Hjson Htokens Hgood Hn Hbad w' reason.
  destruct (content_of "tokenTableBody" w) as [c|] eqn:H; [|contradiction].
  clear Hbody.
  assert (Hthrow :
    completion (updateTokenTable clock data) (loading_page w)
    = Throw (mkError reason)).
  { unfold completion.
    rewrite (updateTokenTable_list clock data _ (loading_page w) _
               (loading_page_has_body w c H) Htokens)
      by (destruct good; discriminate).
    rewrite (mapi_from_throws _ 0%nat good rest bad (mkError reason));
      [reflexivity | |].
    - intros token n Hin. apply createTokenRow_total.
      rewrite Forall_forall in Hgood. exact (Hgood token Hin).
    - apply createTokenRow_no_string; assumption. }
  destruct (table_failure_shown w r data clock now c reason H Hok Hjson
              Hthrow) as [H1 H2].
  split; [exact H1|]. split; [exact H2|].
  subst w'. unfold exec.
  now rewrite (refreshTokens_table_throws w r data clock now c _
                 H Hok Hjson Hthrow).
Qed.

(** [animateNumber] on a target that has no number, the counter being
    on the page: the subtraction throws. *)
Lemma animateNumber_no_number (elementId : string) (target : JsValue)
  (w : World) :
  content_of elementId w <> None ->
  converts target = false ->
  animateNumber elementId target w
  = (Throw (mkError cannot_convert_message), w).
Proof.
  intros Hel Hc. unfold animateNumber, bind, getElementById, gets.
  unfold content_of in Hel. cbn.
  destruct (lookup elementId (elements (document w))) as [t|];
    [|contradiction].
  cbn.
  assert (Hne : forall n, strict_eq_num target n = false)
    by (intros n; destruct target; try reflexivity; discriminate).
  rewrite Hne. unfold lift.
  pose proof (ToNumber_outcome target) as H. rewrite Hc in H. rewrite H.
  reflexivity.
Qed.

(** X25: a counter of the response that has no number fails the
    refresh after the table is rendered: the rows, or the placeholder,
    are replaced by the message of the TypeError of the conversion, and
    the error is logged. *)
Theorem unconvertible_counter_fails_refresh (w : World) (r : Response)
  (data : JsValue) (clock : nat -> Z * Z) (now : Z) :
  content_of "tokenTableBody" w <> None ->
  content_of "totalTokens" w <> None ->
  content_of "activeTokens" w <> None ->
  ok r = true ->
  json r = Normal data ->
  completion (updateTokenTable clock data) (loading_page w) = Normal tt ->
  counters_convert data = false ->
  let w' := exec (refreshTokens (Resolved r) clock now) w in
  let reason := cannot_convert_message in
  content_of "tokenTableBody" w'
  = Some (error_markup (escape_text ("Failed to load: " ++ reason))) /\
  console w'
  = (console w ++ [("Failed to refresh token data:", mkError reason)])%list /\
  content_of "lastUpdate" w' = content_of "lastUpdate" w.
Proof.
  intros Hbody Htotal Hactive Hok Hjson Htable Hc w' reason.
  destruct (content_of "tokenTableBody" w) as [c|] eqn:H; [|contradiction].
  clear Hbody.
  pose proof (refreshTokens_logs w (Resolved r) clock now) as Hfoot.
  rewrite H in Hfoot. specialize (Hfoot ltac:(discriminate)).
  cbv zeta in Hfoot. fold w' in Hfoot.
  assert (Hthrows : exists w2,
            render clock data now (loading_page w)
            = (Throw (mkError reason), w2)).
  { unfold render. unfold bind at 1. unfold completion in Htable.
    pose proof (updateTokenTable_outcome clock data (loading_page w))
      as Hout.
    destruct (updateTokenTable clock data (loading_page w))
      as [[[]|e1] w1]; cbn [fst] in Htable; [|discriminate].
    destruct Hout as [Hn [markup ->]].
    assert (Hel : forall id,
              content_of id w <> None ->
              content_of id
                (set_document
                   (mkDocument
                      (update "tokenTableBody" markup
                         (elements (document (loading_page w))))
                      (switch (document (loading_page w))))
                   (loading_page w)) <> None).
    { intros id. unfold content_of.
      cbn [document set_document elements loading_page].
      rewrite !lookup_update.
      destruct (String.eqb id "tokenTableBody");
        destruct (lookup id (elements (document w)));
        congruence. }
    unfold bind at 1. unfold updateStatusBar, bind, lift.
    destruct (get_total data "total_tokens" Hn) as [total Ht].
    destruct (get_total data "active_tokens" Hn) as [active Ha].
    rewrite Ht, Ha.
    unfold counters_convert, all_convert in Hc. cbn [forallb] in Hc.
    rewrite Ht, Ha, andb_true_r in Hc.
    rewrite <- (js_or_converts total (JNum 0)) in Hc by reflexivity.
    rewrite <- (js_or_converts active (JNum 0)) in Hc by reflexivity.
    destruct (converts (js_or total (JNum 0))) eqn:Hct.
    - cbn [andb] in Hc.
      pose proof (animateNumber_returns "totalTokens" (js_or total (JNum 0))
                    (set_document
                       (mkDocument
                          (update "tokenTableBody" markup
                             (elements (document (loading_page w))))
                          (switch (document (loading_page w))))
                       (loading_page w)) Hct) as Hret.
      pose proof (same_document_animateNumber "totalTokens"
                    (js_or total (JNum 0))
                    (set_document
                       (mkDocument
                          (update "tokenTableBody" markup
                             (elements (document (loading_page w))))
                          (switch (document (loading_page w))))
                       (loading_page w))) as Hdoc.
      unfold completion in Hret. unfold same_document in Hdoc.
      destruct (animateNumber "totalTokens" (js_or total (JNum 0)) _)
        as [c1 w1]. cbn [fst snd] in Hret, Hdoc. subst c1.
      rewrite (animateNumber_no_number "activeTokens" _ w1);
        [eexists; reflexivity | | exact Hc].
      unfold content_of. rewrite Hdoc. apply Hel, Hactive.
    - rewrite (animateNumber_no_number "totalTokens" _ _);
        [eexists; reflexivity | apply Hel, Htotal | exact Hct]. }
  destruct Hthrows as [w2 Hthrows].
  assert (Hrun : w' = exec (report (mkError reason)) w2).
  { subst w'. unfold exec at 1.
    rewrite (refreshTokens_run w _ clock now c H).
    unfold fetched. rewrite Hok, Hjson. cbn [negb].
    unfold try_catch. rewrite Hthrows. reflexivity. }
  pose proof (silent_render clock data now (loading_page w)) as [_ Hs].
  rewrite Hthrows in Hs. cbn [snd] in Hs.
  assert (Hconsole :
    console w'
    = (console w ++ [("Failed to refresh token data:", mkError reason)])%list).
  { rewrite Hrun, report_state. cbn [console]. now rewrite Hs. }
  destruct Hfoot as [Hfoot | [e [He [Hcontent [Hids _]]]]].
  { rewrite Hfoot in Hconsole.
    apply (f_equal (@List.length _)) in Hconsole.
    rewrite length_app in Hconsole. cbn in Hconsole. lia. }
  rewrite Hconsole in He. apply app_inv_head in He. injection He as <-.
  split; [exact Hcontent|]. split; [exact Hconsole|].
  apply Hids. discriminate.
Qed.

End Refresh.

(** ** Timers *)

Lemma filter_filter_comm {A} (f g : A -> bool) (l : list A) :
  filter f (filter g l) = filter g (filter f l).
Proof.
  induction l as [|a l IH]; [reflexivity|].
  cbn [filter]. destruct (g a) eqn:Eg, (f a) eqn:Ef; cbn [filter];
    rewrite ?Eg, ?Ef, IH; reflexivity.
Qed.

Lemma filter_filter_implied {A} (f g : A -> bool) (l : list A) :
  (forall a, In a l -> f a = true -> g a = true) ->
  filter f (filter g l) = filter f l.
Proof.
  induction l as [|a l IH]; intros H; [reflexivity|].
  cbn [filter]. destruct (g a) eqn:Eg.
  - cbn [filter]. destruct (f a); rewrite IH; auto;
      intros b Hb; apply H; right; exact Hb.
  - destruct (f a) eqn:Ef.
    + rewrite (H a (or_introl eq_refl) Ef) in Eg. discriminate.
    + apply IH. intros b Hb. apply H. right. exact Hb.
Qed.

Lemma same_handle_same_timer (l : list Timer) (a b : Timer) :
  NoDup (map handle l) ->
  In a l -> In b l -> handle a = handle b -> a = b.
Proof.
  induction l as [|x l IH]; intros Hnd Ha Hb Heq; [contradiction|].
  cbn [map] in Hnd. inversion Hnd as [|y ys Hy Hys]; subst.
  destruct Ha as [Ha | Ha], Hb as [Hb | Hb].
  - congruence.
  - exfalso. apply Hy. apply in_map_iff. exists b. split; [|exact Hb].
    congruence.
  - exfalso. apply Hy. apply in_map_iff. exists a. split; [|exact Ha].
    congruence.
  - exact (IH Hys Ha Hb Heq).
Qed.

Lemma count_step_handle (h : positive) (t : Timer) :
  handle (count_step h t) = handle t.
Proof.
  unfold count_step. destruct (callback t); [reflexivity|].
  destruct (Pos.eqb (handle t) h); reflexivity.
Qed.

Lemma count_step_is_refresh (h : positive) (t : Timer) :
  is_refresh (count_step h t) = is_refresh t.
Proof.
  unfold count_step, is_refresh. destruct (callback t) eqn:E;
    [now rewrite E|].
  destruct (Pos.eqb (handle t) h); [reflexivity | now rewrite E].
Qed.

Lemma count_step_refresh (h : positive) (t : Timer) :
  is_refresh t = true -> count_step h t = t.
Proof.
  unfold count_step, is_refresh. destruct (callback t);
    [reflexivity | discriminate].
Qed.

Lemma count_step_other (h : positive) (t : Timer) :
  handle t <> h -> count_step h t = t.
Proof.
  intros Hne. unfold count_step. destruct (callback t); [reflexivity|].
  apply Pos.eqb_neq in Hne. now rewrite Hne.
Qed.

Lemma count_step_handles (h : positive) (l : list Timer) :
  map handle (map (count_step h) l) = map handle l.
Proof.
  rewrite map_map. apply map_ext. intros t. apply count_step_handle.
Qed.

Lemma count_step_refresh_timers (h : positive) (l : list Timer) :
  filter is_refresh (map (count_step h) l) = filter is_refresh l.
Proof.
  induction l as [|t l IH]; [reflexivity|].
  cbn [map filter]. rewrite count_step_is_refresh, IH.
  destruct (is_refresh t) eqn:E; [|reflexivity].
  now rewrite (count_step_refresh h t E).
Qed.

(** Clearing a handle that no refresh timer has leaves the refresh
    timers as they are. *)
Lemma clear_keeps_refresh_timers (h : positive) (l : list Timer) :
  existsb (is_refresh_timer h) l = false ->
  filter is_refresh (filter (fun t => negb (Pos.eqb (handle t) h)) l)
  = filter is_refresh l.
Proof.
  intros H. apply filter_filter_implied. intros t Hin Hr.
  apply negb_true_iff. apply not_true_is_false. intros Hh.
  assert (Hex : existsb (is_refresh_timer h) l = true).
  { apply existsb_exists. exists t. split; [exact Hin|].
    unfold is_refresh_timer. rewrite Hh. exact Hr. }
  rewrite H in Hex. discriminate.
Qed.

Lemma is_refresh_timer_count_step (h h' : positive) (l : list Timer) :
  existsb (is_refresh_timer h) (map (count_step h') l)
  = existsb (is_refresh_timer h) l.
Proof.
  induction l as [|t l IH]; [reflexivity|].
  cbn [map existsb]. rewrite IH. f_equal.
  unfold is_refresh_timer. rewrite count_step_handle. f_equal.
  exact (count_step_is_refresh h' t).
Qed.

Section Ticks.

Context {browser : Browser}.

(** The state after a step of the counter animation: the document may
    be written, the step is counted, and the timer is cleared on the
    last step. *)
Lemma animateNumber_step_state (h : positive) (id : string) (current : Z)
  (number : option Z) (target : JsValue) (step : nat) (w : World) :
  exists doc timers,
    exec (animateNumber_step h id current number target step) w
    = mkWorld (dashboard w) doc (next_handle w) timers (requests w)
        (console w) /\
    switch doc = switch (document w) /\
    map fst (elements doc) = map fst (elements (document w)) /\
    (timers = map (count_step h) (intervals w) \/
     timers = filter (fun t => negb (Pos.eqb (handle t) h))
                (map (count_step h) (intervals w))).
Proof.
  unfold exec, animateNumber_step, bind, modify, lift, set_textContent,
    set_content, clearInterval.
  cbn [fst snd].
  destruct (15 <=? S step)%nat.
  - destruct (textContent_of target) as [text|e]; cbn.
    + eexists _, _. split; [reflexivity|]. cbn.
      rewrite update_keys. auto.
    + eexists _, _. split; [reflexivity|]. auto.
  - cbn. eexists _, _. split; [reflexivity|]. cbn.
    rewrite update_keys. auto.
Qed.

(** The state after the tick of a handle that no refresh timer has. *)
Lemma tick_animation_state (h : positive) (outcome : FetchOutcome)
  (clock : nat -> Z * Z) (now : Z) (w : World) :
  existsb (is_refresh_timer h) (intervals w) = false ->
  exists doc timers,
    exec (tick h outcome clock now) w
    = mkWorld (dashboard w) doc (next_handle w) timers (requests w)
        (console w) /\
    switch doc = switch (document w) /\
    map fst (elements doc) = map fst (elements (document w)) /\
    (timers = intervals w \/
     timers = map (count_step h) (intervals w) \/
     timers = filter (fun t => negb (Pos.eqb (handle t) h))
                (map (count_step h) (intervals w))).
Proof.
  intros Hno. unfold exec, tick. rewrite bind_gets, Hno.
  assert (Hsame : exists doc timers,
            w = mkWorld (dashboard w) doc (next_handle w) timers (requests w)
                  (console w) /\
            switch doc = switch (document w) /\
            map fst (elements doc) = map fst (elements (document w)) /\
            (timers = intervals w \/
             timers = map (count_step h) (intervals w) \/
             timers = filter (fun t => negb (Pos.eqb (handle t) h))
                        (map (count_step h) (intervals w)))).
  { exists (document w), (intervals w). destruct w; cbn. auto. }
  destruct (find (fun t => Pos.eqb (handle t) h) (intervals w)) as [t|];
    [|exact Hsame].
  destruct (callback t) as [|id current number target step];
    [exact Hsame|].
  destruct (animateNumber_step_state h id current number target step w)
    as [doc [timers [H1 [H2 [H3 H4]]]]].
  exists doc, timers. unfold exec in H1. tauto.
Qed.

Lemma no_refresh_timer_handle (h : positive) (w : World) :
  no_refresh_timer w -> existsb (is_refresh_timer h) (intervals w) = false.
Proof.
  intros Hno. apply not_true_is_false. intros Hex.
  apply existsb_exists in Hex as [t [Hin Ht]].
  unfold is_refresh_timer in Ht. apply andb_true_iff in Ht as [_ Ht].
  specialize (Hno t Hin). destruct (callback t); [contradiction|discriminate].
Qed.

(** Without a timer that refreshes, a tick sends nothing and sets no
    such timer. *)
Lemma tick_without_refresh_timer (h : positive) (outcome : FetchOutcome)
  (clock : nat -> Z * Z) (now : Z) (w : World) :
  no_refresh_timer w ->
  requests (exec (tick h outcome clock now) w) = requests w /\
  no_refresh_timer (exec (tick h outcome clock now) w).
Proof.
  intros Hno.
  destruct (tick_animation_state h outcome clock now w
              (no_refresh_timer_handle h w Hno))
    as [doc [timers [-> [_ [_ Ht]]]]].
  split; [reflexivity|].
  unfold no_refresh_timer. cbn [intervals].
  assert (Hstep : forall t,
            In t (map (count_step h) (intervals w)) ->
            callback t <> RefreshTokensCb).
  { intros t Hin. apply in_map_iff in Hin as [t0 [<- Hin]].
    specialize (Hno t0 Hin). intros Hc. apply Hno.
    pose proof (count_step_is_refresh h t0) as Hr. unfold is_refresh in Hr.
    rewrite Hc in Hr. destruct (callback t0); [reflexivity|discriminate]. }
  destruct Ht as [-> | [-> | ->]].
  - exact Hno.
  - exact Hstep.
  - intros t Hin. apply filter_In in Hin as [Hin _]. exact (Hstep t Hin).
Qed.

Lemma run_ticks_without_refresh_timer
  (ticks : list (positive * FetchOutcome * (nat -> Z * Z) * Z))
  (w : World) :
  no_refresh_timer w -> requests (run_ticks ticks w) = requests w.
Proof.
  unfold run_ticks. revert w.
  induction ticks as [|[[[h outcome] clock] now] ticks IH]; intros w Hno;
    [reflexivity|].
  cbn [fold_left].
  destruct (tick_without_refresh_timer h outcome clock now w Hno)
    as [Hr Hno'].
  rewrite (IH _ Hno'). exact Hr.
Qed.

(** A tick leaves the auto-refresh state alone. *)
Lemma frame_tick (h : positive) (outcome : FetchOutcome)
  (clock : nat -> Z * Z) (now : Z) :
  keeps frame (tick h outcome clock now).
Proof.
  intros w.
  destruct (existsb (is_refresh_timer h) (intervals w)) eqn:E.
  - unfold tick. rewrite bind_gets, E. apply frame_refreshTokens.
  - destruct (tick_animation_state h outcome clock now w E)
      as [doc [timers [Hw [H2 [H3 Ht]]]]].
    unfold exec in Hw. rewrite Hw. unfold frame, refresh_timers. cbn.
    repeat split; try assumption.
    destruct Ht as [-> | [-> | ->]].
    + reflexivity.
    + apply count_step_refresh_timers.
    + rewrite clear_keeps_refresh_timers
        by (now rewrite is_refresh_timer_count_step).
      apply count_step_refresh_timers.
Qed.

End Ticks.

(** ** Auto-refresh *)

Section AutoRefresh.

Context {browser : Browser}.

Lemma startAutoRefresh_run (w : World) :
  startAutoRefresh w =
  (Normal tt,
   mkWorld
     (mkDashboard (Some (next_handle w)) true (apiBaseUrl (dashboard w))
        (refreshIntervalMs (dashboard w)))
     (document w) (Pos.succ (next_handle w))
     (intervals w
      ++ [mkTimer (next_handle w) (refreshIntervalMs (dashboard w))
            RefreshTokensCb])
     (requests w) (console w)).
Proof. reflexivity. Qed.

Lemma stopAutoRefresh_run (w : World) :
  stopAutoRefresh w =
  (Normal tt,
   mkWorld
     (mkDashboard None false (apiBaseUrl (dashboard w))
        (refreshIntervalMs (dashboard w)))
     (document w) (next_handle w)
     (match autoRefreshInterval (dashboard w) with
      | Some h =>
          filter (fun t => negb (Pos.eqb (handle t) h)) (intervals w)
      | None => intervals w
      end)
     (requests w) (console w)).
Proof.
  unfold stopAutoRefresh, bind, gets.
  destruct w as [[i f a m] doc nh ts rq co]. cbn.
  destruct i; reflexivity.
Qed.

(** The writes to the switch leave the object's fields and the timers
    as they are. *)
Lemma switch_writes (c v : string) (add : bool) (w : World) :
  let m := ((if add then classList_add c else classList_remove c) ;;
            set_aria_checked v)%m in
  dashboard (exec m w) = dashboard w /\
  intervals (exec m w) = intervals w /\
  requests (exec m w) = requests w /\
  next_handle (exec m w) = next_handle w.
Proof.
  unfold exec, bind, classList_add, classList_remove, set_aria_checked,
    querySelector_switch, set_switch, gets, modify, throw.
  destruct add; cbn; destruct (switch (document w)); cbn; repeat split.
Qed.

Lemma toggleAutoRefresh_fields (w : World) :
  let w' := exec toggleAutoRefresh w in
  let w1 := exec (if isAutoRefreshEnabled (dashboard w)
                  then stopAutoRefresh else startAutoRefresh) w in
  dashboard w' = dashboard w1 /\
  intervals w' = intervals w1 /\
  requests w' = requests w1 /\
  next_handle w' = next_handle w1.
Proof.
  cbv zeta. unfold toggleAutoRefresh, exec. rewrite bind_gets.
  destruct (isAutoRefreshEnabled (dashboard w)).
  - rewrite (bind_normal _ _ _ _ _ (stopAutoRefresh_run w)).
    rewrite stopAutoRefresh_run. cbn [snd].
    apply (switch_writes "active" "false" false).
  - rewrite (bind_normal _ _ _ _ _ (startAutoRefresh_run w)).
    rewrite startAutoRefresh_run. cbn [snd].
    apply (switch_writes "active" "true" true).
Qed.

Lemma active_after_remove (l : list string) :
  existsb (String.eqb "active")
    (filter (fun c' => negb (String.eqb "active" c')) l) = false.
Proof.
  induction l as [|c l IH]; [reflexivity|].
  cbn [filter]. destruct (String.eqb "active" c) eqn:E; cbn [negb].
  - exact IH.
  - cbn [existsb]. rewrite E, IH. reflexivity.
Qed.

Lemma active_after_add (l : list string) :
  existsb (String.eqb "active")
    (if existsb (String.eqb "active") l then l else l ++ ["active"]) = true.
Proof.
  destruct (existsb (String.eqb "active") l) eqn:E; [exact E|].
  rewrite existsb_app. cbn. apply orb_true_r.
Qed.

(** With a switch on the page, a toggle returns and the switch shows
    the new state. *)
Lemma toggleAutoRefresh_switch (w : World) (sw : SwitchEl) :
  switch (document w) = Some sw ->
  completion toggleAutoRefresh w = Normal tt /\
  switch_shows (exec toggleAutoRefresh w)
    (negb (isAutoRefreshEnabled (dashboard w))).
Proof.
  intros Hsw. unfold toggleAutoRefresh, completion, exec, switch_shows.
  rewrite bind_gets.
  destruct (isAutoRefreshEnabled (dashboard w)); cbn [negb].
  - rewrite (bind_normal _ _ _ _ _ (stopAutoRefresh_run w)).
    unfold bind, classList_remove, set_aria_checked, querySelector_switch,
      set_switch, gets, modify.
    cbn. rewrite Hsw. cbn. split; [reflexivity|].
    eexists. split; [reflexivity|]. cbn.
    split; [apply active_after_remove | reflexivity].
  - rewrite (bind_normal _ _ _ _ _ (startAutoRefresh_run w)).
    unfold bind, classList_add, set_aria_checked, querySelector_switch,
      set_switch, gets, modify.
    cbn. rewrite Hsw. cbn. split; [reflexivity|].
    eexists. split; [reflexivity|]. cbn.
    split; [apply active_after_add | reflexivity].
Qed.

(** C8: the flag is true exactly when a timer handle is held; this
    holds once the constructor has run and is kept by
    [startAutoRefresh], [stopAutoRefresh] and [toggleAutoRefresh]. *)
Theorem flag_matches_timer_invariant :
  (forall w, dashboard w = constructor_fields -> flag_matches_timer w) /\
  (forall w,
     flag_matches_timer w ->
     flag_matches_timer (exec startAutoRefresh w) /\
     flag_matches_timer (exec stopAutoRefresh w) /\
     flag_matches_timer (exec toggleAutoRefresh w)).
Proof.
  assert (Hstart : forall w, flag_matches_timer (exec startAutoRefresh w)).
  { intros w. unfold flag_matches_timer, exec.
    rewrite startAutoRefresh_run. cbn. split; [discriminate | reflexivity]. }
  assert (Hstop : forall w, flag_matches_timer (exec stopAutoRefresh w)).
  { intros w. unfold flag_matches_timer, exec.
    rewrite stopAutoRefresh_run. cbn.
    split; [discriminate | intros N; now destruct N]. }
  split.
  - intros w Hw. unfold flag_matches_timer. rewrite Hw. cbn.
    split; [discriminate | intros N; now destruct N].
  - intros w _. split; [apply Hstart|]. split; [apply Hstop|].
    unfold flag_matches_timer.
    destruct (toggleAutoRefresh_fields w) as [Hd _]. cbv zeta in Hd.
    rewrite Hd.
    destruct (isAutoRefreshEnabled (dashboard w));
      [apply Hstop | apply Hstart].
Qed.

(** C6: from the state the constructor leaves, with no refresh timer
    set, a first toggle turns auto-refresh on (flag true, a timer of
    30000 ms that runs [refreshTokens] set and its handle held) and a
    second turns it off (flag false, no handle, no refresh timer set),
    after which no sequence of ticks sends a request.  Every toggle
    flips the flag, sets a refresh timer when it turns auto-refresh on,
    clears the held one when it turns it off, and the switch shows the
    flag after it. *)
Theorem toggle_on_then_off (w : World) (sw : SwitchEl) :
  dashboard w = constructor_fields ->
  switch (document w) = Some sw ->
  no_refresh_timer w ->
  let on := exec toggleAutoRefresh w in
  let off := exec toggleAutoRefresh on in
  (isAutoRefreshEnabled (dashboard on) = true /\
   autoRefreshInterval (dashboard on) = Some (next_handle w) /\
   intervals on
   = (intervals w ++ [mkTimer (next_handle w) 30000 RefreshTokensCb])%list /\
   switch_shows on true) /\
  (isAutoRefreshEnabled (dashboard off) = false /\
   autoRefreshInterval (dashboard off) = None /\
   no_refresh_timer off /\
   switch_shows off false /\
   forall ticks, requests (run_ticks ticks off) = requests off) /\
  (forall w',
     isAutoRefreshEnabled (dashboard (exec toggleAutoRefresh w'))
     = negb (isAutoRefreshEnabled (dashboard w'))) /\
  (forall w',
     isAutoRefreshEnabled (dashboard w') = false ->
     autoRefreshInterval (dashboard (exec toggleAutoRefresh w'))
     = Some (next_handle w') /\
     intervals (exec toggleAutoRefresh w')
     = (intervals w'
        ++ [mkTimer (next_handle w') (refreshIntervalMs (dashboard w'))
              RefreshTokensCb])%list) /\
  (forall w' h,
     isAutoRefreshEnabled (dashboard w') = true ->
     autoRefreshInterval (dashboard w') = Some h ->
     autoRefreshInterval (dashboard (exec toggleAutoRefresh w')) = None /\
     intervals (exec toggleAutoRefresh w')
     = filter (fun t => negb (Pos.eqb (handle t) h)) (intervals w')) /\
  (forall w' sw',
     switch (document w') = Some sw' ->
     switch_shows (exec toggleAutoRefresh w')
       (isAutoRefreshEnabled (dashboard (exec toggleAutoRefresh w')))).
Proof.
  intros Hinit Hsw Hno on off.
  assert (Hstart : forall w',
     isAutoRefreshEnabled (dashboard w') = false ->
     autoRefreshInterval (dashboard (exec toggleAutoRefresh w'))
     = Some (next_handle w') /\
     intervals (exec toggleAutoRefresh w')
     = (intervals w'
        ++ [mkTimer (next_handle w') (refreshIntervalMs (dashboard w'))
              RefreshTokensCb])%list).
  { intros w' Hoff'. destruct (toggleAutoRefresh_fields w') as [Hd [Hi _]].
    cbv zeta in Hd, Hi. rewrite Hd, Hi, Hoff'. unfold exec.
    rewrite startAutoRefresh_run. split; reflexivity. }
  assert (Hstop : forall w' h,
     isAutoRefreshEnabled (dashboard w') = true ->
     autoRefreshInterval (dashboard w') = Some h ->
     autoRefreshInterval (dashboard (exec toggleAutoRefresh w')) = None /\
     intervals (exec toggleAutoRefresh w')
     = filter (fun t => negb (Pos.eqb (handle t) h)) (intervals w')).
  { intros w' h Hon' Hh. destruct (toggleAutoRefresh_fields w') as [Hd [Hi _]].
    cbv zeta in Hd, Hi. rewrite Hd, Hi, Hon'. unfold exec.
    rewrite stopAutoRefresh_run. cbn [snd dashboard intervals
      autoRefreshInterval]. rewrite Hh. split; reflexivity. }
  assert (Hflip : forall w',
            isAutoRefreshEnabled (dashboard (exec toggleAutoRefresh w'))
            = negb (isAutoRefreshEnabled (dashboard w'))).
  { intros w'. destruct (toggleAutoRefresh_fields w') as [Hd _].
    cbv zeta in Hd. rewrite Hd. unfold exec.
    destruct (isAutoRefreshEnabled (dashboard w'));
      [rewrite stopAutoRefresh_run | rewrite startAutoRefresh_run];
      reflexivity. }
  assert (Hshow : forall w' sw',
            switch (document w') = Some sw' ->
            switch_shows (exec toggleAutoRefresh w')
              (isAutoRefreshEnabled (dashboard (exec toggleAutoRefresh w')))).
  { intros w' sw' H'. rewrite Hflip.
    apply (toggleAutoRefresh_switch w' sw' H'). }
  destruct (toggleAutoRefresh_fields w) as [Hd [Hi _]].
  cbv zeta in Hd, Hi. fold on in Hd, Hi.
  rewrite Hinit in Hd, Hi.
  cbn [isAutoRefreshEnabled constructor_fields] in Hd, Hi.
  unfold exec in Hd, Hi. rewrite startAutoRefresh_run in Hd, Hi.
  cbn [snd dashboard intervals] in Hd, Hi.
  rewrite Hinit in Hd, Hi.
  cbn [apiBaseUrl refreshIntervalMs constructor_fields] in Hd, Hi.
  assert (Hon_sw : switch_shows on true).
  { replace true with (isAutoRefreshEnabled (dashboard on))
      by (rewrite Hd; reflexivity).
    apply (Hshow w sw Hsw). }
  split.
  { rewrite Hd, Hi. repeat split. exact Hon_sw. }
  destruct (toggleAutoRefresh_fields on) as [Hd' [Hi' _]].
  cbv zeta in Hd', Hi'. fold off in Hd', Hi'.
  rewrite Hd in Hd', Hi'. cbn [isAutoRefreshEnabled] in Hd', Hi'.
  unfold exec in Hd', Hi'. rewrite stopAutoRefresh_run in Hd', Hi'.
  cbn [snd dashboard intervals] in Hd', Hi'.
  rewrite Hd in Hi'. cbn [autoRefreshInterval] in Hi'.
  assert (Hoff_no : no_refresh_timer off).
  { unfold no_refresh_timer. rewrite Hi', Hi. intros t Hin.
    apply filter_In in Hin as [Hin Hh].
    apply in_app_or in Hin as [Hin | [<- | []]].
    - exact (Hno t Hin).
    - cbn [handle] in Hh. rewrite Pos.eqb_refl in Hh. discriminate. }
  split; [|split; [exact Hflip|]; split; [exact Hstart|];
            split; [exact Hstop | exact Hshow]].
  rewrite Hd'. cbn [isAutoRefreshEnabled autoRefreshInterval].
  split; [reflexivity|]. split; [reflexivity|].
  split; [exact Hoff_no|]. split.
  - destruct Hon_sw as [sw1 [Hsw1 _]].
    replace false with (isAutoRefreshEnabled (dashboard off))
      by (rewrite Hd'; reflexivity).
    apply (Hshow on sw1 Hsw1).
  - intros ticks. now apply run_ticks_without_refresh_timer.
Qed.

End AutoRefresh.

(** ** Status and text: further properties *)

Section StatusAndText.

Context {browser : Browser}.

Lemma expired_label (now : Z) (token : JsValue) :
  getStatusText now token = Normal "Expired" ->
  isExpired now token = Normal true.
Proof.
  unfold getStatusText.
  destruct (isExpired now token) as [[|]|e]; cbn [cbind];
    [reflexivity | | discriminate].
  destruct (get token "remaining_usage") as [u|e]; cbn [cbind];
    [|discriminate].
  destruct (strict_eq_num _ 0); [discriminate|].
  destruct (js_le_num _ 5) as [[|]|e]; discriminate.
Qed.

Lemma isExpired_later (now now' : Z) (token : JsValue) :
  isExpired now token = Normal true ->
  now <= now' ->
  isExpired now' token = Normal true.
Proof.
  unfold isExpired. destruct (get token "expires_at") as [x|e];
    cbn [cbind]; [|discriminate].
  destruct (negb (truthy x)); [discriminate|].
  destruct (Date_new x) as [[t|]|e]; cbn [cbind date_lt];
    try discriminate.
  intros H Hle. injection H as H. apply Z.ltb_lt in H.
  f_equal. apply Z.ltb_lt. lia.
Qed.

(** A value that is not a record has no field: it is never expired and
    its usage is 0. *)
Lemma getStatusText_throws_any (now : Z) (token : JsValue) (e : Error) :
  nullish token = false ->
  getStatusText now token = Throw e ->
  e = mkError cannot_convert_message.
Proof.
  destruct token; try discriminate; intros _; try (cbn; discriminate).
  apply getStatusText_throws.
Qed.

(** X1: [getStatusClass] and [getStatusText] agree on every value, read
    at the same clock reading: on [null] and [undefined] both throw the
    TypeError for reading [expires_at]; on any other value either both
    return, a label and the class that goes with it, or both throw the
    TypeError of a field that has no string or number. *)
Theorem class_and_text_agree (now : Z) (token : JsValue) :
  (nullish token = true /\
   getStatusClass now token
   = Throw (mkError (cannot_read_message token "expires_at")) /\
   getStatusText now token
   = Throw (mkError (cannot_read_message token "expires_at")))
  \/
  (nullish token = false /\
   ((exists txt cls,
       getStatusText now token = Normal txt /\
       getStatusClass now token = Normal cls /\
       In (txt, cls) status_classes)
    \/
    (getStatusText now token = Throw (mkError cannot_convert_message) /\
     getStatusClass now token = Throw (mkError cannot_convert_message)))).
Proof.
  destruct (nullish token) eqn:Hn.
  - left. split; [reflexivity|].
    unfold getStatusClass, getStatusText, isExpired.
    rewrite (get_nullish _ _ Hn). split; reflexivity.
  - right. split; [reflexivity|].
    destruct (getStatusText now token) as [txt|e] eqn:Htxt.
    + left. destruct (status_class_of_text _ _ _ Htxt) as [cls [Hcls Hin]].
      exists txt, cls. auto.
    + right. pose proof (status_class_throws _ _ _ Htxt) as Hcls.
      rewrite (getStatusText_throws_any now token e Hn Htxt) in *.
      auto.
Qed.

(** X2: a token that is "Expired" at one clock reading is "Expired",
    with the class [status-expired], at every later one. *)
Theorem expired_stays_expired (now now' : Z) (token : JsValue) :
  getStatusText now token = Normal "Expired" ->
  now <= now' ->
  getStatusText now' token = Normal "Expired" /\
  getStatusClass now' token = Normal "status-expired".
Proof.
  intros H Hle.
  pose proof (isExpired_later _ _ _ (expired_label _ _ H) Hle) as E.
  unfold getStatusText, getStatusClass. rewrite E. split; reflexivity.
Qed.

(** X3: for a record that is not expired the label follows the number
    in [remaining_usage], whatever its sign: 0 is "Exhausted", any
    other number up to 5, a negative one too, is "Low", a number
    above 5 is "Active". *)
Theorem usage_thresholds (now : Z) (fields : list (string * JsValue))
  (r : Z) :
  isExpired now (JObj fields) = Normal false ->
  lookup "remaining_usage" fields = Some (JNum r) ->
  (r = 0 -> getStatusText now (JObj fields) = Normal "Exhausted") /\
  (r <> 0 -> r <= 5 -> getStatusText now (JObj fields) = Normal "Low") /\
  (r < 0 -> getStatusText now (JObj fields) = Normal "Low") /\
  (5 < r -> getStatusText now (JObj fields) = Normal "Active").
Proof.
  intros Hexp Hr.
  assert (H : getStatusText now (JObj fields) =
              Normal (if r =? 0 then "Exhausted"
                      else if r <=? 5 then "Low" else "Active")).
  { unfold getStatusText. rewrite Hexp. cbn [cbind].
    rewrite get_record. unfold field. rewrite Hr.
    cbn [cbind js_nullish]. unfold js_le_num, strict_eq_num, ToNumber.
    cbn [cbind].
    destruct (r =? 0); [reflexivity|].
    destruct (r <=? 5); reflexivity. }
  rewrite H. repeat split.
  - intros ->. reflexivity.
  - intros H0 H5.
    replace (r =? 0) with false by (symmetry; apply Z.eqb_neq; lia).
    replace (r <=? 5) with true by (symmetry; apply Z.leb_le; lia).
    reflexivity.
  - intros H0.
    replace (r =? 0) with false by (symmetry; apply Z.eqb_neq; lia).
    replace (r <=? 5) with true by (symmetry; apply Z.leb_le; lia).
    reflexivity.
  - intros H5.
    replace (r =? 0) with false by (symmetry; apply Z.eqb_neq; lia).
    replace (r <=? 5) with false by (symmetry; apply Z.leb_gt; lia).
    reflexivity.
Qed.

(** X4: the class and the label of a row come from two readings of the
    clock.  When the expiry of a record whose fields have strings lies
    between them (not before the first, before the second), the row
    pairs the label "Expired" with the class of the remaining usage,
    not with [status-expired]. *)
Theorem class_and_label_can_disagree (now_class now_text : Z)
  (fields : list (string * JsValue)) (index : nat) (c : ascii)
  (s : string) (t : Z) :
  lookup "expires_at" fields = Some (JStr (String c s)) ->
  Date_parse (String c s) = Some t ->
  now_class <= t < now_text ->
  renders (JObj fields) = true ->
  exists cls row,
    getStatusClass now_class (JObj fields) = Normal cls /\
    cls <> "status-expired" /\
    getStatusText now_text (JObj fields) = Normal "Expired" /\
    createTokenRow now_class now_text (JObj fields) index = Normal row /\
    exists pre post,
      row = pre ++ q ("status-badge " ++ cls) ++ ">Expired</span>" ++ post.
Proof.
  intros Hx Hparse [Hlo Hhi] Hr.
  assert (Hc : isExpired now_class (JObj fields) = Normal false).
  { rewrite isExpired_record. unfold field. rewrite Hx.
    cbn [truthy is_empty negb Date_new cbind]. rewrite Hparse.
    cbn [date_lt]. f_equal. apply Z.ltb_ge. lia. }
  assert (Ht : isExpired now_text (JObj fields) = Normal true).
  { rewrite isExpired_record. unfold field. rewrite Hx.
    cbn [truthy is_empty negb Date_new cbind]. rewrite Hparse.
    cbn [date_lt]. f_equal. apply Z.ltb_lt. lia. }
  assert (Htxt : getStatusText now_text (JObj fields) = Normal "Expired").
  { unfold getStatusText. rewrite Ht. reflexivity. }
  destruct (createTokenRow_record now_class now_text fields index Hr)
    as [email [preview [auth [usage [cls [txt
         [_ [_ [_ [_ [Hcls [Htxt' Hrow]]]]]]]]]]]].
  rewrite Htxt in Htxt'. injection Htxt' as <-.
  exists cls. eexists. split; [exact Hcls|]. split.
  { unfold getStatusClass in Hcls. rewrite Hc in Hcls. cbn [cbind] in Hcls.
    rewrite get_record in Hcls. cbn [cbind] in Hcls.
    destruct (strict_eq_num _ 0); [injection Hcls as <-; discriminate|].
    destruct (js_le_num _ 5) as [[|]|e]; cbn [cbind] in Hcls;
      try discriminate; injection Hcls as <-; discriminate. }
  split; [exact Htxt|]. split; [exact Hrow|].
  apply row_markup_badge.
Qed.

(** X5: an [expires_at] that is falsy or that does not parse to a date
    never expires the record, and its cell shows the dash: the status
    of such a record follows its remaining usage alone. *)
Theorem unparseable_expiry_never_expires (now : Z)
  (fields : list (string * JsValue)) :
  truthy (field fields "expires_at") = false \/
  Date_new (field fields "expires_at") = Normal None ->
  isExpired now (JObj fields) = Normal false /\
  formatDateTime (field fields "expires_at") = "-" /\
  getStatusText now (JObj fields) <> Normal "Expired".
Proof.
  intros H.
  assert (Hexp : isExpired now (JObj fields) = Normal false).
  { rewrite isExpired_record.
    destruct H as [-> | ->]; [reflexivity|].
    cbn [cbind date_lt]. destruct (negb _); reflexivity. }
  split; [exact Hexp|]. split.
  - unfold formatDateTime. destruct H as [-> | ->]; [reflexivity|].
    destruct (truthy _); reflexivity.
  - intros Hlabel. apply expired_label in Hlabel.
    rewrite Hexp in Hlabel. discriminate.
Qed.


(** X7: reading back the character references that [escapeHtml] writes
    gives the text it was given, so that two different texts are never
    shown as the same markup; a value that has no string has no
    markup. *)
Theorem escapeHtml_round_trip :
  (forall v,
     match textContent_of v with
     | Normal text =>
         exists escaped,
           escapeHtml v = Normal escaped /\ unescape_text escaped = text
     | Throw e => escapeHtml v = Throw e
     end) /\
  (forall a b, escape_text a = escape_text b -> a = b).
Proof.
  split.
  - intros v. unfold escapeHtml.
    destruct (textContent_of v) as [text|e]; cbn [cbind]; [|reflexivity].
    eexists. split; [reflexivity | apply unescape_escape_text].
  - intros a b H.
    rewrite <- (unescape_escape_text a), <- (unescape_escape_text b).
    now rewrite H.
Qed.

End StatusAndText.

(** ** Sequences of calls *)

Lemma keeps_fresh_refl (w : World) : keeps_fresh w w.
Proof. intros H. exact H. Qed.

Lemma keeps_fresh_trans (a b c : World) :
  keeps_fresh a b -> keeps_fresh b c -> keeps_fresh a c.
Proof. unfold keeps_fresh. auto. Qed.

Lemma NoDup_handles_filter (f : Timer -> bool) (l : list Timer) :
  NoDup (map handle l) -> NoDup (map handle (filter f l)).
Proof.
  induction l as [|t l IH]; intros Hnd; [constructor|].
  cbn [filter]. cbn [map] in Hnd. inversion Hnd as [|x xs Hx Hxs]; subst.
  destruct (f t); [|exact (IH Hxs)].
  cbn [map]. constructor; [|exact (IH Hxs)].
  intros Hin. apply Hx. apply in_map_iff in Hin as [t' [Ht' Hin]].
  apply filter_In in Hin as [Hin _].
  apply in_map_iff. exists t'. auto.
Qed.

Section Traces.

Context {browser : Browser}.

Lemma fresh_set_content (prop : string) (element : option string)
  (content : string) :
  keeps keeps_fresh (set_content prop element content).
Proof. intros w. destruct element; intros H; exact H. Qed.

Lemma fresh_setInterval (cb : Callback) (ms : Z) :
  keeps keeps_fresh (setInterval cb ms).
Proof.
  intros w [Hnd Hlt]. unfold handles_fresh. cbn.
  split.
  - rewrite map_app. cbn [map handle].
    apply NoDup_app; [exact Hnd | repeat constructor; intros [] |].
    intros h Hin [<- | []].
    apply in_map_iff in Hin as [t [Ht Hin]].
    rewrite Forall_forall in Hlt. specialize (Hlt t Hin).
    rewrite Ht in Hlt. lia.
  - apply Forall_app. split.
    + eapply Forall_impl; [|exact Hlt]. cbn. intros t Ht. lia.
    + repeat constructor. cbn. lia.
Qed.

Lemma fresh_clearInterval (h : positive) :
  keeps keeps_fresh (clearInterval h).
Proof.
  intros w [Hnd Hlt]. unfold handles_fresh. cbn. split.
  - apply NoDup_handles_filter, Hnd.
  - rewrite Forall_forall in *. intros t Hin.
    apply filter_In in Hin as [Hin _]. exact (Hlt t Hin).
Qed.

Lemma fresh_fetch (url : string) (outcome : FetchOutcome) :
  keeps keeps_fresh (fetch url outcome).
Proof. intros w H. exact H. Qed.

Lemma fresh_console_error (label : string) (e : Error) :
  keeps keeps_fresh (console_error label e).
Proof. intros w H. exact H. Qed.

End Traces.

(** A freshness goal, method by method. *)
Ltac freshness :=
  repeat first
    [ apply (keeps_bind _ keeps_fresh_trans); [|intros ?]
    | apply (keeps_try_catch _ keeps_fresh_trans); [|intros ?]
    | apply (keeps_ret _ keeps_fresh_refl)
    | apply (keeps_throw _ keeps_fresh_refl)
    | apply (keeps_lift _ keeps_fresh_refl)
    | apply (keeps_gets _ keeps_fresh_refl)
    | apply fresh_set_content
    | apply fresh_setInterval
    | apply fresh_clearInterval
    | apply fresh_fetch
    | apply fresh_console_error
    | progress cbv zeta
    | match goal with
      | |- keeps _ (if ?b then _ else _) => destruct b
      | |- keeps _ (match ?x with _ => _ end) => destruct x
      end ].

Section Traces2.

Context {browser : Browser}.

Lemma fresh_refreshTokens (outcome : FetchOutcome) (clock : nat -> Z * Z)
  (now : Z) :
  keeps keeps_fresh (refreshTokens outcome clock now).
Proof.
  unfold refreshTokens, showLoading, showError, set_innerHTML,
    getElementById, updateTokenTable, updateStatusBar, animateNumber,
    updateLastUpdateTime, updateElement, showEmpty, set_innerHTML,
    set_textContent.
  freshness.
Qed.

Lemma fresh_tick (h : positive) (outcome : FetchOutcome)
  (clock : nat -> Z * Z) (now : Z) :
  keeps keeps_fresh (tick h outcome clock now).
Proof.
  intros w.
  destruct (existsb (is_refresh_timer h) (intervals w)) eqn:E.
  - unfold tick. rewrite bind_gets, E. apply fresh_refreshTokens.
  - destruct (tick_animation_state h outcome clock now w E)
      as [doc [timers [Hw [_ [_ Ht]]]]].
    unfold exec in Hw. rewrite Hw. intros [Hnd Hlt].
    unfold handles_fresh. cbn [intervals next_handle].
    assert (Hstep : NoDup (map handle (map (count_step h) (intervals w))) /\
                    Forall (fun t => (handle t < next_handle w)%positive)
                      (map (count_step h) (intervals w))).
    { split; [now rewrite count_step_handles|].
      rewrite Forall_forall in *. intros t Hin.
      apply in_map_iff in Hin as [t0 [<- Hin]].
      rewrite count_step_handle. exact (Hlt t0 Hin). }
    destruct Ht as [-> | [-> | ->]].
    + split; assumption.
    + exact Hstep.
    + destruct Hstep as [H1 H2]. split.
      * apply NoDup_handles_filter, H1.
      * rewrite Forall_forall in *. intros t Hin.
        apply filter_In in Hin as [Hin _]. exact (H2 t Hin).
Qed.

Lemma fresh_toggleAutoRefresh : keeps keeps_fresh toggleAutoRefresh.
Proof.
  intros w H. unfold handles_fresh.
  destruct (toggleAutoRefresh_fields w) as [_ [Hi [_ Hn]]].
  cbv zeta in Hi, Hn. unfold exec in Hi, Hn. rewrite Hi, Hn.
  destruct (isAutoRefreshEnabled (dashboard w)).
  - rewrite stopAutoRefresh_run. cbn [snd intervals next_handle].
    destruct (autoRefreshInterval (dashboard w)) as [h|]; [|exact H].
    exact (fresh_clearInterval h w H).
  - rewrite startAutoRefresh_run. cbn [snd intervals next_handle].
    exact (fresh_setInterval RefreshTokensCb
             (refreshIntervalMs (dashboard w)) w H).
Qed.

Lemma fresh_event (ev : Event) : keeps keeps_fresh (handle_event ev).
Proof.
  destruct ev; cbn [handle_event].
  - apply fresh_toggleAutoRefresh.
  - apply fresh_refreshTokens.
  - apply fresh_tick.
Qed.

(** One call keeps the timer invariant; a toggle flips the flag, the
    other calls leave it. *)
Lemma event_step (ev : Event) (w : World) :
  one_timer_when_on w ->
  let w' := exec (handle_event ev) w in
  one_timer_when_on w' /\
  isAutoRefreshEnabled (dashboard w')
  = (match ev with
     | ToggleEv => negb (isAutoRefreshEnabled (dashboard w))
     | _ => isAutoRefreshEnabled (dashboard w)
     end) /\
  apiBaseUrl (dashboard w') = apiBaseUrl (dashboard w) /\
  refreshIntervalMs (dashboard w') = refreshIntervalMs (dashboard w).
Proof.
  intros Hinv w'.
  assert (Hframe : forall m : M unit,
            keeps frame m ->
            one_timer_when_on (exec m w) /\
            isAutoRefreshEnabled (dashboard (exec m w))
            = isAutoRefreshEnabled (dashboard w) /\
            apiBaseUrl (dashboard (exec m w)) = apiBaseUrl (dashboard w) /\
            refreshIntervalMs (dashboard (exec m w))
            = refreshIntervalMs (dashboard w)).
  { intros m Hm. destruct (Hm w) as [Hd [_ [_ Ht]]].
    unfold one_timer_when_on, exec. rewrite Hd, Ht.
    repeat split. exact Hinv. }
  destruct ev as [|outcome clock now|h outcome clock now];
    subst w'; cbn [handle_event].
  - destruct (toggleAutoRefresh_fields w) as [Hd [Hi _]].
    cbv zeta in Hd, Hi.
    unfold one_timer_when_on, refresh_timers in *. rewrite Hd, Hi.
    unfold exec.
    destruct (isAutoRefreshEnabled (dashboard w)) eqn:Hflag.
    + rewrite stopAutoRefresh_run.
      cbn [snd dashboard intervals isAutoRefreshEnabled
           autoRefreshInterval apiBaseUrl refreshIntervalMs negb].
      destruct Hinv as [h [Hh Ht]]. rewrite Hh.
      rewrite filter_filter_comm, Ht. cbn [filter handle].
      rewrite Pos.eqb_refl. repeat split.
    + rewrite startAutoRefresh_run.
      cbn [snd dashboard intervals isAutoRefreshEnabled
           autoRefreshInterval apiBaseUrl refreshIntervalMs negb].
      destruct Hinv as [_ Ht]. rewrite filter_app, Ht.
      repeat split. exists (next_handle w). split; reflexivity.
  - apply Hframe, frame_refreshTokens.
  - apply Hframe, frame_tick.
Qed.

Lemma events_keep_invariant (evs : list Event) (w : World) :
  one_timer_when_on w ->
  let w' := run_events evs w in
  one_timer_when_on w' /\
  isAutoRefreshEnabled (dashboard w')
  = xorb (isAutoRefreshEnabled (dashboard w)) (Nat.odd (toggles evs)) /\
  apiBaseUrl (dashboard w') = apiBaseUrl (dashboard w) /\
  refreshIntervalMs (dashboard w') = refreshIntervalMs (dashboard w).
Proof.
  revert w. induction evs as [|ev evs IH]; intros w Hinv.
  - cbn. rewrite xorb_false_r. auto.
  - destruct (event_step ev w Hinv) as [H1 [H2 [H3 H4]]].
    destruct (IH _ H1) as [K1 [K2 [K3 K4]]].
    cbv zeta in *. unfold run_events in *. cbn [fold_left].
    split; [exact K1|]. rewrite K2, K3, K4, H2, H3, H4.
    repeat split.
    destruct ev; cbn [toggles]; [|reflexivity|reflexivity].
    rewrite Nat.odd_succ, <- Nat.negb_odd.
    destruct (isAutoRefreshEnabled (dashboard w)), (Nat.odd (toggles evs));
      reflexivity.
Qed.

Lemma events_keep_fresh (evs : list Event) (w : World) :
  handles_fresh w -> handles_fresh (run_events evs w).
Proof.
  revert w. induction evs as [|ev evs IH]; intros w H; [exact H|].
  unfold run_events. cbn [fold_left]. apply IH.
  exact (fresh_event ev w H).
Qed.

Lemma constructor_invariant (w : World) :
  dashboard w = constructor_fields ->
  refresh_timers w = [] ->
  one_timer_when_on w.
Proof.
  intros Hd Ht. unfold one_timer_when_on. rewrite Hd. cbn. auto.
Qed.

Lemma refresh_timer_set (h : positive) (w : World) :
  existsb (is_refresh_timer h) (intervals w)
  = existsb (fun t => Pos.eqb (handle t) h) (refresh_timers w).
Proof.
  unfold refresh_timers.
  induction (intervals w) as [|t l IH]; [reflexivity|].
  cbn [existsb filter]. unfold is_refresh_timer at 1, is_refresh at 1.
  destruct (callback t); cbn [existsb].
  - rewrite andb_true_r, IH. reflexivity.
  - rewrite andb_false_r, IH. reflexivity.
Qed.

(** X16: from the state the constructor leaves, after any sequence of
    toggles, refreshes and timer ticks, the flag is on exactly when the
    number of toggles is odd, and no timer leaks: while the flag is on
    one refresh timer is set, of 30000 ms, with the handle the object
    holds; while it is off none is set and no handle is held. *)
Theorem toggles_never_leak (w0 : World) (evs : list Event) :
  dashboard w0 = constructor_fields ->
  refresh_timers w0 = [] ->
  let w := run_events evs w0 in
  isAutoRefreshEnabled (dashboard w) = Nat.odd (toggles evs) /\
  (if isAutoRefreshEnabled (dashboard w) then
     exists h,
       autoRefreshInterval (dashboard w) = Some h /\
       refresh_timers w = [mkTimer h 30000 RefreshTokensCb]
   else
     autoRefreshInterval (dashboard w) = None /\ refresh_timers w = []).
Proof.
  intros Hd Ht w.
  destruct (events_keep_invariant evs w0 (constructor_invariant w0 Hd Ht))
    as [H1 [H2 [_ H4]]].
  fold w in H1, H2, H4. rewrite Hd in H2, H4.
  cbn [isAutoRefreshEnabled refreshIntervalMs constructor_fields xorb]
    in H2, H4.
  split; [exact H2|].
  unfold one_timer_when_on in H1. rewrite H4 in H1. exact H1.
Qed.

(** X17: in every state reached from the one the constructor leaves,
    only the timer whose handle the object holds polls: its tick is a
    call of [refreshTokens]; the tick of any other handle sends no
    request, logs nothing and leaves the auto-refresh state alone (it
    is a step of a counter animation), and does nothing at all when no
    timer has the handle. *)
Theorem only_held_timer_polls (w0 : World) (evs : list Event)
  (h : positive) (outcome : FetchOutcome) (clock : nat -> Z * Z)
  (now : Z) :
  dashboard w0 = constructor_fields ->
  refresh_timers w0 = [] ->
  let w := run_events evs w0 in
  let w' := exec (tick h outcome clock now) w in
  (autoRefreshInterval (dashboard w) = Some h ->
   tick h outcome clock now w = refreshTokens outcome clock now w) /\
  (autoRefreshInterval (dashboard w) <> Some h ->
   requests w' = requests w /\
   console w' = console w /\
   dashboard w' = dashboard w /\
   switch (document w') = switch (document w) /\
   refresh_timers w' = refresh_timers w /\
   ((forall t, In t (intervals w) -> handle t <> h) ->
    tick h outcome clock now w = (Normal tt, w))).
Proof.
  intros Hd Ht w w'.
  destruct (events_keep_invariant evs w0 (constructor_invariant w0 Hd Ht))
    as [H1 _].
  fold w in H1. unfold one_timer_when_on in H1.
  assert (Hheld : existsb (is_refresh_timer h) (intervals w)
                  = match autoRefreshInterval (dashboard w) with
                    | Some h' => Pos.eqb h' h
                    | None => false
                    end).
  { rewrite refresh_timer_set.
    destruct (isAutoRefreshEnabled (dashboard w)).
    - destruct H1 as [h' [-> ->]]. cbn [existsb handle].
      apply orb_false_r.
    - destruct H1 as [-> ->]. reflexivity. }
  split.
  - intros Hh. unfold tick. rewrite bind_gets, Hheld, Hh, Pos.eqb_refl.
    reflexivity.
  - intros Hne.
    assert (Hno : existsb (is_refresh_timer h) (intervals w) = false).
    { rewrite Hheld. destruct (autoRefreshInterval (dashboard w)) as [h'|];
        [|reflexivity].
      apply Pos.eqb_neq. intros ->. now apply Hne. }
    destruct (tick_animation_state h outcome clock now w Hno)
      as [doc [timers [Hw [Hsw _]]]].
    pose proof (frame_tick h outcome clock now w) as [Hfd [_ [_ Hfr]]].
    fold (exec (tick h outcome clock now) w) in Hfd, Hfr.
    fold w' in Hw, Hfd, Hfr.
    split; [rewrite Hw; reflexivity|].
    split; [rewrite Hw; reflexivity|].
    split; [exact Hfd|].
    split; [rewrite Hw; exact Hsw|].
    split; [exact Hfr|].
    intros Hnone. unfold tick. rewrite bind_gets, Hno.
    destruct (find (fun t => Pos.eqb (handle t) h) (intervals w))
      as [t|] eqn:Hfind; [|reflexivity].
    apply find_some in Hfind as [Hin Hh]. apply Pos.eqb_eq in Hh.
    exfalso. exact (Hnone t Hin Hh).
Qed.

(** X18: [startAutoRefresh] does not clear a timer that is running.
    Called twice in a row, it leaves the first timer set with no handle
    to it: [stopAutoRefresh] clears the second only, and the first goes
    on polling while the flag is off. *)
Theorem start_twice_leaks (w : World) :
  let w' :=
    exec stopAutoRefresh (exec startAutoRefresh (exec startAutoRefresh w)) in
  isAutoRefreshEnabled (dashboard w') = false /\
  autoRefreshInterval (dashboard w') = None /\
  In (mkTimer (next_handle w) (refreshIntervalMs (dashboard w))
        RefreshTokensCb)
     (intervals w') /\
  forall outcome clock now,
    tick (next_handle w) outcome clock now w'
    = refreshTokens outcome clock now w'.
Proof.
  cbv zeta. unfold exec.
  rewrite (startAutoRefresh_run w). cbn [snd].
  rewrite startAutoRefresh_run. cbn [snd dashboard next_handle intervals
    apiBaseUrl refreshIntervalMs].
  rewrite stopAutoRefresh_run.
  cbn [snd dashboard next_handle intervals apiBaseUrl refreshIntervalMs
       autoRefreshInterval isAutoRefreshEnabled].
  assert (Hin :
    In (mkTimer (next_handle w) (refreshIntervalMs (dashboard w))
          RefreshTokensCb)
       (filter (fun t => negb (Pos.eqb (handle t) (Pos.succ (next_handle w))))
          ((intervals w
            ++ [mkTimer (next_handle w) (refreshIntervalMs (dashboard w))
                  RefreshTokensCb])
           ++ [mkTimer (Pos.succ (next_handle w))
                 (refreshIntervalMs (dashboard w)) RefreshTokensCb]))).
  { apply filter_In. split.
    - apply in_or_app. left. apply in_or_app. right. left. reflexivity.
    - cbn [handle]. apply negb_true_iff, Pos.eqb_neq. lia. }
  split; [reflexivity|]. split; [reflexivity|]. split; [exact Hin|].
  intros outcome clock now. unfold tick. rewrite bind_gets.
  cbn [intervals].
  replace (existsb (is_refresh_timer (next_handle w)) _) with true;
    [reflexivity|].
  symmetry. apply existsb_exists. eexists. split; [exact Hin|].
  unfold is_refresh_timer. cbn [handle callback].
  now rewrite Pos.eqb_refl.
Qed.

(** X20: turning auto-refresh off clears the refresh timer and no timer
    of the counter animation: in every state reached from one the
    constructor leaves with fresh handles, a toggle that finds the flag
    on leaves the animation timers as they are and no refresh timer
    set. *)
Theorem toggle_off_keeps_animations (w0 : World) (evs : list Event) :
  dashboard w0 = constructor_fields ->
  refresh_timers w0 = [] ->
  handles_fresh w0 ->
  let w := run_events evs w0 in
  isAutoRefreshEnabled (dashboard w) = true ->
  animation_timers (exec toggleAutoRefresh w) = animation_timers w /\
  refresh_timers (exec toggleAutoRefresh w) = [].
Proof.
  intros Hd Ht Hfresh w Hon.
  pose proof (events_keep_fresh evs w0 Hfresh) as Hf. fold w in Hf.
  destruct (events_keep_invariant evs w0 (constructor_invariant w0 Hd Ht))
    as [H1 _].
  fold w in H1. unfold one_timer_when_on in H1. rewrite Hon in H1.
  destruct H1 as [h [Hh Hone]].
  destruct (toggleAutoRefresh_fields w) as [_ [Hi _]]. cbv zeta in Hi.
  rewrite Hon in Hi. unfold exec in Hi at 2.
  rewrite stopAutoRefresh_run in Hi. cbn [snd intervals] in Hi.
  rewrite Hh in Hi.
  unfold animation_timers, refresh_timers. rewrite Hi. split.
  - apply filter_filter_implied. intros t Hin Hanim.
    apply negb_true_iff. apply Pos.eqb_neq. intros Heq.
    assert (Hr : In (mkTimer h (refreshIntervalMs (dashboard w))
                       RefreshTokensCb) (intervals w)).
    { assert (Hx : In (mkTimer h (refreshIntervalMs (dashboard w))
                         RefreshTokensCb) (refresh_timers w))
        by (rewrite Hone; left; reflexivity).
      unfold refresh_timers in Hx. apply filter_In in Hx. tauto. }
    assert (Hsame : t = mkTimer h (refreshIntervalMs (dashboard w))
                          RefreshTokensCb)
      by (exact (same_handle_same_timer _ _ _ (proj1 Hf) Hin Hr Heq)).
    subst t. discriminate.
  - fold (refresh_timers w). rewrite filter_filter_comm.
    fold (refresh_timers w). rewrite Hone. cbn [filter handle].
    now rewrite Pos.eqb_refl.
Qed.

End Traces2.

(** ** Counters, and calls on a page that lacks an element *)

Section Edges.

Context {browser : Browser}.

Lemma animateNumber_at_target (elementId : string) (target : JsValue)
  (w : World) :
  (forall t,
     content_of elementId w = Some t ->
     target = JNum (match parseInt t with Some n => n | None => 0 end)) ->
  animateNumber elementId target w = (Normal tt, w).
Proof.
  intros H. unfold animateNumber, bind, getElementById, gets, content_of.
  unfold content_of in H.
  destruct (lookup elementId (elements (document w))) as [t|] eqn:E; cbn;
    [|reflexivity].
  rewrite E, (H t eq_refl). cbn [strict_eq_num]. now rewrite Z.eqb_refl.
Qed.

(** What [updateStatusBar] does to the timers, whether it returns or
    throws: two timers of the counter animation at most. *)
Lemma updateStatusBar_timers (data : JsValue) (w : World) :
  exists extra,
    intervals (exec (updateStatusBar data) w) = (intervals w ++ extra)%list /\
    (List.length extra <= 2)%nat /\
    Forall animation_timer extra.
Proof.
  assert (Hnone : exists extra,
            intervals w = (intervals w ++ extra)%list /\
            (List.length extra <= 2)%nat /\ Forall animation_timer extra).
  { exists []. rewrite app_nil_r.
    split; [reflexivity|]. split; [cbn; lia | constructor]. }
  unfold updateStatusBar, exec, bind, lift.
  destruct (get data "total_tokens") as [total|e]; [|exact Hnone].
  destruct (animateNumber_timers "totalTokens" (js_or total (JNum 0)) w)
    as [e1 [H1 [L1 F1]]].
  unfold exec in H1.
  destruct (animateNumber "totalTokens" (js_or total (JNum 0)) w)
    as [[[]|e] w1]; cbn [snd] in H1 |- *.
  - destruct (get data "active_tokens") as [active|e]; cbn [snd].
    + destruct (animateNumber_timers "activeTokens"
                  (js_or active (JNum 0)) w1) as [e2 [H2 [L2 F2]]].
      exists (e1 ++ e2)%list. unfold exec in H2.
      rewrite H2, H1, <- app_assoc.
      split; [reflexivity|]. split; [rewrite length_app; lia|].
      apply Forall_app. auto.
    + exists e1. split; [exact H1|]. split; [lia | exact F1].
  - exists e1. split; [exact H1|]. split; [lia | exact F1].
Qed.

(** X19: [updateStatusBar] writes no element, sends and logs nothing
    and touches no refresh timer; it sets at most two timers, each of
    the counter animation and 20 ms apart; and when both counters
    already show their targets it leaves the page as it is. *)
Theorem updateStatusBar_footprint (fields : list (string * JsValue))
  (w : World) :
  let w' := exec (updateStatusBar (JObj fields)) w in
  let total := js_or (field fields "total_tokens") (JNum 0) in
  let active := js_or (field fields "active_tokens") (JNum 0) in
  document w' = document w /\
  requests w' = requests w /\
  console w' = console w /\
  (exists extra,
     intervals w' = (intervals w ++ extra)%list /\
     (List.length extra <= 2)%nat /\
     Forall (fun t => delay t = 20 /\ is_refresh t = false) extra) /\
  ((forall t,
      content_of "totalTokens" w = Some t ->
      total = JNum (match parseInt t with Some n => n | None => 0 end)) ->
   (forall t,
      content_of "activeTokens" w = Some t ->
      active = JNum (match parseInt t with Some n => n | None => 0 end)) ->
   w' = w).
Proof.
  intros w' total active.
  split; [apply (same_document_updateStatusBar (JObj fields) w)|].
  split; [apply (silent_updateStatusBar (JObj fields) w)|].
  split; [apply (silent_updateStatusBar (JObj fields) w)|].
  split; [exact (updateStatusBar_timers (JObj fields) w)|].
  intros Ht Ha. subst w'. unfold updateStatusBar, exec, bind, lift.
  rewrite !get_record. fold total active.
  rewrite (animateNumber_at_target "totalTokens" total w Ht).
  rewrite (animateNumber_at_target "activeTokens" active w Ha).
  reflexivity.
Qed.

(** X21: on a page without the switch, [toggleAutoRefresh] throws the
    TypeError for reading [classList] of [null], but only after it has
    started or stopped the timer: the flag is flipped, the timers have
    changed, and nothing shows it. *)
Theorem toggle_without_switch (w : World) :
  switch (document w) = None ->
  let w' := exec toggleAutoRefresh w in
  completion toggleAutoRefresh w
  = Throw (mkError (cannot_read_message JNull "classList")) /\
  isAutoRefreshEnabled (dashboard w')
  = negb (isAutoRefreshEnabled (dashboard w)) /\
  w' = exec (if isAutoRefreshEnabled (dashboard w)
             then stopAutoRefresh else startAutoRefresh) w.
Proof.
  intros Hsw. cbv zeta.
  unfold completion, exec, toggleAutoRefresh. rewrite bind_gets.
  destruct (isAutoRefreshEnabled (dashboard w)) eqn:Hflag.
  - rewrite (bind_normal _ _ _ _ _ (stopAutoRefresh_run w)).
    rewrite stopAutoRefresh_run.
    unfold bind, classList_remove, querySelector_switch, gets.
    cbn. rewrite Hsw. cbn. repeat split.
  - rewrite (bind_normal _ _ _ _ _ (startAutoRefresh_run w)).
    rewrite startAutoRefresh_run.
    unfold bind, classList_add, querySelector_switch, gets.
    cbn. rewrite Hsw. cbn. repeat split.
Qed.

(** X22: on a page without the table body, [refreshTokens] throws the
    TypeError for setting [innerHTML] of [null] out of its first
    statement and does nothing else: no request is sent, nothing is
    logged, the page is as it was. *)
Theorem refresh_without_table_body (w : World) (outcome : FetchOutcome)
  (clock : nat -> Z * Z) (now : Z) :
  content_of "tokenTableBody" w = None ->
  refreshTokens outcome clock now w
  = (Throw (mkError (cannot_set_message "innerHTML")), w).
Proof.
  unfold refreshTokens, bind, getElementById, gets, content_of.
  intros ->. reflexivity.
Qed.

(** X23: starting and then stopping auto-refresh is a round trip on the
    timers: with fresh handles, the timers set are after it the ones
    set before, the flag is off and no handle is held; only the next
    handle has moved on. *)
Theorem start_then_stop_round_trip (w : World) :
  handles_fresh w ->
  let w' := exec stopAutoRefresh (exec startAutoRefresh w) in
  intervals w' = intervals w /\
  isAutoRefreshEnabled (dashboard w') = false /\
  autoRefreshInterval (dashboard w') = None /\
  next_handle w' = Pos.succ (next_handle w) /\
  document w' = document w /\
  requests w' = requests w.
Proof.
  intros [_ Hlt]. cbv zeta. unfold exec.
  rewrite startAutoRefresh_run. cbn [snd]. rewrite stopAutoRefresh_run.
  cbn [snd dashboard intervals next_handle document requests
       autoRefreshInterval isAutoRefreshEnabled].
  repeat split.
  rewrite filter_app. cbn [filter handle]. rewrite Pos.eqb_refl.
  cbn [negb]. rewrite app_nil_r.
  induction (intervals w) as [|t l IH]; [reflexivity|].
  inversion Hlt as [|x xs Hx Hxs]; subst. cbn [filter].
  replace (Pos.eqb (handle t) (next_handle w)) with false
    by (symmetry; apply Pos.eqb_neq; lia).
  cbn [negb]. f_equal. exact (IH Hxs).
Qed.

End Edges.

(** ** The counter animation *)

Lemma update_update (k a b : string) (l : list (string * string)) :
  update k a (update k b l) = update k a l.
Proof.
  induction l as [|[k' v'] l IH]; [reflexivity|].
  cbn [update]. destruct (String.eqb k k') eqn:E; cbn [update]; rewrite E.
  - reflexivity.
  - now rewrite IH.
Qed.

Lemma find_last_handle (h : positive) (l : list Timer) (t : Timer) :
  Forall (fun t => handle t <> h) l ->
  handle t = h ->
  find (fun t => Pos.eqb (handle t) h) (l ++ [t]) = Some t.
Proof.
  intros Hl Ht. induction Hl as [|x l Hx _ IH]; cbn [app find].
  - rewrite Ht, Pos.eqb_refl. reflexivity.
  - apply Pos.eqb_neq in Hx. rewrite Hx. exact IH.
Qed.

Lemma no_timer_found (h : positive) (l : list Timer) :
  Forall (fun t => handle t <> h) l ->
  find (fun t => Pos.eqb (handle t) h) l = None /\
  existsb (is_refresh_timer h) l = false.
Proof.
  intros Hl. induction Hl as [|x l Hx _ [IH1 IH2]]; [split; reflexivity|].
  cbn [find existsb]. unfold is_refresh_timer at 1.
  apply Pos.eqb_neq in Hx. rewrite Hx. split; assumption.
Qed.

Lemma count_step_last (h : positive) (l : list Timer) (ms : Z)
  (id : string) (current : Z) (number : option Z) (target : JsValue)
  (step : nat) :
  Forall (fun t => handle t <> h) l ->
  map (count_step h)
    (l ++ [mkTimer h ms (AnimateNumberCb id current number target step)])
  = (l ++ [mkTimer h ms (AnimateNumberCb id current number target (S step))])
      %list.
Proof.
  intros Hl. rewrite map_app. f_equal.
  - induction Hl as [|x l Hx _ IH]; [reflexivity|].
    cbn [map]. now rewrite (count_step_other h x Hx), IH.
  - cbn [map]. unfold count_step. cbn [callback handle].
    now rewrite Pos.eqb_refl.
Qed.

Lemma clear_last (h : positive) (l : list Timer) (t : Timer) :
  Forall (fun t => handle t <> h) l ->
  handle t = h ->
  filter (fun t => negb (Pos.eqb (handle t) h)) (l ++ [t]) = l.
Proof.
  intros Hl Ht. rewrite filter_app. cbn [filter].
  rewrite Ht, Pos.eqb_refl. cbn [negb]. rewrite app_nil_r.
  induction Hl as [|x l Hx _ IH]; [reflexivity|].
  cbn [filter]. apply Pos.eqb_neq in Hx. rewrite Hx. cbn [negb].
  now rewrite IH.
Qed.

Section Animation.

Context {browser : Browser}.

Lemma animateNumber_starts (id text : string) (target : Z) (w : World) :
  content_of id w = Some text ->
  let current := match parseInt text with Some c => c | None => 0 end in
  target <> current ->
  animateNumber id (JNum target) w
  = (Normal tt,
     mkWorld (dashboard w) (document w) (Pos.succ (next_handle w))
       (intervals w ++ [counting (next_handle w) id current target 0])
       (requests w) (console w)).
Proof.
  intros Hc current Hne.
  unfold animateNumber. rewrite (bind_normal _ _ _ _ _
                                   (getElementById_present _ _ _ Hc)).
  rewrite bind_gets, Hc. fold current. cbn [strict_eq_num].
  apply Z.eqb_neq in Hne. rewrite Hne. reflexivity.
Qed.

(** One step of the animation, the timer being the last one set. *)
Lemma tick_counting (h : positive) (outcome : FetchOutcome)
  (clock : nat -> Z * Z) (now : Z) (x : World) (l : list Timer)
  (id : string) (current target : Z) (step : nat) :
  intervals x = (l ++ [counting h id current target step])%list ->
  Forall (fun t => handle t <> h) l ->
  tick h outcome clock now x
  = (Normal tt,
     mkWorld (dashboard x)
       (mkDocument
          (update id
             (if (15 <=? S step)%nat then Number_toString target
              else number_text
                     (Math_round_step current (Some target) (S step)))
             (elements (document x)))
          (switch (document x)))
       (next_handle x)
       (if (15 <=? S step)%nat then l
        else (l ++ [counting h id current target (S step)])%list)
       (requests x) (console x)).
Proof.
  intros Hi Hl. destruct (no_timer_found h l Hl) as [_ Hno].
  assert (Hnone : existsb (is_refresh_timer h) (intervals x) = false).
  { rewrite Hi, existsb_app, Hno. unfold is_refresh_timer.
    cbn [existsb callback counting]. now rewrite andb_false_r. }
  assert (Hstep : map (count_step h) (intervals x)
                  = (l ++ [counting h id current target (S step)])%list).
  { rewrite Hi. exact (count_step_last h l _ _ _ _ _ _ Hl). }
  unfold tick. rewrite bind_gets, Hnone, Hi.
  rewrite (find_last_handle h l (counting h id current target step) Hl
             eq_refl).
  cbn [callback counting].
  unfold animateNumber_step, bind, modify, lift, set_textContent,
    set_content, clearInterval, textContent_of, ToString, set_intervals,
    set_document.
  cbn [fst snd cbind intervals dashboard document next_handle requests
       console elements switch].
  rewrite Hstep.
  destruct (15 <=? S step)%nat; unfold modify;
    cbn [fst snd cbind intervals dashboard document next_handle requests
         console elements switch].
  - now rewrite (clear_last h l (counting h id current target (S step)) Hl
                   eq_refl).
  - reflexivity.
Qed.

(** A tick of a handle that no timer has does nothing. *)
Lemma tick_no_timer (h : positive) (outcome : FetchOutcome)
  (clock : nat -> Z * Z) (now : Z) (x : World) :
  Forall (fun t => handle t <> h) (intervals x) ->
  tick h outcome clock now x = (Normal tt, x).
Proof.
  intros Hl. unfold tick. rewrite bind_gets.
  destruct (no_timer_found h _ Hl) as [-> ->]. reflexivity.
Qed.

Lemma ticks_of_succ (h : positive) (k : nat) (x : World) :
  run_events (ticks_of h (S k)) x
  = exec (tick h (Rejected (mkError "offline")) example_clock 0)
      (run_events (ticks_of h k) x).
Proof.
  revert x. induction k as [|k IH]; intros x; [reflexivity|].
  change (run_events (ticks_of h (S (S k))) x)
    with (run_events (ticks_of h (S k))
            (exec (tick h (Rejected (mkError "offline")) example_clock 0) x)).
  rewrite IH. reflexivity.
Qed.

(** The page after [k] steps of the animation of one counter. *)
Lemma counting_state (id text : string) (target : Z) (w : World) (k : nat) :
  handles_fresh w ->
  content_of id w = Some text ->
  let current := match parseInt text with Some c => c | None => 0 end in
  target <> current ->
  (1 <= k <= 15)%nat ->
  run_events (ticks_of (next_handle w) k)
    (exec (animateNumber id (JNum target)) w)
  = mkWorld (dashboard w)
      (mkDocument
         (update id
            (if (15 <=? k)%nat then Number_toString target
             else number_text (Math_round_step current (Some target) k))
            (elements (document w)))
         (switch (document w)))
      (Pos.succ (next_handle w))
      (if (15 <=? k)%nat then intervals w
       else (intervals w
             ++ [counting (next_handle w) id current target k])%list)
      (requests w) (console w).
Proof.
  intros [_ Hlt] Hc current Hne.
  assert (Hl : Forall (fun t => handle t <> next_handle w) (intervals w)).
  { eapply Forall_impl; [|exact Hlt]. cbn. intros t Ht. lia. }
  induction k as [|k IH]; intros Hk; [lia|].
  rewrite ticks_of_succ. destruct k as [|k].
  - cbn [ticks_of run_events fold_left]. unfold exec.
    rewrite (animateNumber_starts id text target w Hc Hne). cbn [snd].
    fold current.
    erewrite tick_counting; [|reflexivity|exact Hl]. reflexivity.
  - rewrite IH by lia.
    replace (15 <=? S k)%nat with false
      by (symmetry; apply Nat.leb_gt; lia).
    unfold exec.
    erewrite tick_counting; [|reflexivity|exact Hl].
    cbn [snd dashboard document next_handle requests console elements
         switch].
    now rewrite update_update.
Qed.

(** X26: the counter animation runs to its target.  [animateNumber]
    called with a number that the element does not show sets one timer;
    each of its first fourteen ticks writes the rounded value on the
    way and leaves the timer set; the fifteenth writes the target and
    clears the timer, so that the timers are the ones set before the
    call; and every further tick of that handle does nothing. *)
Theorem counter_reaches_target (elementId text : string) (target : Z)
  (w : World) :
  handles_fresh w ->
  content_of elementId w = Some text ->
  let current := match parseInt text with Some c => c | None => 0 end in
  target <> current ->
  let h := next_handle w in
  let after k :=
    run_events (ticks_of h k) (exec (animateNumber elementId (JNum target)) w)
  in
  intervals (after 0%nat)
  = (intervals w
     ++ [mkTimer h 20
           (AnimateNumberCb elementId current (Some target) (JNum target)
              0)])%list /\
  (forall k,
     (1 <= k < 15)%nat ->
     content_of elementId (after k)
     = Some (number_text (Math_round_step current (Some target) k)) /\
     intervals (after k)
     = (intervals w
        ++ [mkTimer h 20
              (AnimateNumberCb elementId current (Some target) (JNum target)
                 k)])%list) /\
  content_of elementId (after 15%nat) = Some (Number_toString target) /\
  intervals (after 15%nat) = intervals w /\
  (forall k, (15 <= k)%nat -> after k = after 15%nat).
Proof.
  intros Hfresh Hc current Hne h after.
  assert (Hstate := fun k =>
            counting_state elementId text target w k Hfresh Hc Hne).
  fold current in Hstate.
  split.
  { subst after. cbn [ticks_of run_events fold_left]. unfold exec.
    now rewrite (animateNumber_starts elementId text target w Hc Hne). }
  split.
  { intros k Hk. subst after h. cbv beta. rewrite Hstate by lia.
    replace (15 <=? k)%nat with false by (symmetry; apply Nat.leb_gt; lia).
    split; [|reflexivity].
    unfold content_of. cbn [document elements].
    exact (lookup_update_same _ _ _ _ Hc). }
  assert (H15 : (1 <= 15 <= 15)%nat) by lia.
  split.
  { subst after h. cbv beta. rewrite (Hstate 15%nat H15).
    unfold content_of. cbn [document elements Nat.leb].
    exact (lookup_update_same _ _ _ _ Hc). }
  split.
  { subst after h. cbv beta. now rewrite (Hstate 15%nat H15). }
  intros k Hk. induction Hk as [|k Hk IH]; [reflexivity|].
  subst after h. cbv beta in *. rewrite ticks_of_succ, IH.
  unfold exec at 1. rewrite tick_no_timer; [reflexivity|].
  rewrite (Hstate 15%nat H15). cbn [intervals Nat.leb].
  destruct Hfresh as [_ Hlt].
  eapply Forall_impl; [|exact Hlt]. cbn. intros t Ht. lia.
Qed.

End Animation.

(** ** The loading placeholder and the dates of a row *)

Section Shown.

Context {browser : Browser}.

(** X27: [refreshTokens] shows the loading placeholder first.  On a
    page that has the table body, [showLoading] writes the placeholder,
    with its spinner and the text "Loading token data...", and the rest
    of the call, the [try] block and its [catch], starts from the page
    that shows it and on which the request has been sent. *)
Theorem loading_shown_first (w : World) (outcome : FetchOutcome)
  (clock : nat -> Z * Z) (now : Z) (c : string) :
  content_of "tokenTableBody" w = Some c ->
  content_of "tokenTableBody" (exec (showLoading (Some "tokenTableBody")) w)
  = Some loading_markup /\
  contains "Loading token data..." loading_markup = true /\
  contains ("<div class=" ++ q "spinner" ++ "></div>") loading_markup = true /\
  content_of "tokenTableBody" (loading_page w) = Some loading_markup /\
  refreshTokens outcome clock now w =
  match fetched outcome with
  | Throw e => report e (loading_page w)
  | Normal data => try_catch (render clock data now) report (loading_page w)
  end.
Proof.
  intros H. split.
  { unfold exec, showLoading, set_innerHTML, set_content, modify, content_of.
    cbn [snd document set_document elements].
    exact (lookup_update_same _ _ _ _ H). }
  split; [reflexivity|]. split; [reflexivity|].
  split; [exact (loading_page_has_body w c H)|].
  exact (refreshTokens_run w outcome clock now c H).
Qed.


End Shown.

(** ** Worked instances *)

(** The example of the specification: one record with three uses left
    renders one row with the status "Low". *)
Example one_low_row :
  content_of "tokenTableBody"
    (exec
       (refreshTokens (browser := example_browser)
          (Resolved
             (mkResponse 200 "OK"
                (Normal
                   (JObj
                      [ ("tokens",
                         JArr
                           [ JObj [ ("user_email", JStr "a@b.com");
                                    ("remaining_usage", JNum 3);
                                    ("expires_at", JNull) ] ]);
                        ("total_tokens", JNum 1);
                        ("active_tokens", JNum 1) ]))))
          example_clock 2000)
       example_page)
  = Some
      (row_markup "0" "a@b.com" "N/A" "social" "3" "-" "-"
         "status-low" "Low").
Proof. reflexivity. Qed.

(** A [user_email] of markup is shown as text. *)
Example script_in_user_email :
  exists row,
    createTokenRow (browser := example_browser) 0 0
      (JObj [("user_email", JStr "<script>alert(1)</script>")]) 0
    = Normal row /\
    contains "&lt;script&gt;alert(1)&lt;/script&gt;" row = true /\
    contains "<script>" row = false.
Proof. eexists. repeat split. Qed.

(** A record whose [user_email] is an object that has no primitive
    value renders no row: the conversion throws. *)
Example no_primitive_user_email :
  createTokenRow (browser := example_browser) 0 0
    (JObj [("user_email", no_primitive)]) 0
  = Throw (mkError "Cannot convert object to primitive value").
Proof. reflexivity. Qed.

(** A number of 22 digits is written in the exponent form. *)
Example number_of_22_digits :
  Number_toString (browser := example_browser) 1000000000000000000000
  = "1e+21".
Proof. reflexivity. Qed.

Lemma status_precedence_witness :
  let fields := [("expires_at", JStr "1000"); ("remaining_usage", JNum 3)] in
  Date_parse (Browser := example_browser) EmptyString = None /\
  timestamp_or_null (lookup "expires_at" fields) /\
  lookup "remaining_usage" fields = Some (JNum 3) /\
  0 <= 3 /\
  getStatusText (browser := example_browser) 2000 (JObj fields)
  = Normal "Expired".
Proof.
  intros fields.
  assert (Hty : timestamp_or_null (lookup "expires_at" fields))
    by (right; right; exists "1000"; reflexivity).
  assert (Hpos : 0 <= 3) by lia.
  split; [reflexivity|]. split; [exact Hty|].
  split; [reflexivity|]. split; [exact Hpos|].
  exact (proj1 (status_precedence (browser := example_browser) 2000 fields 3
                  eq_refl Hty eq_refl Hpos)).
Defined.



Lemma non_2xx_shows_status_witness :
  let r := mkResponse 404 "Not Found" (Throw (mkError "no body")) in
  content_of "tokenTableBody" example_page <> None /\
  (status r < 200 \/ 299 < status r) /\
  content_of "tokenTableBody"
    (exec
       (refreshTokens (browser := example_browser) (Resolved r)
          example_clock 2000)
       example_page)
  = Some (error_markup "Failed to load: HTTP 404: Not Found").
Proof.
  intros r.
  assert (Hbody : content_of "tokenTableBody" example_page <> None)
    by discriminate.
  assert (Hstatus : status r < 200 \/ 299 < status r)
    by (right; reflexivity).
  split; [exact Hbody|]. split; [exact Hstatus|].
  exact (proj1 (non_2xx_shows_status (browser := example_browser)
                  example_page r example_clock 2000 Hbody Hstatus)).
Defined.

Lemma empty_list_shows_placeholder_witness :
  let fields := [("tokens", JArr []); ("total_tokens", JNum 0)] in
  let r := mkResponse 200 "OK" (Normal (JObj fields)) in
  content_of "tokenTableBody" example_page <> None /\
  ok r = true /\
  json r = Normal (JObj fields) /\
  lookup "tokens" fields = Some (JArr []) /\
  counters_convert (browser := example_browser) (JObj fields) = true /\
  content_of "tokenTableBody"
    (exec
       (refreshTokens (browser := example_browser) (Resolved r)
          example_clock 2000)
       example_page)
  = Some empty_markup.
Proof.
  intros fields r.
  assert (Hbody : content_of "tokenTableBody" example_page <> None)
    by discriminate.
  pose proof (empty_list_shows_placeholder (browser := example_browser)
                example_page r fields example_clock 2000 Hbody eq_refl
                eq_refl (or_intror (or_intror eq_refl))) as H.
  cbv zeta in H. destruct H as [_ [_ [H _]]].
  split; [exact Hbody|]. split; [reflexivity|]. split; [reflexivity|].
  split; [reflexivity|]. split; [reflexivity|].
  exact (proj1 (H eq_refl)).
Defined.

Lemma toggle_on_then_off_witness :
  let on := exec (toggleAutoRefresh (browser := example_browser))
              example_page in
  let off := exec (toggleAutoRefresh (browser := example_browser)) on in
  dashboard example_page = constructor_fields /\
  switch (document example_page) = Some (mkSwitch ["switch"] (Some "false")) /\
  no_refresh_timer example_page /\
  isAutoRefreshEnabled (dashboard on) = true /\
  intervals on = [mkTimer 1 30000 RefreshTokensCb] /\
  isAutoRefreshEnabled (dashboard off) = false /\
  autoRefreshInterval (dashboard off) = None /\
  intervals off = [].
Proof.
  intros on off.
  assert (Hno : no_refresh_timer example_page) by (intros t []).
  destruct (toggle_on_then_off (browser := example_browser) example_page
              (mkSwitch ["switch"] (Some "false")) eq_refl eq_refl Hno)
    as [[Hon [_ [Hi _]]] [[Hoff [Hh _]] _]].
  split; [reflexivity|]. split; [reflexivity|]. split; [exact Hno|].
  split; [exact Hon|]. split; [exact Hi|]. split; [exact Hoff|].
  split; [exact Hh|]. reflexivity.
Defined.


Lemma flag_matches_timer_invariant_witness :
  flag_matches_timer example_page /\
  flag_matches_timer
    (exec (toggleAutoRefresh (browser := example_browser)) example_page).
Proof.
  destruct (flag_matches_timer_invariant (browser := example_browser))
    as [Hinit Hkeep].
  assert (H : flag_matches_timer example_page) by (apply Hinit; reflexivity).
  split; [exact H|]. exact (proj2 (proj2 (Hkeep example_page H))).
Defined.

Lemma missing_usage_is_zero_witness :
  let fields := [("user_email", JStr "a@b.com")] in
  lookup "remaining_usage" fields = None /\
  isExpired (browser := example_browser) 2000 (JObj fields) = Normal false /\
  renders (browser := example_browser) (JObj fields) = true /\
  getStatusText (browser := example_browser) 2000 (JObj fields)
  = Normal "Exhausted" /\
  exists row,
    createTokenRow (browser := example_browser) 2000 2000 (JObj fields) 0
    = Normal row /\
    contains (cell "0") row = true.
Proof.
  intros fields.
  pose proof (missing_usage_is_zero (browser := example_browser) 2000 2000
                fields 0 (or_introl eq_refl) eq_refl eq_refl eq_refl) as H.
  cbv zeta in H.
  destruct H as [Htxt [_ [row [email [preview [auth [pre [post
                  [Hrow [_ [_ Hcell]]]]]]]]]]].
  split; [reflexivity|]. split; [reflexivity|]. split; [reflexivity|].
  split; [exact Htxt|].
  exists row. split; [exact Hrow | exact Hcell].
Defined.

(** ** Worked instances of the further properties *)

Lemma expired_stays_expired_witness :
  let token := JObj [("expires_at", JStr "1000")] in
  getStatusText (browser := example_browser) 2000 token = Normal "Expired" /\
  2000 <= 3000 /\
  getStatusText (browser := example_browser) 3000 token = Normal "Expired".
Proof.
  intros token.
  assert (Hle : 2000 <= 3000) by lia.
  split; [reflexivity|]. split; [exact Hle|].
  exact (proj1 (expired_stays_expired (browser := example_browser)
                  2000 3000 token eq_refl Hle)).
Defined.

Lemma usage_thresholds_witness :
  let fields := [("remaining_usage", JNum (-2))] in
  isExpired (browser := example_browser) 0 (JObj fields) = Normal false /\
  lookup "remaining_usage" fields = Some (JNum (-2)) /\
  getStatusText (browser := example_browser) 0 (JObj fields) = Normal "Low".
Proof.
  intros fields.
  assert (Hneg : -2 < 0) by lia.
  split; [reflexivity|]. split; [reflexivity|].
  exact (proj1 (proj2 (proj2
           (usage_thresholds (browser := example_browser) 0 fields (-2)
              eq_refl eq_refl))) Hneg).
Defined.

Lemma class_and_label_can_disagree_witness :
  let fields := [("expires_at", JStr "1500"); ("remaining_usage", JNum 3)] in
  lookup "expires_at" fields = Some (JStr "1500") /\
  Date_parse (Browser := example_browser) "1500" = Some 1500 /\
  1000 <= 1500 < 2000 /\
  renders (browser := example_browser) (JObj fields) = true /\
  exists cls,
    getStatusClass (browser := example_browser) 1000 (JObj fields)
    = Normal cls /\
    cls <> "status-expired" /\
    getStatusText (browser := example_browser) 2000 (JObj fields)
    = Normal "Expired".
Proof.
  intros fields.
  assert (Hbetween : 1000 <= 1500 < 2000) by lia.
  split; [reflexivity|]. split; [reflexivity|]. split; [exact Hbetween|].
  split; [reflexivity|].
  destruct (class_and_label_can_disagree (browser := example_browser)
              1000 2000 fields 0 "1"%char "500" 1500 eq_refl eq_refl
              Hbetween eq_refl)
    as [cls [row [Hcls [Hne [Htxt _]]]]].
  exists cls. auto.
Defined.

Lemma unparseable_expiry_never_expires_witness :
  let fields := [("expires_at", JStr "soon")] in
  Date_new (browser := example_browser) (field fields "expires_at")
  = Normal None /\
  isExpired (browser := example_browser) 0 (JObj fields) = Normal false /\
  formatDateTime (browser := example_browser) (field fields "expires_at")
  = "-".
Proof.
  intros fields.
  destruct (unparseable_expiry_never_expires (browser := example_browser)
              0 fields (or_intror eq_refl)) as [H1 [H2 _]].
  split; [reflexivity|]. split; [exact H1 | exact H2].
Defined.



Lemma rows_follow_the_response_witness :
  let items := [JObj [("user_email", JStr "a@b.com")]; JNum 5] in
  let data := JObj [("tokens", JArr items)] in
  let r := mkResponse 200 "OK" (Normal data) in
  let w' := exec (refreshTokens (browser := example_browser) (Resolved r)
                    example_clock 2000) example_page in
  content_of "tokenTableBody" example_page <> None /\
  ok r = true /\
  json r = Normal data /\
  get (browser := example_browser) data "tokens" = Normal (JArr items) /\
  items <> [] /\
  Forall (fun token => renders (browser := example_browser) token = true)
    items /\
  counters_convert (browser := example_browser) data = true /\
  exists rows,
    content_of "tokenTableBody" w' = Some (join EmptyString rows) /\
    List.length rows = 2%nat.
Proof.
  intros items data r w'.
  assert (Hbody : content_of "tokenTableBody" example_page <> None)
    by discriminate.
  assert (Hne : items <> []) by discriminate.
  assert (Hall : Forall (fun token =>
                           renders (browser := example_browser) token = true)
                   items)
    by (repeat constructor).
  split; [exact Hbody|]. split; [reflexivity|]. split; [reflexivity|].
  split; [reflexivity|]. split; [exact Hne|]. split; [exact Hall|].
  split; [reflexivity|].
  pose proof (rows_follow_the_response (browser := example_browser)
                example_page r data items example_clock 2000
                Hbody eq_refl eq_refl eq_refl Hne Hall eq_refl) as H.
  cbv zeta in H. destruct H as [rows [H1 [H2 _]]].
  exists rows. split; [exact H1 | exact H2].
Defined.

Lemma null_record_fails_table_witness :
  let data := JObj [("tokens", JArr ([JObj []] ++ JNull :: []))] in
  let r := mkResponse 200 "OK" (Normal data) in
  content_of "tokenTableBody" example_page <> None /\
  ok r = true /\
  json r = Normal data /\
  nullish JNull = true /\
  content_of "tokenTableBody"
    (exec (refreshTokens (browser := example_browser) (Resolved r)
             example_clock 2000) example_page)
  = Some
      (error_markup
         (escape_text
            ("Failed to load: " ++ "Cannot read properties: expires_at"))).
Proof.
  intros data r.
  assert (Hbody : content_of "tokenTableBody" example_page <> None)
    by discriminate.
  assert (Hgood : Forall (fun token =>
                            renders (browser := example_browser) token = true)
                    [JObj []])
    by (repeat constructor).
  split; [exact Hbody|]. split; [reflexivity|]. split; [reflexivity|].
  split; [reflexivity|].
  pose proof (null_record_fails_table (browser := example_browser)
                example_page r data [JObj []] [] JNull example_clock 2000
                Hbody eq_refl eq_refl eq_refl Hgood eq_refl) as H.
  cbv zeta in H. exact (proj1 H).
Defined.

Lemma non_array_tokens_fail_witness :
  let data := JObj [("tokens", JStr "abc")] in
  let r := mkResponse 200 "OK" (Normal data) in
  content_of "tokenTableBody" example_page <> None /\
  ok r = true /\
  truthy (JStr "abc") = true /\
  content_of "tokenTableBody"
    (exec (refreshTokens (browser := example_browser) (Resolved r)
             example_clock 2000) example_page)
  = Some
      (error_markup
         (escape_text ("Failed to load: " ++ "map is not a function"))).
Proof.
  intros data r.
  assert (Hbody : content_of "tokenTableBody" example_page <> None)
    by discriminate.
  assert (Hnot : forall items, JStr "abc" <> JArr items)
    by (intros items; discriminate).
  assert (Hlen : get (browser := example_browser) (JStr "abc") "length"
                 <> Normal (JNum 0)) by discriminate.
  split; [exact Hbody|]. split; [reflexivity|]. split; [reflexivity|].
  pose proof (non_array_tokens_fail (browser := example_browser)
                example_page r data (JStr "abc") example_clock 2000
                Hbody eq_refl eq_refl eq_refl eq_refl Hnot Hlen) as H.
  cbv zeta in H. exact (proj1 H).
Defined.

Lemma null_body_fails_witness :
  let r := mkResponse 200 "OK" (Normal JNull) in
  content_of "tokenTableBody" example_page <> None /\
  ok r = true /\
  nullish JNull = true /\
  content_of "tokenTableBody"
    (exec (refreshTokens (browser := example_browser) (Resolved r)
             example_clock 2000) example_page)
  = Some
      (error_markup
         (escape_text ("Failed to load: " ++ "Cannot read properties: tokens"))).
Proof.
  intros r.
  assert (Hbody : content_of "tokenTableBody" example_page <> None)
    by discriminate.
  split; [exact Hbody|]. split; [reflexivity|]. split; [reflexivity|].
  pose proof (null_body_fails (browser := example_browser)
                example_page r JNull example_clock 2000
                Hbody eq_refl eq_refl eq_refl) as H.
  cbv zeta in H. exact (proj1 H).
Defined.

Lemma falsy_tokens_show_placeholder_witness :
  let data := JObj [("tokens", JNum 0)] in
  let r := mkResponse 200 "OK" (Normal data) in
  content_of "tokenTableBody" example_page <> None /\
  ok r = true /\
  truthy (JNum 0) = false /\
  counters_convert (browser := example_browser) data = true /\
  content_of "tokenTableBody"
    (exec (refreshTokens (browser := example_browser) (Resolved r)
             example_clock 2000) example_page)
  = Some empty_markup.
Proof.
  intros data r.
  assert (Hbody : content_of "tokenTableBody" example_page <> None)
    by discriminate.
  split; [exact Hbody|]. split; [reflexivity|]. split; [reflexivity|].
  split; [reflexivity|].
  pose proof (falsy_tokens_show_placeholder (browser := example_browser)
                example_page r data (JNum 0) example_clock 2000
                Hbody eq_refl eq_refl eq_refl (or_introl eq_refl) eq_refl)
    as H.
  cbv zeta in H. exact (proj1 H).
Defined.

Lemma unconvertible_field_fails_table_witness :
  let bad := JObj [("user_email", no_primitive)] in
  let data := JObj [("tokens", JArr ([JObj []] ++ bad :: []))] in
  let r := mkResponse 200 "OK" (Normal data) in
  content_of "tokenTableBody" example_page <> None /\
  ok r = true /\
  json r = Normal data /\
  nullish bad = false /\
  renders (browser := example_browser) bad = false /\
  content_of "tokenTableBody"
    (exec (refreshTokens (browser := example_browser) (Resolved r)
             example_clock 2000) example_page)
  = Some
      (error_markup
         (escape_text
            ("Failed to load: "
               ++ "Cannot convert object to primitive value"))).
Proof.
  intros bad data r.
  assert (Hbody : content_of "tokenTableBody" example_page <> None)
    by discriminate.
  assert (Hgood : Forall (fun token =>
                            renders (browser := example_browser) token = true)
                    [JObj []])
    by (repeat constructor).
  split; [exact Hbody|]. split; [reflexivity|]. split; [reflexivity|].
  split; [reflexivity|]. split; [reflexivity|].
  pose proof (unconvertible_field_fails_table (browser := example_browser)
                example_page r data [JObj []] [] bad example_clock 2000
                Hbody eq_refl eq_refl eq_refl Hgood eq_refl eq_refl) as H.
  cbv zeta in H. exact (proj1 H).
Defined.

Lemma unconvertible_counter_fails_refresh_witness :
  let data := JObj [("tokens", JArr []); ("total_tokens", no_primitive)] in
  let r := mkResponse 200 "OK" (Normal data) in
  let w' := exec (refreshTokens (browser := example_browser) (Resolved r)
                    example_clock 2000) example_page in
  content_of "tokenTableBody" example_page <> None /\
  content_of "totalTokens" example_page <> None /\
  content_of "activeTokens" example_page <> None /\
  ok r = true /\
  json r = Normal data /\
  completion (updateTokenTable (browser := example_browser) example_clock
                data) (loading_page example_page) = Normal tt /\
  counters_convert (browser := example_browser) data = false /\
  content_of "tokenTableBody" w'
  = Some
      (error_markup
         (escape_text
            ("Failed to load: "
               ++ "Cannot convert object to primitive value"))) /\
  content_of "lastUpdate" w' = Some "-".
Proof.
  intros data r w'.
  assert (Hbody : content_of "tokenTableBody" example_page <> None)
    by discriminate.
  assert (Htotal : content_of "totalTokens" example_page <> None)
    by discriminate.
  assert (Hactive : content_of "activeTokens" example_page <> None)
    by discriminate.
  split; [exact Hbody|]. split; [exact Htotal|]. split; [exact Hactive|].
  split; [reflexivity|]. split; [reflexivity|]. split; [reflexivity|].
  split; [reflexivity|].
  pose proof (unconvertible_counter_fails_refresh
                (browser := example_browser) example_page r data
                example_clock 2000 Hbody Htotal Hactive eq_refl eq_refl
                eq_refl eq_refl) as H.
  cbv zeta in H. destruct H as [H1 [_ H3]].
  split; [exact H1 | exact H3].
Defined.

Lemma toggles_never_leak_witness :
  dashboard example_page = constructor_fields /\
  refresh_timers example_page = [] /\
  isAutoRefreshEnabled
    (dashboard
       (run_events (browser := example_browser) example_events example_page))
  = Nat.odd (toggles example_events).
Proof.
  pose proof (toggles_never_leak (browser := example_browser)
                example_page example_events eq_refl eq_refl) as H.
  cbv zeta in H. destruct H as [H _].
  split; [reflexivity|]. split; [reflexivity|]. exact H.
Defined.

Lemma only_held_timer_polls_witness :
  let w := run_events (browser := example_browser) example_animated
             example_page in
  let outcome := Rejected (mkError "offline") in
  dashboard example_page = constructor_fields /\
  refresh_timers example_page = [] /\
  autoRefreshInterval (dashboard w) = Some 3%positive /\
  tick (browser := example_browser) 3 outcome example_clock 2000 w
  = refreshTokens (browser := example_browser) outcome example_clock 2000 w /\
  autoRefreshInterval (dashboard w) <> Some 1%positive /\
  requests
    (exec (tick (browser := example_browser) 1 outcome example_clock 2000) w)
  = requests w.
Proof.
  intros w outcome.
  assert (Hheld : autoRefreshInterval (dashboard w) = Some 3%positive)
    by reflexivity.
  assert (Hother : autoRefreshInterval (dashboard w) <> Some 1%positive)
    by (rewrite Hheld; discriminate).
  pose proof (only_held_timer_polls (browser := example_browser)
                example_page example_animated 3 outcome example_clock 2000
                eq_refl eq_refl) as H3.
  pose proof (only_held_timer_polls (browser := example_browser)
                example_page example_animated 1 outcome example_clock 2000
                eq_refl eq_refl) as H1.
  cbv zeta in H3, H1.
  split; [reflexivity|]. split; [reflexivity|]. split; [exact Hheld|].
  split; [exact (proj1 H3 Hheld)|]. split; [exact Hother|].
  exact (proj1 (proj2 H1 Hother)).
Defined.

Lemma updateStatusBar_footprint_witness :
  let fields := [("total_tokens", JNum 0); ("active_tokens", JNum 0)] in
  exec (updateStatusBar (browser := example_browser) (JObj fields))
    example_page
  = example_page.
Proof.
  intros fields.
  pose proof (updateStatusBar_footprint (browser := example_browser) fields
                example_page) as H.
  cbv zeta in H. destruct H as [_ [_ [_ [_ H]]]].
  apply H; intros t Ht; injection Ht as <-; reflexivity.
Defined.

Lemma toggle_off_keeps_animations_witness :
  let w := run_events (browser := example_browser) example_animated
             example_page in
  dashboard example_page = constructor_fields /\
  refresh_timers example_page = [] /\
  handles_fresh example_page /\
  isAutoRefreshEnabled (dashboard w) = true /\
  List.length (animation_timers w) = 2%nat /\
  animation_timers (exec (toggleAutoRefresh (browser := example_browser)) w)
  = animation_timers w /\
  refresh_timers (exec (toggleAutoRefresh (browser := example_browser)) w)
  = [].
Proof.
  intros w.
  assert (Hfresh : handles_fresh example_page)
    by (split; constructor).
  assert (Hon : isAutoRefreshEnabled (dashboard w) = true) by reflexivity.
  pose proof (toggle_off_keeps_animations (browser := example_browser)
                example_page example_animated eq_refl eq_refl Hfresh) as H.
  cbv zeta in H. destruct (H Hon) as [H1 H2].
  split; [reflexivity|]. split; [reflexivity|]. split; [exact Hfresh|].
  split; [exact Hon|]. split; [reflexivity|].
  split; [exact H1 | exact H2].
Defined.

Lemma toggle_without_switch_witness :
  switch (document bare_page) = None /\
  completion (toggleAutoRefresh (browser := example_browser)) bare_page
  = Throw (mkError "Cannot read properties: classList") /\
  isAutoRefreshEnabled
    (dashboard
       (exec (toggleAutoRefresh (browser := example_browser)) bare_page))
  = true.
Proof.
  pose proof (toggle_without_switch (browser := example_browser) bare_page
                eq_refl) as H.
  cbv zeta in H. destruct H as [H1 [H2 _]].
  split; [reflexivity|]. split; [exact H1 | exact H2].
Defined.

Lemma refresh_without_table_body_witness :
  content_of "tokenTableBody" bare_page = None /\
  refreshTokens (browser := example_browser) (Rejected (mkError "offline"))
    example_clock 2000 bare_page
  = (Throw (mkError "Cannot set properties: innerHTML"), bare_page).
Proof.
  split; [reflexivity|].
  exact (refresh_without_table_body (browser := example_browser) bare_page
           (Rejected (mkError "offline")) example_clock 2000 eq_refl).
Defined.

Lemma start_then_stop_round_trip_witness :
  handles_fresh example_page /\
  intervals
    (exec (stopAutoRefresh)
       (exec (startAutoRefresh) example_page))
  = intervals example_page.
Proof.
  assert (Hfresh : handles_fresh example_page)
    by (split; constructor).
  pose proof (start_then_stop_round_trip example_page Hfresh) as H.
  cbv zeta in H. split; [exact Hfresh | exact (proj1 H)].
Defined.

Lemma counter_reaches_target_witness :
  let started :=
    exec (animateNumber (browser := example_browser) "totalTokens" (JNum 3))
      example_page in
  let after k :=
    run_events (browser := example_browser) (ticks_of 1 k) started in
  handles_fresh example_page /\
  content_of "totalTokens" example_page = Some "0" /\
  3 <> 0 /\
  content_of "totalTokens" (after 5%nat) = Some "1" /\
  content_of "totalTokens" (after 15%nat) = Some "3" /\
  intervals (after 15%nat) = [].
Proof.
  intros started after.
  assert (Hfresh : handles_fresh example_page)
    by (split; constructor).
  assert (Hne : 3 <> 0) by discriminate.
  assert (H5 : (1 <= 5 < 15)%nat) by (split; repeat constructor).
  pose proof (counter_reaches_target (browser := example_browser)
                "totalTokens" "0" 3 example_page Hfresh eq_refl Hne) as H.
  cbv zeta in H. destruct H as [_ [Hway [Hend [Hnone _]]]].
  split; [exact Hfresh|]. split; [reflexivity|]. split; [exact Hne|].
  split; [exact (proj1 (Hway 5%nat H5))|].
  split; [exact Hend | exact Hnone].
Defined.

Lemma loading_shown_first_witness :
  content_of "tokenTableBody" example_page = Some EmptyString /\
  content_of "tokenTableBody"
    (exec (showLoading (browser := example_browser) (Some "tokenTableBody"))
       example_page)
  = Some loading_markup /\
  contains "Loading token data..." loading_markup = true.
Proof.
  destruct (loading_shown_first (browser := example_browser) example_page
              (Rejected (mkError "offline")) example_clock 2000 EmptyString
              eq_refl) as [H1 [H2 _]].
  split; [reflexivity|]. split; [exact H1 | exact H2].
Defined.

